(** * Hay-is-for-LLMs: the server's orchestration logic

    A shallow embedding of the needle-test runner, the match evaluator,
    the provider adapters' message shaping and the conversation chain of
    the server, with the properties of its specification.

    Strings are sequences of UTF-16 code units in the source.  The
    embedding covers the code units U+0000..U+00FF (one [ascii] each, read
    as Latin-1); text with code units above U+00FF is outside it. *)

From Stdlib Require Import Strings.String Strings.Ascii.
From Stdlib Require Import NArith QArith Bool Arith Lia.
From stdpp Require Import base list strings gmap.

Set Warnings "-register-all".

Local Open Scope string_scope.
Local Open Scope list_scope.

(** ** ECMAScript string built-ins *)

Module JsString.

Definition code (c : ascii) : N := N_of_ascii c.

Definition inRange (lo hi : N) (c : ascii) : bool :=
  ((lo <=? code c) && (code c <=? hi))%N.

(** [!s] for a string: only the empty string is falsy. *)
Definition falsy (s : string) : bool :=
  match s with EmptyString => true | String _ _ => false end.

(** WhiteSpace and LineTerminator code units below U+0100: TAB, LF, VT,
    FF, CR, SP and NBSP. *)
Definition isWhiteSpace (c : ascii) : bool :=
  inRange 9 13 c || (code c =? 32)%N || (code c =? 160)%N.

Fixpoint trimStart (s : string) : string :=
  match s with
  | EmptyString => EmptyString
  | String c s' => if isWhiteSpace c then trimStart s' else s
  end.

Fixpoint trimEnd (s : string) : string :=
  match s with
  | EmptyString => EmptyString
  | String c s' =>
      match trimEnd s' with
      | EmptyString => if isWhiteSpace c then EmptyString else String c EmptyString
      | t => String c t
      end
  end.

Definition trim (s : string) : string := trimEnd (trimStart s).

(** [String.prototype.toLowerCase] on one code unit: A-Z and the Latin-1
    capitals U+00C0..U+00DE (without the multiplication sign U+00D7). *)
Definition toLowerCaseChar (c : ascii) : ascii :=
  if inRange 65 90 c || inRange 192 214 c || inRange 216 222 c
  then ascii_of_N (code c + 32)
  else c.

Fixpoint toLowerCase (s : string) : string :=
  match s with
  | EmptyString => EmptyString
  | String c s' => String (toLowerCaseChar c) (toLowerCase s')
  end.

(** [String.prototype.includes]: [needle] occurs somewhere in [s]. *)
Fixpoint includes (s needle : string) : bool :=
  String.prefix needle s ||
  match s with
  | EmptyString => false
  | String _ s' => includes s' needle
  end.

(** [Array.prototype.join] on strings. *)
Fixpoint join (sep : string) (parts : list string) : string :=
  match parts with
  | [] => EmptyString
  | [p] => p
  | p :: rest => p +:+ sep +:+ join sep rest
  end.

End JsString.

(** ** The fragment of ECMAScript regular expressions built by the match
    evaluator *)

Module JsRegExp.
Import JsString.

(** SyntaxCharacter of the pattern grammar. *)
Definition isSyntaxCharacter (c : ascii) : bool :=
  existsb (Ascii.eqb c)
    ["^"; "$"; "\"; "."; "*"; "+"; "?"; "("; ")"; "["; "]"; "{"; "}"; "|"]%char.

(** Terms of the fragment: a literal pattern character and the
    word-boundary assertion [\b]. *)
Inductive Term : Type :=
| PatternCharacter (c : ascii)
| WordBoundary.

(** Parser of the fragment.  An unescaped syntax character, an escape
    other than [\b] or an identity escape of a syntax character, and a
    trailing backslash are not part of it: [None]. *)
Fixpoint parsePattern (src : string) : option (list Term) :=
  match src with
  | EmptyString => Some []
  | String "\" EmptyString => None
  | String "\" (String c rest) =>
      if Ascii.eqb c "b" then cons WordBoundary <$> parsePattern rest
      else if isSyntaxCharacter c then cons (PatternCharacter c) <$> parsePattern rest
      else None
  | String c rest =>
      if isSyntaxCharacter c then None
      else cons (PatternCharacter c) <$> parsePattern rest
  end.

Record RegExp : Type := mkRegExp { pattern : list Term; ignoreCase : bool }.

(** [new RegExp(src, flags)] for the flags [""] and ["i"]. *)
Definition newRegExp (src flags : string) : option RegExp :=
  match parsePattern src with
  | Some p => Some (mkRegExp p (includes flags "i"))
  | None => None
  end.

(** [String.prototype.toUpperCase] on one code unit, as the list of code
    units it yields: the sharp s becomes two, the micro sign and the y
    with diaeresis leave Latin-1. *)
Definition toUpperCaseChar (c : ascii) : list N :=
  if inRange 97 122 c || inRange 224 246 c || inRange 248 254 c
  then [(code c - 32)%N]
  else if (code c =? 223)%N then [83%N; 83%N]
  else if (code c =? 181)%N then [924%N]
  else if (code c =? 255)%N then [376%N]
  else [code c].

(** Canonicalize of the specification, without the unicode flag. *)
Definition Canonicalize (ic : bool) (c : ascii) : N :=
  if ic then
    match toUpperCaseChar c with
    | [cu] => if ((128 <=? code c) && (cu <? 128))%N then code c else cu
    | _ => code c
    end
  else code c.

(** IsWordChar: [A-Za-z0-9_]; [None] is the position before the first or
    after the last character. *)
Definition isWordChar (c : option ascii) : bool :=
  match c with
  | None => false
  | Some c =>
      inRange 97 122 c || inRange 65 90 c || inRange 48 57 c || (code c =? 95)%N
  end.

Definition headChar (s : string) : option ascii :=
  match s with EmptyString => None | String c _ => Some c end.

(** Matching the terms at one position: [prev] is the character before
    the position and [rest] the input from it on. *)
Fixpoint matchHere (ic : bool) (p : list Term) (prev : option ascii) (rest : string) : bool :=
  match p with
  | [] => true
  | WordBoundary :: p' =>
      xorb (isWordChar prev) (isWordChar (headChar rest)) && matchHere ic p' prev rest
  | PatternCharacter c :: p' =>
      match rest with
      | EmptyString => false
      | String d rest' =>
          (Canonicalize ic c =? Canonicalize ic d)%N && matchHere ic p' (Some d) rest'
      end
  end.

(** The search of [RegExp.prototype.exec]: every start position, from
    the left. *)
Fixpoint searchFrom (ic : bool) (p : list Term) (prev : option ascii) (rest : string) : bool :=
  matchHere ic p prev rest ||
  match rest with
  | EmptyString => false
  | String d rest' => searchFrom ic p (Some d) rest'
  end.

Definition test (re : RegExp) (s : string) : bool :=
  searchFrom (ignoreCase re) (pattern re) None s.

End JsRegExp.

(** ** Match evaluator: [NeedleTestManager.checkExactMatch] *)

Import JsString JsRegExp.

(** [s.replace(/[.*+?^${}()|[\]\\]/g, '\\$&')]: every syntax character gets
    a backslash in front. *)
Fixpoint escapeRegExp (s : string) : string :=
  match s with
  | EmptyString => EmptyString
  | String c s' =>
      if isSyntaxCharacter c then String "\" (String c (escapeRegExp s'))
      else String c (escapeRegExp s')
  end.

Inductive Thrown (A : Type) : Type :=
| Ret (a : A)
| Throw (message : string).
Arguments Ret {A} a.
Arguments Throw {A} message.

(** The source of the word-boundary pattern of a target. *)
Definition wordBoundarySource (target : string) : string :=
  "\b" +:+ escapeRegExp target +:+ "\b".

Definition checkExactMatch (response exactMatch : string) : Thrown bool :=
  if falsy response || falsy exactMatch then Ret false
  else
    let cleanResponse := trim response in
    let cleanExactMatch := trim exactMatch in
    if falsy cleanResponse || falsy cleanExactMatch then Ret false
    else
      let responseLower := toLowerCase cleanResponse in
      let exactMatchLower := toLowerCase cleanExactMatch in
      match newRegExp (wordBoundarySource exactMatchLower) "i" with
      | None => Throw "Invalid regular expression"
      | Some wordBoundaryRegex =>
          let hasWordBoundary := test wordBoundaryRegex responseLower in
          Ret hasWordBoundary
      end.


(** The match as the specification words it: the target, escaped and
    wrapped in word boundaries, tested case-insensitively. *)
Definition matchesWholeWord (response target : string) : bool :=
  match newRegExp (wordBoundarySource target) "i" with
  | Some re => test re response
  | None => false
  end.

(** Lower-casing a term of a pattern. *)
Definition lowerTerm (t : Term) : Term :=
  match t with
  | PatternCharacter c => PatternCharacter (toLowerCaseChar c)
  | WordBoundary => WordBoundary
  end.

(** ** Structured-responses envelope: [AIModelManager.generateOpenAIResponse] *)

(** A decoded provider response.  Numbers are integers here; no decision
    of the adapter depends on a fractional one. *)
Inductive JsValue : Type :=
| JsUndefined
| JsNull
| JsBool (b : bool)
| JsNumber (n : Z)
| JsStr (s : string)
| JsArray (items : list JsValue)
| JsObject (fields : list (string * JsValue)).

(** ToBoolean. *)
Definition truthy (v : JsValue) : bool :=
  match v with
  | JsUndefined | JsNull => false
  | JsBool b => b
  | JsNumber n => negb (n =? 0)%Z
  | JsStr s => negb (falsy s)
  | JsArray _ | JsObject _ => true
  end.

(** Own property lookup; an object lists each of its names once. *)
Fixpoint assoc (name : string) (fields : list (string * JsValue)) : JsValue :=
  match fields with
  | [] => JsUndefined
  | (k, v) :: rest => if String.eqb k name then v else assoc name rest
  end.

(** [v.name] for the names the adapter reads.  Only an object has them;
    on [undefined] and [null] the source would throw, and every access
    there is behind a truthiness test of [v], a false conjunct here. *)
Definition field (v : JsValue) (name : string) : JsValue :=
  match v with
  | JsObject fields => assoc name fields
  | _ => JsUndefined
  end.

(** [v[0]]: the first element of an array, the first code unit of a
    string, the property ["0"] of an object. *)
Definition at0 (v : JsValue) : JsValue :=
  match v with
  | JsArray (x :: _) => x
  | JsStr (String c _) => JsStr (String c EmptyString)
  | JsObject fields => assoc "0" fields
  | _ => JsUndefined
  end.

Definition UNEXPECTED_FORMAT : string :=
  "Unexpected response format from OpenAI Responses API".

(** The extraction chain of the responses branch, on the value the
    provider call resolved to.  [Object.keys(response)] in the failure
    path throws a TypeError of its own on [undefined] and [null]. *)
Definition extractResponsesText (response : JsValue) : Thrown JsValue :=
  let unexpected :=
    match response with
    | JsUndefined | JsNull => Throw "Cannot convert undefined or null to object"
    | _ => Throw UNEXPECTED_FORMAT
    end in
  if truthy response && truthy (field response "output_text") then
    Ret (field response "output_text")
  else if truthy response && truthy (field response "text")
          && truthy (field (field response "text") "content") then
    Ret (field (field response "text") "content")
  else if truthy response && truthy (field response "output")
          && truthy (at0 (field response "output"))
          && truthy (field (at0 (field response "output")) "content")
          && truthy (at0 (field (at0 (field response "output")) "content"))
          && truthy (field (at0 (field (at0 (field response "output")) "content")) "text") then
    Ret (field (at0 (field (at0 (field response "output")) "content")) "text")
  else if truthy response && truthy (field response "choices")
          && truthy (at0 (field response "choices")) then
    let choice := at0 (field response "choices") in
    if truthy (field choice "text") then Ret (field choice "text")
    else if truthy (field choice "message")
            && truthy (field (field choice "message") "content") then
      Ret (field (field choice "message") "content")
    else unexpected
  else if truthy response && truthy (field response "output")
          && truthy (field (field response "output") "text") then
    Ret (field (field response "output") "text")
  else if truthy response && truthy (field response "content") then
    Ret (field response "content")
  else unexpected.

(** The response shapes the chain knows, in the order of its tests. *)
Definition knownShapes : list (JsValue -> JsValue) :=
  [ (fun r => field r "output_text");
    (fun r => field (field r "text") "content");
    (fun r => field (at0 (field (at0 (field r "output")) "content")) "text");
    (fun r => field (at0 (field r "choices")) "text");
    (fun r => field (field (at0 (field r "choices")) "message") "content");
    (fun r => field (field r "output") "text");
    (fun r => field r "content") ].

(** A response whose first choice carries neither [text] nor
    [message.content], next to a top-level [content]. *)
Definition choiceWithoutText : JsValue :=
  JsObject [ ("choices", JsArray [JsObject [("finish_reason", JsStr "stop")]]);
             ("content", JsStr "hello") ].

(** ** Messages *)

Inductive Role : Type := RoleUser | RoleAi.

(** A transcript entry; [id] and [timestamp] (a fresh uuid and the wall
    clock) are left out. *)
Record Message : Type := mkMessage {
  provider : string;
  content : string;
  role : Role
}.

Definition PLACEHOLDER : string := "(Previous turn provided no text output)".

Definition isUser (msg : Message) : bool := String.eqb (provider msg) "user".

(** [messages.find(msg => msg.provider === 'user')?.content || 'General discussion'] *)
Definition findInitialPrompt (messages : list Message) : string :=
  match List.find isUser messages with
  | Some msg => if falsy (content msg) then "General discussion" else content msg
  | None => "General discussion"
  end.

(** ** Gemini adapter: [AIModelManager.generateGeminiResponse] *)

Definition geminiValid (msg : Message) : bool :=
  negb (falsy (content msg)) && (0 <? String.length (trim (content msg)))%nat.

Definition LF : string := String "010" EmptyString.
Definition QUOTE : string := String "034" EmptyString.

Definition geminiFraming (initialPrompt : string) : string :=
  "You are having a natural conversation with other AIs about: " +:+ QUOTE
  +:+ initialPrompt +:+ QUOTE +:+ LF +:+ LF
  +:+ "Respond naturally by: building on previous points, sharing your own perspective, agreeing or respectfully disagreeing, making observations, or offering new angles. Mix up your response style - sometimes make statements, sometimes share insights, sometimes pose questions, but don't end every response with a question. Keep the conversation flowing naturally like friends discussing a topic. Be authentic and avoid assistant-like phrases."
  +:+ LF +:+ LF +:+ "Conversation so far:" +:+ LF +:+ LF.

Definition geminiSpeaker (msg : Message) : string :=
  if isUser msg then "Human" else "AI (" +:+ provider msg +:+ ")".

Definition geminiLine (msg : Message) : string :=
  geminiSpeaker msg +:+ ": " +:+ content msg +:+ LF +:+ LF.

Definition geminiTrailer : string :=
  "Now respond naturally - maybe build on what was said, share your perspective, make an observation, or take the discussion in a new direction. Don't feel obligated to ask a question:".

(** The prompt handed to [model.generateContent], or the throw before it. *)
Definition geminiPrompt (messages : list Message) : Thrown string :=
  let validMessages := List.filter geminiValid messages in
  if (length validMessages =? 0)%nat then Throw "No valid messages to process"
  else
    let initialPrompt := findInitialPrompt validMessages in
    let conversationContext :=
      fold_left (fun acc msg => acc +:+ geminiLine msg) validMessages
                (geminiFraming initialPrompt) in
    Ret (conversationContext +:+ geminiTrailer).

(** The adapter with the provider as [generateContent]: the list of
    prompts sent, and the text or the failure. *)
Definition generateGeminiResponse (generateContent : string -> Thrown string)
    (messages : list Message) : list string * Thrown string :=
  match geminiPrompt messages with
  | Throw e => ([], Throw e)
  | Ret conversationContext =>
      ([conversationContext],
       match generateContent conversationContext with
       | Throw e => Throw e
       | Ret responseText =>
           if falsy responseText || (String.length (trim responseText) =? 0)%nat
           then Throw "Empty response from Gemini"
           else Ret responseText
       end)
  end.

(** ** Claude adapter: the message shaping of
    [AIModelManager.generateClaudeResponse] *)

Inductive ApiRole : Type := ApiUser | ApiAssistant.

Record ClaudeMessage : Type := mkClaude { apiRole : ApiRole; apiContent : string }.

(** [msg.role === 'ai' ? 'assistant' : msg.role] *)
Definition toApiRole (r : Role) : ApiRole :=
  match r with RoleAi => ApiAssistant | RoleUser => ApiUser end.

Definition apiRole_eqb (a b : ApiRole) : bool :=
  match a, b with
  | ApiUser, ApiUser | ApiAssistant, ApiAssistant => true
  | _, _ => false
  end.

Definition claudeKeep (msg : Message) : bool :=
  negb (falsy (content msg)) && negb (includes (content msg) PLACEHOLDER).

Definition appendContent (extra : string) (m : ClaudeMessage) : ClaudeMessage :=
  mkClaude (apiRole m) (apiContent m +:+ LF +:+ LF +:+ extra).

(** One iteration of the merging loop.  [processedMessages] holds the
    first message before the loop starts, so its last entry exists. *)
Definition mergeInto (processedMessages : list ClaudeMessage) (currentMessage : Message)
    : list ClaudeMessage :=
  let currentRole := toApiRole (role currentMessage) in
  let pushed := processedMessages ++ [mkClaude currentRole (content currentMessage)] in
  match last processedMessages with
  | None => pushed
  | Some lastProcessedMessage =>
      let merged :=
        <[length processedMessages - 1 :=
            appendContent (content currentMessage) lastProcessedMessage]> processedMessages in
      if apiRole_eqb currentRole ApiAssistant
         && apiRole_eqb (apiRole lastProcessedMessage) ApiAssistant then merged
      else if apiRole_eqb currentRole ApiUser
              && apiRole_eqb (apiRole lastProcessedMessage) ApiUser then merged
      else pushed
  end.

Definition CONTINUE_PROMPT : string := "Please continue the conversation.".

Definition shapeClaudeMessages (messages : list Message) : list ClaudeMessage :=
  let initialPrompt := findInitialPrompt messages in
  let processedMessages :=
    if (0 <? length messages)%nat then
      match List.filter claudeKeep messages with
      | [] => []
      | first :: rest =>
          fold_left mergeInto rest [mkClaude (toApiRole (role first)) (content first)]
      end
    else [] in
  let processedMessages :=
    if (length processedMessages =? 0)%nat
    then [mkClaude ApiUser (if falsy initialPrompt then "Hello" else initialPrompt)]
    else processedMessages in
  match last processedMessages with
  | Some m =>
      if apiRole_eqb (apiRole m) ApiAssistant
      then processedMessages ++ [mkClaude ApiUser CONTINUE_PROMPT]
      else processedMessages
  | None => processedMessages
  end.


Definition toClaude (msg : Message) : ClaudeMessage :=
  mkClaude (toApiRole (role msg)) (content msg).



(** ** Credential resolver: [AIModelManager.getApiKey] *)

Section Credentials.

(** The process-wide keys, the per-caller encrypted keys and the
    decryption. *)
Variable ENV_API_KEYS : gmap string string.
Variable userApiKeys : gmap string (gmap string string).
Variable decryptApiKey : string -> string.

Definition truthyKey (k : option string) : bool :=
  match k with Some s => negb (falsy s) | None => false end.

Definition getApiKey (provider userId : string) : option string :=
  if truthyKey (ENV_API_KEYS !! provider) then ENV_API_KEYS !! provider
  else
    match userApiKeys !! userId with
    | Some userKeys =>
        if truthyKey (userKeys !! provider)
        then decryptApiKey <$> (userKeys !! provider)
        else None
    | None => None
    end.

End Credentials.

(** ** Events sent over the socket *)

Inductive Event : Type :=
| AiThinking (modelId : string)
| NeedleTestResult (modelId response : string) (foundNeedle : bool)
| NeedleTestError (modelId error : string)
| AllTestsComplete
| NewMessage (message : Message)
| ConversationEnded (conversationId reason : string)
| ErrorEvent (message modelId : string).

(** ** Needle-test orchestrator: [NeedleTestManager.runNeedleTest] *)

Record ModelConfig : Type := mkModelConfig {
  modelId : string;
  temperature : option Q;
  maxTokens : option N
}.

Record GenConfig : Type := mkGenConfig { genTemperature : Q; genMaxTokens : N }.

(** [modelConfig.temperature || 0.7] and [modelConfig.maxTokens || 1000] *)
Definition needleGenConfig (modelConfig : ModelConfig) : GenConfig :=
  mkGenConfig
    match temperature modelConfig with
    | Some t => if Qeq_bool t 0 then (7 # 10)%Q else t
    | None => (7 # 10)%Q
    end
    match maxTokens modelConfig with
    | Some 0%N | None => 1000%N
    | Some n => n
    end.

Definition needlePrompt (needle haystack : string) : string :=
  needle +:+ LF +:+ LF +:+ "Context document:" +:+ LF +:+ haystack.

Section NeedleTest.

(** The provider adapter; its first argument numbers the dispatched call,
    so that two calls for one model id may end differently. *)
Variable generateResponseWithConfig :
  nat -> string -> list Message -> string -> GenConfig -> Thrown string.

Variables userId haystack needle exactMatch : string.

(** What one dispatched call emits once its provider call has settled:
    the continuation of the [await], with its [catch]. *)
Definition settleTask (i : nat) (modelConfig : ModelConfig) : Event :=
  let messages := [mkMessage "user" (needlePrompt needle haystack) RoleUser] in
  match generateResponseWithConfig i (modelId modelConfig) messages userId
          (needleGenConfig modelConfig) with
  | Throw error => NeedleTestError (modelId modelConfig) error
  | Ret response =>
      match checkExactMatch response exactMatch with
      | Throw error => NeedleTestError (modelId modelConfig) error
      | Ret foundNeedle => NeedleTestResult (modelId modelConfig) response foundNeedle
      end
  end.

(** The event loop runs the continuations of the settled calls one at a
    time, in an order the orchestrator does not control: [sched] picks,
    at every step, which of the calls still in flight settles next. *)
Fixpoint settleInOrder (sched : list nat) (pending : list Event) (fuel : nat) : list Event :=
  match fuel with
  | 0 => []
  | S fuel' =>
      let k := hd 0 sched `mod` length pending in
      match pending !! k with
      | Some e => e :: settleInOrder (tl sched) (delete k pending) fuel'
      | None => []
      end
  end.

(** [models.map(async ...)] runs every task up to its [await], emitting
    the thinking notifications in list order; [Promise.all] resumes the
    orchestrator after the last continuation. *)
Definition runNeedleTest (sched : list nat) (models : list ModelConfig) : list Event :=
  (AiThinking <$> (modelId <$> models))
  ++ settleInOrder sched (imap settleTask models) (length models)
  ++ [AllTestsComplete].

End NeedleTest.

Definition isComplete (e : Event) : bool :=
  match e with AllTestsComplete => true | _ => false end.

Definition isResult (e : Event) : bool :=
  match e with NeedleTestResult _ _ _ => true | _ => false end.

Definition isEnded (e : Event) : bool :=
  match e with ConversationEnded _ _ => true | _ => false end.

Definition isThinking (e : Event) : bool :=
  match e with AiThinking _ => true | _ => false end.


(** ** Conversations: [ConversationManager] *)

Record Conversation : Type := mkConversation {
  id : string;
  userId : string;
  participants : list string;
  messages : list Message;
  initialGoal : option string;
  currentTurn : nat;
  isActive : bool;
  emptyResponseCount : nat
}.

Definition setMessages (v : list Message) (c : Conversation) : Conversation :=
  mkConversation (id c) (userId c) (participants c) v (initialGoal c)
                 (currentTurn c) (isActive c) (emptyResponseCount c).
Definition setInitialGoal (v : option string) (c : Conversation) : Conversation :=
  mkConversation (id c) (userId c) (participants c) (messages c) v
                 (currentTurn c) (isActive c) (emptyResponseCount c).
Definition setCurrentTurn (v : nat) (c : Conversation) : Conversation :=
  mkConversation (id c) (userId c) (participants c) (messages c) (initialGoal c)
                 v (isActive c) (emptyResponseCount c).
Definition setIsActive (v : bool) (c : Conversation) : Conversation :=
  mkConversation (id c) (userId c) (participants c) (messages c) (initialGoal c)
                 (currentTurn c) v (emptyResponseCount c).
Definition setEmptyResponseCount (v : nat) (c : Conversation) : Conversation :=
  mkConversation (id c) (userId c) (participants c) (messages c) (initialGoal c)
                 (currentTurn c) (isActive c) v.

(** [createConversation], for the object it stores under a fresh id. *)
Definition newConversation (conversationId userId : string) (participants : list string)
    : Conversation :=
  mkConversation conversationId userId participants [] None 0 false 0.

(** [!conversation.initialGoal]: unset, or set to the empty string. *)
Definition goalUnset (c : Conversation) : bool :=
  match initialGoal c with None => true | Some g => falsy g end.

(** [addMessage] on the conversation object it looked up. *)
Definition addMessage (modelId content : string) (conversation : Conversation)
    : Conversation * Message :=
  let message :=
    mkMessage modelId content (if String.eqb modelId "user" then RoleUser else RoleAi) in
  let conversation :=
    if String.eqb modelId "user" && goalUnset conversation
    then setInitialGoal (Some content) conversation
    else conversation in
  (setMessages (messages conversation ++ [message]) conversation, message).

(** [getConversationHistory]: [messages.slice(-limit)]; [slice(-0)] is
    [slice(0)], the whole transcript. *)
Definition getConversationHistory (limit : nat) (conversation : Conversation) : list Message :=
  if (limit =? 0)%nat then messages conversation
  else drop (length (messages conversation) - limit) (messages conversation).

(** The store of the manager, conversation id to conversation object. *)
Module ConversationManager.

Definition createConversation (conversationId userId : string) (participants : list string)
    (conversations : gmap string Conversation) : gmap string Conversation :=
  <[conversationId := newConversation conversationId userId participants]> conversations.

Definition getConversation (conversationId : string)
    (conversations : gmap string Conversation) : option Conversation :=
  conversations !! conversationId.

Definition addMessage (conversationId modelId content : string)
    (conversations : gmap string Conversation)
    : gmap string Conversation * option Message :=
  match conversations !! conversationId with
  | Some conversation =>
      let '(conversation', message) := addMessage modelId content conversation in
      (<[conversationId := conversation']> conversations, Some message)
  | None => (conversations, None)
  end.

Definition stopConversation (conversationId : string)
    (conversations : gmap string Conversation) : gmap string Conversation * bool :=
  match conversations !! conversationId with
  | Some conversation =>
      (<[conversationId := setIsActive false conversation]> conversations, true)
  | None => (conversations, false)
  end.

End ConversationManager.

(** ** Conversation chain: [startConversationChain] and
    [continueConversationChain] *)

(** [names.includes(model)] *)
Definition memberOf (model : string) (names : list string) : bool :=
  existsb (String.eqb model) names.

(** The property names every object inherits from [Object.prototype]:
    [table[name]] on one of them finds the inherited function or object,
    which is truthy and has no field of a table entry. *)
Definition OBJECT_PROTOTYPE : list string :=
  [ "constructor"; "__defineGetter__"; "__defineSetter__"; "hasOwnProperty";
    "__lookupGetter__"; "__lookupSetter__"; "isPrototypeOf"; "propertyIsEnumerable";
    "toString"; "valueOf"; "__proto__"; "toLocaleString" ].

Definition ownName (name : string) : bool := negb (memberOf name OBJECT_PROTOTYPE).

(** The property key that the value inherited under [name] becomes when
    it indexes another object: [Object.prototype] (under [__proto__])
    prints as "[object Object]", and a built-in function as Node prints
    it, [Object] under [constructor] and the function of the same name
    under the others. *)
Definition inheritedKey (name : string) : option string :=
  if String.eqb name "__proto__" then Some "[object Object]"
  else if String.eqb name "constructor" then Some "function Object() { [native code] }"
  else if memberOf name OBJECT_PROTOTYPE
       then Some ("function " +:+ name +:+ "() { [native code] }")
       else None.

(** The model table of [continueConversationChain]. *)
Definition modelMapping : list (string * string) :=
  [ ("gpt-4", "openai"); ("gpt-4-turbo", "openai"); ("gpt-4o-mini", "openai");
    ("gpt-3.5-turbo", "openai");
    ("gemini-2.5-pro", "google"); ("gemini-2.0-flash", "google");
    ("gemini-2.0-flash-lite", "google");
    ("gemini-1.5-pro", "google"); ("gemini-1.5-flash", "google");
    ("gemini-1.0-pro", "google");
    ("gemini-2.5-flash-preview-05-20", "google");
    ("gemini-2.5-pro-preview-05-06", "google");
    ("claude-3-opus", "anthropic"); ("claude-3-sonnet", "anthropic");
    ("claude-3-haiku", "anthropic"); ("claude-instant", "anthropic") ].

(** The own property [testModelId] of a table written as an object
    literal. *)
Fixpoint ownProperty (table : list (string * string)) (testModelId : string)
    : option string :=
  match table with
  | [] => None
  | (k, v) :: rest => if String.eqb k testModelId then Some v else ownProperty rest testModelId
  end.

(** [modelMapping[testModelId]], as the property key under which
    [getApiKey] looks it up: the provider the table names, or what the
    value inherited from [Object.prototype] prints as; [None] is
    [undefined]. *)
Definition providerOf (table : list (string * string)) (testModelId : string)
    : option string :=
  match ownProperty table testModelId with
  | Some provider => Some provider
  | None => inheritedKey testModelId
  end.

Definition ANTHROPIC_EMPTY : string :=
  "Anthropic response content was empty or not in the expected text format.".

Definition MESSAGE_LIMIT : nat := 30.
Definition EMPTY_LIMIT : nat := 5.

(** The callback a turn leaves with [setTimeout]: the one after a
    placeholder or a failure (1500 ms) re-checks the active flag, the one
    after a message (2000 ms) also the length of the transcript. *)
Inductive Timer : Type :=
| NoTimer
| RecheckActive
| RecheckActiveAndLimit.

(** What a turn finds outside the conversation: the credential stores and
    the answer of the provider adapter to the call of this turn. *)
Record TurnEnv : Type := mkTurnEnv {
  envApiKeys : gmap string string;
  userKeys : gmap string (gmap string string);
  generateResponse : string -> list Message -> string -> Thrown string
}.

Section Chain.

Variable decryptApiKey : string -> string.

(** [provider && aiManager.getApiKey(provider, conversation.userId)] *)
Definition hasApiKey (env : TurnEnv) (conversation : Conversation) (testModelId : string)
    : bool :=
  match providerOf modelMapping testModelId with
  | Some provider =>
      truthyKey (getApiKey (envApiKeys env) (userKeys env) decryptApiKey
                           provider (userId conversation))
  | None => false
  end.

(** In the words of the specification: the provider of a participant
    has a resolvable credential for the owner.  The provider is the one
    in the row of the participant in the table of the chain, or what the
    value inherited under that name prints as; the credential is the key,
    not empty, that [getApiKey] resolves for it. *)
Definition hasResolvableCredential (env : TurnEnv) (owner modelId : string) : Prop :=
  exists provider key : string,
    (In (modelId, provider) modelMapping \/ inheritedKey modelId = Some provider)
    /\ getApiKey (envApiKeys env) (userKeys env) decryptApiKey provider owner = Some key
    /\ key <> "".

(** The [while] loop looking for a model with a key: [remaining] is
    [participants.length - attempts]. *)
Fixpoint scanParticipants (env : TurnEnv) (conversation : Conversation)
    (remaining attempts : nat) : option string :=
  match remaining with
  | 0 => None
  | S remaining' =>
      let modelIndex :=
        (currentTurn conversation + attempts) `mod` length (participants conversation) in
      match participants conversation !! modelIndex with
      | Some testModelId =>
          if hasApiKey env conversation testModelId then Some testModelId
          else scanParticipants env conversation remaining' (S attempts)
      | None => scanParticipants env conversation remaining' (S attempts)
      end
  end.

Definition selectModel (env : TurnEnv) (conversation : Conversation) : option string :=
  scanParticipants env conversation (length (participants conversation)) 0.

Definition isBlank (responseText : string) : bool :=
  falsy responseText || (String.length (trim responseText) =? 0)%nat.

(** The placeholder branch shared by the blank answer and the Anthropic
    empty-content failure, up to the ceiling test: the placeholder is
    appended and the counter incremented. *)
Definition recordEmpty (currentModelId : string) (conversation : Conversation)
    : Conversation :=
  let conversation := fst (addMessage currentModelId PLACEHOLDER conversation) in
  setEmptyResponseCount (S (emptyResponseCount conversation)) conversation.

Definition continueConversationChain (env : TurnEnv) (conversation : Conversation)
    : Conversation * list Event * Timer :=
  if negb (isActive conversation) then (conversation, [], NoTimer)
  else
    match selectModel env conversation with
    | None =>
        (setIsActive false conversation,
         [ConversationEnded (id conversation) "No models with API keys available"],
         NoTimer)
    | Some currentModelId =>
        let history := getConversationHistory 20 conversation in
        let thinking := AiThinking currentModelId in
        match generateResponse env currentModelId history (userId conversation) with
        | Ret responseText =>
            if isBlank responseText then
              let conversation := recordEmpty currentModelId conversation in
              if (EMPTY_LIMIT <=? emptyResponseCount conversation)%nat then
                (setIsActive false conversation,
                 [thinking; ConversationEnded (id conversation) "Too many empty responses"],
                 NoTimer)
              else
                (setCurrentTurn (S (currentTurn conversation)) conversation,
                 [thinking], RecheckActive)
            else
              let conversation := setEmptyResponseCount 0 conversation in
              let '(conversation, message) :=
                addMessage currentModelId responseText conversation in
              (setCurrentTurn (S (currentTurn conversation)) conversation,
               [thinking; NewMessage message], RecheckActiveAndLimit)
        | Throw message =>
            if String.eqb message ANTHROPIC_EMPTY then
              let conversation := recordEmpty currentModelId conversation in
              if (EMPTY_LIMIT <=? emptyResponseCount conversation)%nat then
                (setIsActive false conversation,
                 [thinking;
                  ConversationEnded (id conversation) "Too many empty/failed responses"],
                 NoTimer)
              else
                (setCurrentTurn (S (currentTurn conversation)) conversation,
                 [thinking], RecheckActive)
            else
              (setCurrentTurn (S (currentTurn conversation)) conversation,
               [thinking;
                ErrorEvent ("Error with " +:+ currentModelId +:+ ": " +:+ message)
                           currentModelId],
               RecheckActive)
        end
    end.

Definition startConversationChain (env : TurnEnv) (initialPrompt : string)
    (conversation : Conversation) : Conversation * list Event * Timer :=
  let conversation := setIsActive true conversation in
  let initialMessage :=
    mkMessage "user" (if falsy initialPrompt then "Hello" else initialPrompt) RoleUser in
  let conversation := setMessages (messages conversation ++ [initialMessage]) conversation in
  let '(conversation, events, timer) := continueConversationChain env conversation in
  (conversation, NewMessage initialMessage :: events, timer).

(** Whether the answer of a turn is counted as empty, and the reason the
    chain gives when the count ends it. *)
Definition countsAsEmpty (outcome : Thrown string) : bool :=
  match outcome with
  | Ret responseText => isBlank responseText
  | Throw message => String.eqb message ANTHROPIC_EMPTY
  end.

Definition ceilingReason (outcome : Thrown string) : string :=
  match outcome with
  | Ret _ => "Too many empty responses"
  | Throw _ => "Too many empty/failed responses"
  end.

(** What a pending callback does when it fires. *)
Inductive Fired : Type :=
| NextTurn
| Ends (conversation : Conversation) (events : list Event)
| Lapses.

Definition fire (timer : Timer) (currentConversation : Conversation) : Fired :=
  match timer with
  | NoTimer => Lapses
  | RecheckActive =>
      if isActive currentConversation then NextTurn else Lapses
  | RecheckActiveAndLimit =>
      if isActive currentConversation
         && (length (messages currentConversation) <? MESSAGE_LIMIT)%nat then NextTurn
      else if isActive currentConversation then
        Ends (setIsActive false currentConversation)
             [ConversationEnded (id currentConversation) "Message limit reached"]
      else Lapses
  end.

(** The chain from a pending callback on, one environment per turn taken;
    when [envs] runs out, the callback is still pending. *)
Fixpoint runChain (envs : list TurnEnv) (timer : Timer) (conversation : Conversation)
    : Conversation * list Event * Timer :=
  match fire timer conversation with
  | Lapses => (conversation, [], NoTimer)
  | Ends conversation' events => (conversation', events, NoTimer)
  | NextTurn =>
      match envs with
      | [] => (conversation, [], timer)
      | env :: envs' =>
          let '(conversation1, events1, timer1) :=
            continueConversationChain env conversation in
          let '(conversation2, events2, timer2) := runChain envs' timer1 conversation1 in
          (conversation2, events1 ++ events2, timer2)
      end
  end.

(** A conversation from its start: the first turn runs at once, the later
    ones from the callbacks. *)
Definition runConversation (env : TurnEnv) (envs : list TurnEnv) (initialPrompt : string)
    (conversation : Conversation) : Conversation * list Event * Timer :=
  let '(conversation1, events1, timer1) :=
    startConversationChain env initialPrompt conversation in
  let '(conversation2, events2, timer2) := runChain envs timer1 conversation1 in
  (conversation2, events1 ++ events2, timer2).

End Chain.

(** Store-level entry points: the conversation is looked up by id, and a
    missing one ends the call at once. *)
Definition continueConversationChainById (decryptApiKey : string -> string)
    (env : TurnEnv) (conversationId : string) (conversations : gmap string Conversation)
    : gmap string Conversation * list Event * Timer :=
  match ConversationManager.getConversation conversationId conversations with
  | None => (conversations, [], NoTimer)
  | Some conversation =>
      let '(conversation', events, timer) :=
        continueConversationChain decryptApiKey env conversation in
      (<[conversationId := conversation']> conversations, events, timer)
  end.

(** ** Provider adapter: [AIModelManager.setApiKey], [initializeModel],
    [generateResponseWithConfig] and the provider calls *)

(** An entry of the model table of the adapter. *)
Record ModelEntry : Type := mkEntry {
  entryProvider : string;
  apiKeyField : string;
  nativeModel : string;
  apiType : option string
}.

Definition openaiEntry (model apiType : string) : ModelEntry :=
  mkEntry "openai" "openai" model (Some apiType).
Definition googleEntry (model : string) : ModelEntry :=
  mkEntry "google" "google" model None.
Definition anthropicEntry (model : string) : ModelEntry :=
  mkEntry "anthropic" "anthropic" model None.

(** The model table of [generateResponseWithConfig]. *)
Definition adapterModelMapping : list (string * ModelEntry) :=
  [ ("o3", openaiEntry "o3" "responses");
    ("o1", openaiEntry "o1" "responses");
    ("gpt-4.1", openaiEntry "gpt-4.1" "responses");
    ("gpt-4.1-nano", openaiEntry "gpt-4.1-nano" "responses");
    ("gpt-4", openaiEntry "gpt-4" "chat");
    ("gpt-4-turbo", openaiEntry "gpt-4-turbo-preview" "chat");
    ("gpt-4o-mini", openaiEntry "gpt-4o-mini" "chat");
    ("gpt-3.5-turbo", openaiEntry "gpt-3.5-turbo" "chat");
    ("gemini-2.5-pro", googleEntry "gemini-2.5-pro");
    ("gemini-2.5-flash", googleEntry "gemini-2.5-flash");
    ("gemini-2.5-flash-preview-04-17", googleEntry "gemini-2.5-flash-preview-04-17");
    ("gemini-2.5-flash-lite-preview-06-17",
     googleEntry "gemini-2.5-flash-lite-preview-06-17");
    ("gemini-2.0-flash", googleEntry "gemini-2.0-flash");
    ("gemini-2.0-flash-lite", googleEntry "gemini-2.0-flash-lite");
    ("gemini-1.5-pro", googleEntry "gemini-1.5-pro");
    ("gemini-1.5-flash", googleEntry "gemini-1.5-flash");
    ("gemini-2.5-pro-preview-05-06", googleEntry "gemini-2.5-pro-preview-05-06");
    ("claude-opus-4", anthropicEntry "claude-3-opus-20240229");
    ("claude-sonnet-4", anthropicEntry "claude-3-5-sonnet-20241022");
    ("claude-3-7-sonnet", anthropicEntry "claude-3-5-sonnet-20241022");
    ("claude-3-5-sonnet-v2", anthropicEntry "claude-3-5-sonnet-20241022");
    ("claude-3-opus", anthropicEntry "claude-3-opus-20240229");
    ("claude-3-sonnet", anthropicEntry "claude-3-5-sonnet-20241022");
    ("claude-3-haiku", anthropicEntry "claude-3-5-haiku-20241022");
    ("claude-instant", anthropicEntry "claude-3-5-haiku-20241022") ].

Fixpoint entryOf (table : list (string * ModelEntry)) (modelId : string)
    : option ModelEntry :=
  match table with
  | [] => None
  | (k, v) :: rest => if String.eqb k modelId then Some v else entryOf rest modelId
  end.

(** [this.models]: for each client, the key it was built with. *)
Record Models : Type := mkModels {
  openai : option string;
  gemini : option string;
  claude : option string
}.

(** [initializeModel]; building a client from a key does not throw. *)
Definition initializeModel (provider apiKey : string) (models : Models) : Models :=
  if String.eqb provider "openai"
  then mkModels (Some apiKey) (gemini models) (claude models)
  else if String.eqb provider "google"
  then mkModels (openai models) (Some apiKey) (claude models)
  else if String.eqb provider "anthropic"
  then mkModels (openai models) (gemini models) (Some apiKey)
  else models.

(** The per-caller key store and the clients. *)
Record KeyState : Type := mkKeyState {
  storedKeys : gmap string (gmap string string);
  clients : Models
}.

(** [setApiKey], with the encryption as [encryptApiKey]. *)
Definition setApiKey (encryptApiKey : string -> string)
    (provider apiKey userId : string) (st : KeyState) : KeyState :=
  let encryptedKey := encryptApiKey apiKey in
  let userKeys := default ∅ (storedKeys st !! userId) in
  mkKeyState (<[userId := <[provider := encryptedKey]> userKeys]> (storedKeys st))
             (initializeModel provider apiKey (clients st)).

(** The [config] argument: an absent property is [None]. *)
Record Config : Type := mkConfig {
  temperatureOpt : option Q;
  maxTokensOpt : option N
}.

(** [{ ...defaultConfig, ...config }] *)
Definition finalConfigOf (config : Config) : GenConfig :=
  mkGenConfig (default (7 # 10)%Q (temperatureOpt config))
              (default 1000%N (maxTokensOpt config)).

(** [t || d] on a number. *)
Definition orQ (t d : Q) : Q := if Qeq_bool t 0 then d else t.
Definition orN (n d : N) : N := if (n =? 0)%N then d else n.

(** The request of [responses.create]; the constant fields [text],
    [top_p] and [store] are left out. *)
Record ResponsesRequest : Type := mkResponsesRequest {
  rModel : string;
  rInput : list ClaudeMessage;
  rMaxOutputTokens : N;
  rTemperature : option Q;
  rReasoning : bool
}.

Inductive ChatRole : Type := ChatSystem | ChatUser | ChatAssistant.

Record ChatMessage : Type := mkChat { chatRole : ChatRole; chatContent : string }.

Record ChatRequest : Type := mkChatRequest {
  cModel : string;
  cMessages : list ChatMessage;
  cMaxTokens : N;
  cTemperature : Q
}.

Record ClaudeRequest : Type := mkClaudeRequest {
  aModel : string;
  aMaxTokens : N;
  aSystem : string;
  aMessages : list ClaudeMessage;
  aTemperature : Q
}.

(** A chat completion as the SDK types it: the content of the message of
    each choice, [None] for [null]. *)
Definition ChatResponse : Type := list (option string).

(** A Claude message as the SDK types it; [None] stands for a missing
    response, content list or text. *)
Record ContentBlock : Type := mkBlock { blockType : string; blockText : option string }.
Definition ClaudeResponse : Type := option (option (list ContentBlock)).

(** A call that reached a provider, with the key of the client used. *)
Inductive ProviderCall : Type :=
| ResponsesCall (apiKey : string) (request : ResponsesRequest)
| ChatCall (apiKey : string) (request : ChatRequest)
| GeminiCall (apiKey modelName prompt : string)
| ClaudeCall (apiKey : string) (request : ClaudeRequest).

(** The providers behind the SDK clients. *)
Record Sdk : Type := mkSdk {
  responsesCreate : string -> ResponsesRequest -> Thrown JsValue;
  chatCreate : string -> ChatRequest -> Thrown ChatResponse;
  geminiGenerateContent : string -> string -> string -> Thrown string;
  claudeCreate : string -> ClaudeRequest -> Thrown ClaudeResponse
}.

(** The [TypeError] of reading [property] from a client that is [null]. *)
Definition NULL_CLIENT (property : string) : string :=
  "Cannot read properties of null (reading '" +:+ property +:+ "')".
Definition NO_CHOICE : string := "Cannot read properties of undefined (reading 'message')".

Definition hasReasoning (model : string) : bool := memberOf model ["o3"; "o1"].
Definition supportsTemperature (model : string) : bool :=
  negb (memberOf model ["o3"; "o1"; "gpt-4.1"; "gpt-4.1-nano"]).

Definition responsesRequestBody (messages : list Message) (model : string)
    (config : GenConfig) : ResponsesRequest :=
  mkResponsesRequest model (toClaude <$> messages)
    (orN (genMaxTokens config) 2048)
    (if supportsTemperature model then Some (orQ (genTemperature config) (7 # 10)) else None)
    (hasReasoning model).

Definition CHAT_SYSTEM : string :=
  "You are an AI assistant that provides direct, accurate answers to questions based on provided context.".

Definition toChatMessage (msg : Message) : ChatMessage :=
  mkChat (match role msg with RoleAi => ChatAssistant | RoleUser => ChatUser end)
         (content msg).

Definition chatRequestBody (messages : list Message) (model : string)
    (config : GenConfig) : ChatRequest :=
  mkChatRequest model
    (mkChat ChatSystem CHAT_SYSTEM :: (toChatMessage <$> messages))
    (orN (genMaxTokens config) 1000) (orQ (genTemperature config) (7 # 10)).

(** [response.choices[0].message.content] *)
Definition chatContentOf (response : ChatResponse) : Thrown JsValue :=
  match response with
  | [] => Throw NO_CHOICE
  | Some text :: _ => Ret (JsStr text)
  | None :: _ => Ret JsNull
  end.

(** [generateOpenAIResponse]: the calls made and the value or failure. *)
Definition generateOpenAIResponse (sdk : Sdk) (models : Models)
    (messages : list Message) (model : string) (apiType : option string)
    (config : GenConfig) : list ProviderCall * Thrown JsValue :=
  match openai models with
  | None =>
      ([], Throw (NULL_CLIENT (if String.eqb (default "chat" apiType) "responses"
                               then "responses" else "chat")))
  | Some key =>
      if String.eqb (default "chat" apiType) "responses" then
        let requestBody := responsesRequestBody messages model config in
        ([ResponsesCall key requestBody],
         match responsesCreate sdk key requestBody with
         | Throw error => Throw error
         | Ret response => extractResponsesText response
         end)
      else
        let requestBody := chatRequestBody messages model config in
        ([ChatCall key requestBody],
         match chatCreate sdk key requestBody with
         | Throw error => Throw error
         | Ret response => chatContentOf response
         end)
  end.

(** [generateGeminiResponse] on the client; [config] plays no part. *)
Definition generateGeminiOnClient (sdk : Sdk) (models : Models)
    (messages : list Message) (modelName : string) (config : GenConfig)
    : list ProviderCall * Thrown JsValue :=
  match gemini models with
  | None => ([], Throw (NULL_CLIENT "getGenerativeModel"))
  | Some key =>
      let '(prompts, result) :=
        generateGeminiResponse (geminiGenerateContent sdk key modelName) messages in
      (GeminiCall key modelName <$> prompts,
       match result with
       | Throw error => Throw error
       | Ret responseText => Ret (JsStr responseText)
       end)
  end.

Definition claudeSystemMessage (initialPrompt : string) : string :=
  "You are having a natural conversation with other AIs about: " +:+ QUOTE
  +:+ initialPrompt +:+ QUOTE +:+ LF +:+ LF
  +:+ "Act like a curious, thoughtful participant who builds on what others say. Share your own perspectives, challenge ideas respectfully, ask follow-up questions that dig deeper, and keep the conversation flowing. Avoid saying "
  +:+ QUOTE +:+ "I'm here to help" +:+ QUOTE +:+ " or " +:+ QUOTE +:+ "feel free to ask"
  +:+ QUOTE
  +:+ " - instead, directly engage with the ideas presented. Be conversational, not an assistant.".

Definition claudeRequestBody (messages : list Message) (model : string)
    (config : GenConfig) : ClaudeRequest :=
  mkClaudeRequest model (orN (genMaxTokens config) 1024)
    (claudeSystemMessage (findInitialPrompt messages))
    (shapeClaudeMessages messages)
    (orQ (genTemperature config) (7 # 10)).

Definition isTextBlock (c : ContentBlock) : bool := String.eqb (blockType c) "text".

(** The text of the first block of type [text], when the response has
    content and that text is not empty. *)
Definition extractClaudeText (response : ClaudeResponse) : Thrown string :=
  match response with
  | Some (Some (c :: blocks)) =>
      match List.find isTextBlock (c :: blocks) with
      | Some textContent =>
          match blockText textContent with
          | Some text => if falsy text then Throw ANTHROPIC_EMPTY else Ret text
          | None => Throw ANTHROPIC_EMPTY
          end
      | None => Throw ANTHROPIC_EMPTY
      end
  | _ => Throw ANTHROPIC_EMPTY
  end.

Definition generateClaudeResponse (sdk : Sdk) (models : Models)
    (messages : list Message) (model : string) (config : GenConfig)
    : list ProviderCall * Thrown JsValue :=
  let request := claudeRequestBody messages model config in
  match claude models with
  | None => ([], Throw (NULL_CLIENT "messages"))
  | Some key =>
      ([ClaudeCall key request],
       match claudeCreate sdk key request with
       | Throw error => Throw error
       | Ret response =>
           match extractClaudeText response with
           | Throw error => Throw error
           | Ret text => Ret (JsStr text)
           end
       end)
  end.

Definition UNSUPPORTED : string := "Unsupported parameter".

Definition unsupportedMessage (modelId : string) : string :=
  "Model " +:+ modelId
  +:+ " does not support some parameters. This is expected for newer models.".

(** What [modelMapping[modelId]] is read as under an inherited name:
    its [apiKeyField] and [provider] are [undefined], which index the key
    tables and print as the text "undefined". *)
Definition inheritedEntry : ModelEntry := mkEntry "undefined" "undefined" "undefined" None.

(** [modelMapping[modelId]] in [generateResponseWithConfig]. *)
Definition modelConfigOf (modelId : string) : option ModelEntry :=
  match entryOf adapterModelMapping modelId with
  | Some modelConfig => Some modelConfig
  | None => if memberOf modelId OBJECT_PROTOTYPE then Some inheritedEntry else None
  end.

Section Adapter.

Variable sdk : Sdk.
Variable ENV_API_KEYS : gmap string string.
Variable decryptApiKey : string -> string.

(** [generateResponseWithConfig]: the clients it leaves, the provider
    calls it made, and the value or failure. *)
Definition generateResponseWithConfig (st : KeyState)
    (modelId : string) (messages : list Message) (userId : string) (config : Config)
    : Models * list ProviderCall * Thrown JsValue :=
  let finalConfig := finalConfigOf config in
  match modelConfigOf modelId with
  | None => (clients st, [], Throw ("Unknown model: " +:+ modelId))
  | Some modelConfig =>
      let apiKey :=
        getApiKey ENV_API_KEYS (storedKeys st) decryptApiKey
                  (apiKeyField modelConfig) userId in
      match apiKey with
      | Some key =>
          if falsy key then
            (clients st, [],
             Throw ("No API key found for " +:+ entryProvider modelConfig))
          else
            let models := initializeModel (entryProvider modelConfig) key (clients st) in
            let '(calls, result) :=
              if String.eqb (entryProvider modelConfig) "openai" then
                generateOpenAIResponse sdk models messages (nativeModel modelConfig)
                                       (apiType modelConfig) finalConfig
              else if String.eqb (entryProvider modelConfig) "google" then
                generateGeminiOnClient sdk models messages (nativeModel modelConfig)
                                       finalConfig
              else if String.eqb (entryProvider modelConfig) "anthropic" then
                generateClaudeResponse sdk models messages (nativeModel modelConfig)
                                       finalConfig
              else ([], Throw ("Unknown provider: " +:+ entryProvider modelConfig)) in
            (models, calls,
             match result with
             | Throw message =>
                 if negb (falsy message) && includes message UNSUPPORTED
                 then Throw (unsupportedMessage modelId)
                 else Throw message
             | Ret value => Ret value
             end)
      | None =>
          (clients st, [], Throw ("No API key found for " +:+ entryProvider modelConfig))
      end
  end.

(** [generateResponse]: the default configuration. *)
Definition generateResponseDefault (st : KeyState)
    (modelId : string) (messages : list Message) (userId : string)
    : Models * list ProviderCall * Thrown JsValue :=
  generateResponseWithConfig st modelId messages userId (mkConfig None None).

End Adapter.

Definition callKey (call : ProviderCall) : string :=
  match call with
  | ResponsesCall k _ | ChatCall k _ | GeminiCall k _ _ | ClaudeCall k _ => k
  end.

Definition callProvider (call : ProviderCall) : string :=
  match call with
  | ResponsesCall _ _ | ChatCall _ _ => "openai"
  | GeminiCall _ _ _ => "google"
  | ClaudeCall _ _ => "anthropic"
  end.

(** The value the adapter resolved to, as the turn of a conversation
    reads it: [null] and [undefined] pass the logging line and count as no
    text; a value that is not a string makes the logging line throw. *)
Definition NOT_A_STRING : string := "responseText?.substring is not a function".

Definition toResponseText (result : Thrown JsValue) : Thrown string :=
  match result with
  | Throw message => Throw message
  | Ret (JsStr text) => Ret text
  | Ret JsUndefined | Ret JsNull => Ret ""
  | Ret _ => Throw NOT_A_STRING
  end.

(** The environment of a turn whose provider call is the adapter. *)
Definition adapterTurnEnv (sdk : Sdk) (decryptApiKey : string -> string)
    (ENV_API_KEYS : gmap string string) (st : KeyState) : TurnEnv :=
  mkTurnEnv ENV_API_KEYS (storedKeys st)
    (fun modelId history userId =>
       toResponseText
         (snd (generateResponseDefault sdk ENV_API_KEYS decryptApiKey st
                 modelId history userId))).

(** ** The turn of a conversation in its two halves *)

(** What [continueConversationChain] does once the provider call has
    settled: everything after the [await], with the [catch]. *)
Definition finishTurn (currentModelId : string) (outcome : Thrown string)
    (conversation : Conversation) : Conversation * list Event * Timer :=
  match outcome with
  | Ret responseText =>
      if isBlank responseText then
        let conversation := recordEmpty currentModelId conversation in
        if (EMPTY_LIMIT <=? emptyResponseCount conversation)%nat then
          (setIsActive false conversation,
           [ConversationEnded (id conversation) "Too many empty responses"], NoTimer)
        else
          (setCurrentTurn (S (currentTurn conversation)) conversation, [], RecheckActive)
      else
        let conversation := setEmptyResponseCount 0 conversation in
        let '(conversation, message) :=
          addMessage currentModelId responseText conversation in
        (setCurrentTurn (S (currentTurn conversation)) conversation,
         [NewMessage message], RecheckActiveAndLimit)
  | Throw message =>
      if String.eqb message ANTHROPIC_EMPTY then
        let conversation := recordEmpty currentModelId conversation in
        if (EMPTY_LIMIT <=? emptyResponseCount conversation)%nat then
          (setIsActive false conversation,
           [ConversationEnded (id conversation) "Too many empty/failed responses"],
           NoTimer)
        else
          (setCurrentTurn (S (currentTurn conversation)) conversation, [], RecheckActive)
      else
        (setCurrentTurn (S (currentTurn conversation)) conversation,
         [ErrorEvent ("Error with " +:+ currentModelId +:+ ": " +:+ message)
                     currentModelId],
         RecheckActive)
  end.

(** ** Socket handlers: [startConversation] and [stopConversation] *)

Inductive SocketEvent : Type :=
| FromChain (e : Event)
| ConversationStarted (conversationId : string)
| PlainError (message : string).

(** The model table of the [startConversation] handler. *)
Definition startModelConfig : list (string * string) :=
  [ ("gpt-4", "openai"); ("gpt-4-turbo", "openai"); ("gpt-4o-mini", "openai");
    ("gpt-3.5-turbo", "openai");
    ("gemini-2.5-pro", "google"); ("gemini-2.0-flash", "google");
    ("gemini-2.0-flash-lite", "google");
    ("gemini-1.5-pro", "google"); ("gemini-1.5-flash", "google");
    ("gemini-1.0-pro", "google");
    ("gemini-2.5-flash-preview-05-20", "google");
    ("gemini-2.5-pro-preview-05-06", "google");
    ("claude-3-opus", "anthropic"); ("claude-3-sonnet", "anthropic");
    ("claude-3-haiku", "anthropic"); ("claude-instant", "anthropic") ].

(** [[...new Set(l)]]: the first occurrence of each element, in order. *)
Fixpoint dedupe (l : list string) : list string :=
  match l with
  | [] => []
  | x :: rest => x :: List.filter (fun y => negb (String.eqb x y)) (dedupe rest)
  end.

Section Handlers.

Variable decryptApiKey : string -> string.

(** The providers of the participants that lack a key, each as the
    property key [getApiKey] looked it up under. *)
Definition missingKeys (env : TurnEnv) (sessionId : string) (participants : list string)
    : list string :=
  flat_map
    (fun modelId =>
       match providerOf startModelConfig modelId with
       | Some provider =>
           if truthyKey (getApiKey (envApiKeys env) (userKeys env) decryptApiKey
                                   provider sessionId)
           then [] else [provider]
       | None => []
       end)
    participants.

(** The [startConversation] handler up to the first callback;
    [conversationId] is the fresh id of [createConversation]. *)
Definition startConversation (env : TurnEnv) (sessionId conversationId : string)
    (participants : list string) (initialPrompt : string)
    (conversations : gmap string Conversation)
    : gmap string Conversation * list SocketEvent * Timer :=
  let missing := missingKeys env sessionId participants in
  if (0 <? length missing)%nat then
    (conversations,
     [PlainError ("Missing API keys for: " +:+ join ", " (dedupe missing)
                  +:+ ". Please add them in Settings.")],
     NoTimer)
  else
    let conversations :=
      ConversationManager.createConversation conversationId sessionId participants
                                             conversations in
    match ConversationManager.getConversation conversationId conversations with
    | None => (conversations, [], NoTimer)
    | Some conversation =>
        let conversation := setIsActive true conversation in
        let '(conversation, events, timer) :=
          startConversationChain decryptApiKey env initialPrompt conversation in
        (<[conversationId := conversation]> conversations,
         ConversationStarted conversationId :: (FromChain <$> events), timer)
    end.

End Handlers.

(** The [stopConversation] handler. *)
Definition stopConversationHandler (conversationId : string)
    (conversations : gmap string Conversation)
    : gmap string Conversation * list SocketEvent :=
  let '(conversations, stopped) :=
    ConversationManager.stopConversation conversationId conversations in
  (conversations,
   if stopped
   then [FromChain (ConversationEnded conversationId "User requested stop")]
   else []).

(** The transcript a chain keeps.  A message of a model carries the id
    of the model, the role [ai], and the placeholder or a text that is not
    blank; the transcript opens with the message of the user, which is not
    empty. *)
Definition modelMessageOk (msg : Message) : bool :=
  negb (isUser msg)
  && match role msg with RoleAi => true | RoleUser => false end
  && (String.eqb (content msg) PLACEHOLDER || negb (isBlank (content msg))).

Definition transcriptOk (msgs : list Message) : bool :=
  match msgs with
  | first :: rest =>
      isUser first
      && match role first with RoleUser => true | RoleAi => false end
      && negb (falsy (content first))
      && forallb modelMessageOk rest
  | [] => false
  end.

(** What bounds transcript and counter while a callback is pending. *)
Definition chainBound (timer : Timer) (c : Conversation) : Prop :=
  match timer with
  | RecheckActive =>
      length (messages c) <= 29 + emptyResponseCount c /\ emptyResponseCount c <= 4
  | RecheckActiveAndLimit =>
      length (messages c) <= 34 /\ emptyResponseCount c = 0
  | NoTimer =>
      length (messages c) <= 34 /\ emptyResponseCount c <= 5
  end.

(** A turn environment whose provider call always fails in transport. *)
Definition failingEnv : TurnEnv :=
  mkTurnEnv {[ "openai" := "sk-test" ]} ∅ (fun _ _ _ => Throw "401 Unauthorized").

(** What every row of the model table of the adapter satisfies. *)
Definition rowOk (row : string * ModelEntry) : bool :=
  let '(k, e) := row in
  String.eqb (apiKeyField e) (entryProvider e)
  && memberOf (entryProvider e) ["openai"; "google"; "anthropic"]
  && negb (includes (unsupportedMessage k) UNSUPPORTED)
  && negb (includes ("No API key found for " +:+ entryProvider e) UNSUPPORTED)
  && (if String.eqb (entryProvider e) "openai" then
        if String.eqb (default "chat" (apiType e)) "responses"
        then negb (supportsTemperature (nativeModel e))
             && Bool.eqb (hasReasoning (nativeModel e)) (memberOf k ["o3"; "o1"])
        else true
      else true).


(** The failure, if any, with which the providers answer a call. *)
Definition sdkFailure (sdk : Sdk) (call : ProviderCall) : option string :=
  match call with
  | ResponsesCall k r =>
      match responsesCreate sdk k r with Throw m => Some m | Ret _ => None end
  | ChatCall k r =>
      match chatCreate sdk k r with Throw m => Some m | Ret _ => None end
  | GeminiCall k modelName prompt =>
      match geminiGenerateContent sdk k modelName prompt with
      | Throw m => Some m
      | Ret _ => None
      end
  | ClaudeCall k r =>
      match claudeCreate sdk k r with Throw m => Some m | Ret _ => None end
  end.

(** What the adapter promises about the generation parameters of a call
    under a configuration. *)
Definition parametersOk (config : Config) (call : ProviderCall) : Prop :=
  let absentTokens (sent : N) := maxTokensOpt config = None -> sent = 1000%N in
  let zeroTemperature (sent : Q) :=
    forall t, temperatureOpt config = Some t -> Qeq_bool t 0 = true -> sent = (7 # 10)%Q in
  match call with
  | ResponsesCall _ r =>
      rMaxOutputTokens r <> 0%N /\ absentTokens (rMaxOutputTokens r)
  | ChatCall _ r =>
      cMaxTokens r <> 0%N /\ absentTokens (cMaxTokens r)
      /\ Qeq_bool (cTemperature r) 0 = false /\ zeroTemperature (cTemperature r)
  | ClaudeCall _ r =>
      aMaxTokens r <> 0%N /\ absentTokens (aMaxTokens r)
      /\ Qeq_bool (aTemperature r) 0 = false /\ zeroTemperature (aTemperature r)
  | GeminiCall _ _ _ => True
  end.

(** Providers that answer every call with a greeting. *)
Definition helloSdk : Sdk :=
  mkSdk (fun _ _ => Ret (JsObject [("output_text", JsStr "Hello")]))
        (fun _ _ => Ret [Some "Hello"])
        (fun _ _ _ => Ret "Hello")
        (fun _ _ => Ret (Some (Some [mkBlock "text" (Some "Hello")]))).

Definition allKeys : gmap string string :=
  {[ "openai" := "sk-openai"; "google" := "sk-google"; "anthropic" := "sk-anthropic" ]}.

Definition noKeyState : KeyState := mkKeyState ∅ (mkModels None None None).

Definition oneQuestion : list Message := [mkMessage "user" "What is the code?" RoleUser].

(** What every row of the model table of the chain satisfies against the
    table of the adapter. *)
Definition chainRowOk (row : string * string) : bool :=
  let '(k, p) := row in
  match entryOf adapterModelMapping k with
  | Some e => String.eqb (apiKeyField e) p && String.eqb (entryProvider e) p
  | None => memberOf k ["gemini-1.0-pro"; "gemini-2.5-flash-preview-05-20"]
  end.

(** The rewriting of a failure at the end of the adapter. *)
Definition rewriteUnsupported (modelId : string) (result : Thrown JsValue)
    : Thrown JsValue :=
  match result with
  | Throw message =>
      if negb (falsy message) && includes message UNSUPPORTED
      then Throw (unsupportedMessage modelId) else Throw message
  | Ret value => Ret value
  end.

(** Sample conversations for the adapter-backed turn. *)
Definition googleKey : gmap string string := {[ "google" := "sk-google" ]}.
Definition anthropicKey : gmap string string := {[ "anthropic" := "sk-anthropic" ]}.

(** The caller "u1" after [setApiKey] with the provider name
    "[object Object]". *)
Definition printedKeyState : KeyState :=
  mkKeyState {[ "u1" := {[ "[object Object]" := "sk-any" ]} ]} (mkModels None None None).

Definition activeWith (models : list string) : Conversation :=
  mkConversation "c1" "u1" models [mkMessage "user" "Hi" RoleUser] None 0 true 0.

(** Providers whose Gemini answers with white space and whose Claude
    answers with an image block only. *)
Definition silentSdk : Sdk :=
  mkSdk (fun _ _ => Ret (JsObject [("output_text", JsStr "Hello")]))
        (fun _ _ => Ret [Some "Hello"])
        (fun _ _ _ => Ret "  ")
        (fun _ _ => Ret (Some (Some [mkBlock "image" None]))).

(** A provider call that fails, and not with the message the chain counts
    as an empty answer. *)
Definition alwaysFails (env : TurnEnv) : Prop :=
  forall modelId history userId,
    exists message,
      generateResponse env modelId history userId = Throw message
      /\ message <> ANTHROPIC_EMPTY.

(** A participant the table of the [startConversation] handler knows. *)
Definition knownModel (modelId : string) : bool :=
  match providerOf startModelConfig modelId with Some _ => true | None => false end.

(** A sequence of [addMessage] calls on one conversation. *)
Definition addMessages (ops : list (string * string)) (c : Conversation) : Conversation :=
  fold_left (fun acc op => fst (addMessage (fst op) (snd op) acc)) ops c.

Definition messageOf (op : string * string) : Message :=
  mkMessage (fst op) (snd op) (if String.eqb (fst op) "user" then RoleUser else RoleAi).

(** The first user message of a sequence that can set the goal, and
    whether the sequence has a user message at all. *)
Definition setsGoal (op : string * string) : bool :=
  String.eqb (fst op) "user" && negb (falsy (snd op)).

Definition fromUser (op : string * string) : bool := String.eqb (fst op) "user".

(** The last character of [s], or [prev] when [s] is empty. *)
Fixpoint lastChar (prev : option ascii) (s : string) : option ascii :=
  match s with
  | EmptyString => prev
  | String c s' => lastChar (Some c) s'
  end.

(** The call of [runNeedleTest] for one model: the one user message that
    holds the prompt, and the configuration object it builds. *)
Definition needleMessages (needle haystack : string) : list Message :=
  [mkMessage "user" (needlePrompt needle haystack) RoleUser].

Definition needleConfig (modelConfig : ModelConfig) : Config :=
  mkConfig (Some (genTemperature (needleGenConfig modelConfig)))
           (Some (genMaxTokens (needleGenConfig modelConfig))).

(** What a provider is expected to be sent for a needle test with
    [prompt], written out: the prompt stands once in the requests to
    OpenAI, and twice in those to Claude (system text and message) and to
    Gemini (framing and line of the human). *)
Definition needleRequestOk (prompt : string) (tokens : N) (heat : Q) (call : ProviderCall)
    : Prop :=
  match call with
  | ResponsesCall _ r =>
      rInput r = [mkClaude ApiUser prompt] /\ rMaxOutputTokens r = tokens
  | ChatCall _ r =>
      cMessages r
      = [mkChat ChatSystem
           "You are an AI assistant that provides direct, accurate answers to questions based on provided context.";
         mkChat ChatUser prompt]
      /\ cMaxTokens r = tokens
      /\ cTemperature r = heat
  | GeminiCall _ _ text =>
      text
      = "You are having a natural conversation with other AIs about: "
        +:+ QUOTE +:+ prompt +:+ QUOTE +:+ LF +:+ LF
        +:+ "Respond naturally by: building on previous points, sharing your own perspective, agreeing or respectfully disagreeing, making observations, or offering new angles. Mix up your response style - sometimes make statements, sometimes share insights, sometimes pose questions, but don't end every response with a question. Keep the conversation flowing naturally like friends discussing a topic. Be authentic and avoid assistant-like phrases."
        +:+ LF +:+ LF +:+ "Conversation so far:" +:+ LF +:+ LF
        +:+ "Human: " +:+ prompt +:+ LF +:+ LF
        +:+ "Now respond naturally - maybe build on what was said, share your perspective, make an observation, or take the discussion in a new direction. Don't feel obligated to ask a question:"
  | ClaudeCall _ r =>
      aSystem r
      = "You are having a natural conversation with other AIs about: "
        +:+ QUOTE +:+ prompt +:+ QUOTE +:+ LF +:+ LF
        +:+ "Act like a curious, thoughtful participant who builds on what others say. Share your own perspectives, challenge ideas respectfully, ask follow-up questions that dig deeper, and keep the conversation flowing. Avoid saying "
        +:+ QUOTE +:+ "I'm here to help" +:+ QUOTE +:+ " or " +:+ QUOTE +:+ "feel free to ask"
        +:+ QUOTE
        +:+ " - instead, directly engage with the ideas presented. Be conversational, not an assistant."
      /\ aMessages r = [mkClaude ApiUser prompt]
      /\ aMaxTokens r = tokens
      /\ aTemperature r = heat
  end.

(** ** Sample inputs *)

(** Environments of a turn: a process-wide key for one provider, no
    per-caller key, and a provider that answers with white space or with
    a sentence. *)
Definition blankEnv : TurnEnv :=
  mkTurnEnv {[ "openai" := "sk-test" ]} ∅ (fun _ _ _ => Ret "   ").

Definition talkEnv : TurnEnv :=
  mkTurnEnv {[ "openai" := "sk-test" ]} ∅ (fun _ _ _ => Ret "Go on.").

Definition anthropicOnly : TurnEnv :=
  mkTurnEnv {[ "anthropic" := "sk-ant-test" ]} ∅ (fun _ _ _ => Ret "Go on.").

(** One model, four placeholders in a row behind the opening message. *)
Definition fourEmpty : Conversation :=
  mkConversation "c1" "u1" ["gpt-4"]
    (mkMessage "user" "Hi" RoleUser :: replicate 4 (mkMessage "gpt-4" PLACEHOLDER RoleAi))
    None 4 true 4.

(** One model, 29 messages, active. *)
Definition nearCeiling : Conversation :=
  mkConversation "c1" "u1" ["gpt-4"]
    (mkMessage "user" "Hi" RoleUser :: replicate 28 (mkMessage "gpt-4" "Go on." RoleAi))
    None 28 true 0.

(** A history in which a model's answer quotes the placeholder text. *)
Definition quotingHistory : list Message :=
  [ mkMessage "user" "What did the log say?" RoleUser;
    mkMessage "gpt-4" "It said: (Previous turn provided no text output), twice." RoleAi ].

(** A provider whose second call fails in transport. *)
Definition secondCallFails (i : nat) (_ : string) (_ : list Message) (_ : string)
    (_ : GenConfig) : Thrown string :=
  match i with
  | 1 => Throw "503 Service Unavailable"
  | _ => Ret "The code is ABC123."
  end.

Definition threeModels : list ModelConfig :=
  [ mkModelConfig "gpt-4" None None;
    mkModelConfig "gemini-1.5-pro" None None;
    mkModelConfig "claude-3-opus" None None ].

(** * Properties *)

(** ** Match evaluator *)

Section MatchEvaluator.

Ltac by_code_unit c :=
  destruct c as [[] [] [] [] [] [] [] []]; vm_compute; try reflexivity; try discriminate.

Lemma Canonicalize_toLowerCaseChar (c : ascii) :
  Canonicalize true (toLowerCaseChar c) = Canonicalize true c.
Proof. by_code_unit c. Qed.

Lemma isWordChar_toLowerCaseChar (c : ascii) :
  isWordChar (Some (toLowerCaseChar c)) = isWordChar (Some c).
Proof. by_code_unit c. Qed.

Lemma parsePattern_literal (c : ascii) (rest : string) :
  isSyntaxCharacter c = false ->
  parsePattern (String c rest) = cons (PatternCharacter c) <$> parsePattern rest.
Proof.
  destruct c as [[] [] [] [] [] [] [] []]; intros H;
    try (vm_compute in H; discriminate H); reflexivity.
Qed.

Lemma parsePattern_escaped (c : ascii) (rest : string) :
  isSyntaxCharacter c = true ->
  parsePattern (String "\" (String c rest)) = cons (PatternCharacter c) <$> parsePattern rest.
Proof.
  intros H. cbn [parsePattern]. rewrite H.
  destruct (Ascii.eqb c "b") eqn:E; [|reflexivity].
  apply Ascii.eqb_eq in E. subst c. vm_compute in H. discriminate H.
Qed.

Lemma parsePattern_wordBoundary (rest : string) :
  parsePattern (String "\" (String "b" rest)) = cons WordBoundary <$> parsePattern rest.
Proof. reflexivity. Qed.

(** The escaped target parses as the sequence of its own characters,
    whatever they are. *)
Lemma parsePattern_escapeRegExp (s tail : string) :
  parsePattern (escapeRegExp s +:+ tail)
  = app (PatternCharacter <$> list_ascii_of_string s) <$> parsePattern tail.
Proof.
  induction s as [|c s IH]; cbn [escapeRegExp list_ascii_of_string fmap list_fmap].
  - change ("" +:+ tail) with tail. destruct (parsePattern tail); reflexivity.
  - destruct (isSyntaxCharacter c) eqn:E.
    + change (String "\" (String c (escapeRegExp s)) +:+ tail)
        with (String "\" (String c (escapeRegExp s +:+ tail))).
      rewrite parsePattern_escaped by exact E. rewrite IH.
      destruct (parsePattern tail); reflexivity.
    + change (String c (escapeRegExp s) +:+ tail)
        with (String c (escapeRegExp s +:+ tail)).
      rewrite parsePattern_literal by exact E. rewrite IH.
      destruct (parsePattern tail); reflexivity.
Qed.

Lemma newRegExp_wordBoundarySource (target : string) :
  newRegExp (wordBoundarySource target) "i"
  = Some (mkRegExp
            (WordBoundary :: (PatternCharacter <$> list_ascii_of_string target)
                          ++ [WordBoundary]) true).
Proof.
  unfold newRegExp, wordBoundarySource.
  change ("\b" +:+ escapeRegExp target +:+ "\b")
    with (String "\" (String "b" (escapeRegExp target +:+ "\b"))).
  rewrite parsePattern_wordBoundary, parsePattern_escapeRegExp.
  reflexivity.
Qed.

Lemma headChar_toLowerCase (s : string) :
  isWordChar (headChar (toLowerCase s)) = isWordChar (headChar s).
Proof. destruct s as [|c s]; [reflexivity|]. apply isWordChar_toLowerCaseChar. Qed.

Lemma isWordChar_fmap_lower (prev : option ascii) :
  isWordChar (toLowerCaseChar <$> prev) = isWordChar prev.
Proof. destruct prev as [c|]; [apply isWordChar_toLowerCaseChar | reflexivity]. Qed.

(** Lower-casing pattern and input together does not change a
    case-insensitive match. *)
Lemma matchHere_toLowerCase (p : list Term) :
  forall (prev : option ascii) (rest : string),
    matchHere true (lowerTerm <$> p) (toLowerCaseChar <$> prev) (toLowerCase rest)
    = matchHere true p prev rest.
Proof.
  induction p as [|t p IH]; intros prev rest; [reflexivity|].
  destruct t as [c|]; cbn [fmap list_fmap lowerTerm matchHere].
  - destruct rest as [|d rest]; [reflexivity|].
    cbn [toLowerCase]. rewrite !Canonicalize_toLowerCaseChar.
    f_equal. apply (IH (Some d)).
  - rewrite headChar_toLowerCase, isWordChar_fmap_lower, IH. reflexivity.
Qed.

Lemma searchFrom_toLowerCase (p : list Term) (rest : string) :
  forall prev : option ascii,
    searchFrom true (lowerTerm <$> p) (toLowerCaseChar <$> prev) (toLowerCase rest)
    = searchFrom true p prev rest.
Proof.
  induction rest as [|d rest IH]; intros prev.
  - cbn [searchFrom]. rewrite <- (matchHere_toLowerCase p prev ""). reflexivity.
  - cbn [searchFrom toLowerCase].
    rewrite <- (matchHere_toLowerCase p prev (String d rest)).
    cbn [toLowerCase]. f_equal. apply (IH (Some d)).
Qed.

Lemma list_ascii_toLowerCase (s : string) :
  PatternCharacter <$> list_ascii_of_string (toLowerCase s)
  = lowerTerm <$> (PatternCharacter <$> list_ascii_of_string s).
Proof.
  induction s as [|c s IH]; [reflexivity|].
  cbn [toLowerCase list_ascii_of_string fmap list_fmap lowerTerm].
  f_equal. exact IH.
Qed.

End MatchEvaluator.

Lemma matchesWholeWord_toLowerCase (response target : string) :
  matchesWholeWord (toLowerCase response) (toLowerCase target)
  = matchesWholeWord response target.
Proof.
  unfold matchesWholeWord. rewrite !newRegExp_wordBoundarySource.
  unfold test. cbn [pattern ignoreCase].
  rewrite list_ascii_toLowerCase.
  change (WordBoundary :: (lowerTerm <$> (PatternCharacter <$> list_ascii_of_string target))
            ++ [WordBoundary])
    with ((lowerTerm <$> [WordBoundary])
            ++ (lowerTerm <$> (PatternCharacter <$> list_ascii_of_string target))
            ++ (lowerTerm <$> [WordBoundary])).
  rewrite <- !fmap_app.
  apply (searchFrom_toLowerCase _ response None).
Qed.

Lemma falsy_trim (s : string) : falsy s = true -> falsy (trim s) = true.
Proof. destruct s; [reflexivity | discriminate]. Qed.

Lemma checkExactMatch_Ret (response exactMatch : string) :
  checkExactMatch response exactMatch
  = Ret (if falsy (trim response) || falsy (trim exactMatch) then false
         else matchesWholeWord (trim response) (trim exactMatch)).
Proof.
  unfold checkExactMatch.
  destruct (falsy response) eqn:Hr.
  { rewrite (falsy_trim _ Hr). reflexivity. }
  destruct (falsy exactMatch) eqn:He.
  { rewrite (falsy_trim _ He), !orb_true_r. reflexivity. }
  cbn [orb].
  destruct (falsy (trim response) || falsy (trim exactMatch)); [reflexivity|].
  rewrite <- (matchesWholeWord_toLowerCase (trim response) (trim exactMatch)).
  unfold matchesWholeWord.
  rewrite newRegExp_wordBoundarySource. reflexivity.
Qed.

(** C1. The match evaluator trims both inputs and answers false when
    either is then empty; otherwise it answers whether the target, escaped
    as a literal pattern (it always parses as the sequence of its
    characters) between two word boundaries, matches the response
    case-insensitively.  "The code is ABC123." contains "abc123",
    "a915609a" does not contain "15609", and an empty argument on either
    side gives false. *)
Theorem checkExactMatch_whole_word :
  (forall response exactMatch : string,
      checkExactMatch response exactMatch
      = Ret (if falsy (trim response) || falsy (trim exactMatch) then false
             else matchesWholeWord (trim response) (trim exactMatch)))
  /\ (forall target : string,
         newRegExp (wordBoundarySource target) "i"
         = Some (mkRegExp
                   (WordBoundary :: (PatternCharacter <$> list_ascii_of_string target)
                                 ++ [WordBoundary]) true))
  /\ checkExactMatch "The code is ABC123." "abc123" = Ret true
  /\ checkExactMatch "a915609a" "15609" = Ret false
  /\ (forall x : string, checkExactMatch "" x = Ret false)
  /\ (forall x : string, checkExactMatch x "" = Ret false).
Proof.
  split; [exact checkExactMatch_Ret|].
  split; [exact newRegExp_wordBoundarySource|].
  split; [vm_compute; reflexivity|].
  split; [vm_compute; reflexivity|].
  split; intros x; [reflexivity|].
  unfold checkExactMatch. destruct x; reflexivity.
Qed.

(** ** Structured-responses envelope *)

(** The direct text field wins over every other shape. *)
Lemma extractResponsesText_output_text (response : JsValue) :
  truthy (field response "output_text") = true ->
  extractResponsesText response = Ret (field response "output_text").
Proof.
  intros H. unfold extractResponsesText. rewrite H.
  destruct response; try discriminate H. reflexivity.
Qed.

Ltac known_shape f :=
  exists f; split; [unfold knownShapes; solve [repeat constructor] | reflexivity].

(** A text the chain returns is what one of the known shapes yields. *)
Lemma extractResponsesText_Ret (response v : JsValue) :
  extractResponsesText response = Ret v ->
  truthy v = true /\ exists shape, shape ∈ knownShapes /\ shape response = v.
Proof.
  unfold extractResponsesText.
  repeat match goal with
         | |- context [if ?b then _ else _] =>
             let E := fresh "E" in destruct b eqn:E
         end;
    intros H; try (destruct response; discriminate H);
    injection H as <-;
    repeat match goal with
           | E : _ && _ = true |- _ => apply andb_prop in E; destruct E
           end;
    (split; [assumption|]);
    first [ known_shape (fun r => field r "output_text")
          | known_shape (fun r => field (field r "text") "content")
          | known_shape (fun r => field (at0 (field (at0 (field r "output")) "content")) "text")
          | known_shape (fun r => field (at0 (field r "choices")) "text")
          | known_shape (fun r => field (field (at0 (field r "choices")) "message") "content")
          | known_shape (fun r => field (field r "output") "text")
          | known_shape (fun r => field r "content") ].
Qed.

(** When no known shape yields text, the chain throws. *)
Lemma extractResponsesText_none (response : JsValue) :
  (forall shape, shape ∈ knownShapes -> truthy (shape response) = false) ->
  exists message, extractResponsesText response = Throw message.
Proof.
  intros H.
  destruct (extractResponsesText response) as [v|message] eqn:E; [|eauto].
  apply extractResponsesText_Ret in E as [Hv (shape & Hin & <-)].
  rewrite (H shape Hin) in Hv. discriminate Hv.
Qed.

(** C9. On [choiceWithoutText] the [choices] branch is entered, finds no
    text and leaves the chain: the adapter throws the unexpected-format
    error although the [content] shape, tested after it, yields "hello". *)
Theorem extractResponsesText_choices_hides_later_shapes :
  extractResponsesText choiceWithoutText = Throw UNEXPECTED_FORMAT
  /\ (fun r => field r "content") ∈ knownShapes
  /\ field choiceWithoutText "content" = JsStr "hello"
  /\ truthy (field choiceWithoutText "content") = true.
Proof.
  split; [reflexivity|]. split; [|split; reflexivity].
  unfold knownShapes. repeat constructor.
Qed.

(** ** Claude adapter *)

Lemma append_assoc (a b c : string) : (a +:+ b) +:+ c = a +:+ (b +:+ c).
Proof.
  induction a as [|x a IH]; [reflexivity|].
  change (String x ((a +:+ b) +:+ c) = String x (a +:+ b +:+ c)).
  rewrite IH. reflexivity.
Qed.















(** C10. The filter of the Claude adapter drops every message whose
    content contains the placeholder text anywhere, not only the
    placeholder itself: in [quotingHistory] the answer of the model, which
    is not blank and is not the placeholder, is missing from the shaped
    request. *)
Theorem claudeKeep_drops_any_mention :
  (forall (messages : list Message) (msg : Message),
      includes (content msg) PLACEHOLDER = true ->
      msg ∉ List.filter claudeKeep messages)
  /\ (exists reply,
         reply ∈ quotingHistory
         /\ role reply = RoleAi
         /\ isBlank (content reply) = false
         /\ content reply <> PLACEHOLDER
         /\ includes (content reply) PLACEHOLDER = true
         /\ shapeClaudeMessages quotingHistory
            = [mkClaude ApiUser "What did the log say?"]).
Proof.
  split.
  - intros messages msg Hinc Hin.
    apply list_elem_of_In, List.filter_In in Hin as [_ Hkeep].
    unfold claudeKeep in Hkeep. rewrite Hinc, andb_false_r in Hkeep.
    discriminate Hkeep.
  - exists (mkMessage "gpt-4" "It said: (Previous turn provided no text output), twice." RoleAi).
    split; [unfold quotingHistory; repeat constructor|].
    split; [reflexivity|]. split; [vm_compute; reflexivity|].
    split; [discriminate|]. split; vm_compute; reflexivity.
Qed.

(** ** Gemini adapter *)

Lemma geminiValid_isBlank (msg : Message) :
  geminiValid msg = negb (isBlank (content msg)).
Proof.
  unfold geminiValid, isBlank. rewrite negb_orb. f_equal.
  destruct (String.length (trim (content msg))); reflexivity.
Qed.

Lemma fold_geminiLine (msgs : list Message) :
  forall init trailer : string,
    fold_left (fun acc msg => acc +:+ geminiLine msg) msgs init +:+ trailer
    = init +:+ foldr (fun msg acc => geminiLine msg +:+ acc) trailer msgs.
Proof.
  induction msgs as [|msg msgs IH]; intros init trailer; [reflexivity|].
  cbn [fold_left foldr]. rewrite IH, append_assoc. reflexivity.
Qed.

Lemma geminiValid_trim (msg : Message) :
  geminiValid msg = negb (String.eqb (trim (content msg)) "").
Proof.
  unfold geminiValid. destruct (content msg) as [|x rest]; [reflexivity|].
  cbn [falsy negb andb]. destruct (trim (String x rest)); reflexivity.
Qed.

(** C8. The Gemini adapter keeps the messages whose content, trimmed, is
    not empty.  When none is left it throws "No valid messages to process"
    and sends nothing.  Otherwise it sends one prompt: the framing around
    the goal, then one "Speaker: content" line per kept message in order,
    then the instruction trailer.  The goal is the content of the first
    user message that was kept, and "General discussion" when no user
    message was kept. *)
Theorem generateGeminiResponse_flattens
    (generateContent : string -> Thrown string) (messages : list Message) :
  let validMessages :=
    List.filter (fun msg => negb (String.eqb (trim (content msg)) "")) messages in
  let goal :=
    match List.find (fun msg => String.eqb (provider msg) "user") validMessages with
    | Some first => content first
    | None => "General discussion"
    end in
  let framing :=
    "You are having a natural conversation with other AIs about: "
    +:+ QUOTE +:+ goal +:+ QUOTE +:+ LF +:+ LF
    +:+ "Respond naturally by: building on previous points, sharing your own perspective, agreeing or respectfully disagreeing, making observations, or offering new angles. Mix up your response style - sometimes make statements, sometimes share insights, sometimes pose questions, but don't end every response with a question. Keep the conversation flowing naturally like friends discussing a topic. Be authentic and avoid assistant-like phrases."
    +:+ LF +:+ LF +:+ "Conversation so far:" +:+ LF +:+ LF in
  let line (msg : Message) :=
    (if String.eqb (provider msg) "user" then "Human" else "AI (" +:+ provider msg +:+ ")")
    +:+ ": " +:+ content msg +:+ LF +:+ LF in
  let trailer :=
    "Now respond naturally - maybe build on what was said, share your perspective, make an observation, or take the discussion in a new direction. Don't feel obligated to ask a question:" in
  let prompt := framing +:+ foldr (fun msg acc => line msg +:+ acc) trailer validMessages in
  generateGeminiResponse generateContent messages
  = match validMessages with
    | [] => ([], Throw "No valid messages to process")
    | _ :: _ =>
        ([prompt],
         match generateContent prompt with
         | Throw e => Throw e
         | Ret responseText =>
             if String.eqb (trim responseText) "" then Throw "Empty response from Gemini"
             else Ret responseText
         end)
    end.
Proof.
  intros validMessages goal framing line trailer prompt.
  assert (Hvalid : List.filter geminiValid messages = validMessages)
    by (apply List.filter_ext; exact geminiValid_trim).
  assert (Hgoal : findInitialPrompt validMessages = goal).
  { unfold findInitialPrompt, goal.
    change (List.find isUser validMessages)
      with (List.find (fun msg => String.eqb (provider msg) "user") validMessages).
    destruct (List.find _ validMessages) as [first|] eqn:Hfind; [|reflexivity].
    apply List.find_some in Hfind as [Hin _]. unfold validMessages in Hin.
    apply List.filter_In in Hin as [_ Hkept].
    destruct (content first); [discriminate Hkept | reflexivity]. }
  unfold generateGeminiResponse, geminiPrompt. rewrite Hvalid, Hgoal.
  destruct validMessages as [|m0 rest] eqn:E; [reflexivity|].
  change (length (m0 :: rest) =? 0)%nat with false. cbv iota.
  rewrite fold_geminiLine.
  change (geminiFraming goal +:+ foldr (fun msg acc => geminiLine msg +:+ acc)
                                       geminiTrailer (m0 :: rest))
    with prompt.
  destruct (generateContent prompt) as [responseText|e]; [|reflexivity].
  f_equal. destruct responseText as [|x r]; [reflexivity|].
  cbn [falsy orb]. destruct (trim (String x r)); reflexivity.
Qed.

(** C8, as first stated, fails: the goal in the framing is not always the
    content of the first user message.  A history without a user message
    (the history of a long conversation) is framed by "General
    discussion", and a first user message of white space is passed over
    for a later one. *)
Lemma gemini_goal_not_first_user_message :
  let history1 := [mkMessage "gpt-4" "Hello there" RoleAi] in
  let history2 :=
    [mkMessage "user" "   " RoleUser; mkMessage "gpt-4" "Hello there" RoleAi;
     mkMessage "user" "Where is X?" RoleUser] in
  List.find isUser history1 = None
  /\ (exists rest,
         fst (generateGeminiResponse (fun _ => Ret "Fine.") history1)
         = ["You are having a natural conversation with other AIs about: "
            +:+ QUOTE +:+ "General discussion" +:+ QUOTE +:+ rest])
  /\ List.find isUser history2 = Some (mkMessage "user" "   " RoleUser)
  /\ (exists rest,
         fst (generateGeminiResponse (fun _ => Ret "Fine.") history2)
         = ["You are having a natural conversation with other AIs about: "
            +:+ QUOTE +:+ "Where is X?" +:+ QUOTE +:+ rest]).
Proof.
  cbv zeta. split; [reflexivity|]. split; [eexists; vm_compute; reflexivity|].
  split; [reflexivity|]. eexists; vm_compute; reflexivity.
Qed.

(** ** Needle-test orchestrator *)

Section NeedleTestProperties.

Variable generateResponseWithConfig :
  nat -> string -> list Message -> string -> GenConfig -> Thrown string.
Variables userId haystack needle exactMatch : string.

Local Abbreviation settle :=
  (settleTask generateResponseWithConfig userId haystack needle exactMatch).
Local Abbreviation run :=
  (runNeedleTest generateResponseWithConfig userId haystack needle exactMatch).

(** Every call in flight settles exactly once, whatever the order. *)
Lemma settleInOrder_Permutation (fuel : nat) :
  forall (sched : list nat) (pending : list Event),
    length pending = fuel -> settleInOrder sched pending fuel ≡ₚ pending.
Proof.
  induction fuel as [|fuel IH]; intros sched pending Hlen.
  - destruct pending; [reflexivity | discriminate Hlen].
  - cbn [settleInOrder].
    assert (Hk : hd 0 sched `mod` length pending < length pending)
      by (apply Nat.mod_upper_bound; lia).
    destruct (lookup_lt_is_Some_2 _ _ Hk) as [e He]. rewrite He.
    etransitivity; [|symmetry; exact (delete_Permutation pending _ e He)].
    constructor. apply IH.
    pose proof (length_delete pending _ (ex_intro _ e He)) as Hd. lia.
Qed.

Lemma settleTask_not_complete (i : nat) (modelConfig : ModelConfig) :
  isComplete (settle i modelConfig) = false.
Proof.
  unfold settleTask.
  destruct (generateResponseWithConfig _ _ _ _ _) as [response|error]; [|reflexivity].
  destruct (checkExactMatch response exactMatch); reflexivity.
Qed.

Lemma filter_none {A} (P : A -> bool) (l : list A) :
  Forall (fun x => P x = false) l -> List.filter P l = [].
Proof.
  induction 1 as [|x l Hx _ IH]; [reflexivity|]. cbn. rewrite Hx. exact IH.
Qed.

Lemma Forall_imap_settle (P : Event -> Prop) (models : list ModelConfig) :
  (forall i modelConfig, P (settle i modelConfig)) ->
  Forall P (imap settle models).
Proof.
  intros H. apply Forall_forall. intros e He.
  apply list_elem_of_lookup in He as [i Hi].
  rewrite list_lookup_imap in Hi.
  destruct (models !! i) as [modelConfig|]; [|discriminate Hi].
  injection Hi as <-. apply H.
Qed.

(** C2. Whatever the models, the answers of the provider and the order in
    which the calls settle: the trace is the thinking notifications, then
    one settle event per dispatched call (a permutation of them: the
    result or the error of each call, decided by that call alone), then
    the completion event, which occurs exactly once and last.  So a call
    that fails contributes its error event and every call that succeeds
    its result event.  With no model the trace is the completion event
    alone. *)
Theorem runNeedleTest_settles_all (sched : list nat) (models : list ModelConfig) :
  (exists settled,
      run sched models
      = (AiThinking <$> (modelId <$> models)) ++ settled ++ [AllTestsComplete]
      /\ settled ≡ₚ imap settle models)
  /\ length (List.filter isComplete (run sched models)) = 1
  /\ last (run sched models) = Some AllTestsComplete
  /\ (forall i modelConfig,
         models !! i = Some modelConfig ->
         let messages := [mkMessage "user" (needlePrompt needle haystack) RoleUser] in
         match generateResponseWithConfig i (modelId modelConfig) messages userId
                 (needleGenConfig modelConfig) with
         | Throw error =>
             NeedleTestError (modelId modelConfig) error ∈ run sched models
         | Ret response =>
             NeedleTestResult (modelId modelConfig) response
               (if falsy (trim response) || falsy (trim exactMatch) then false
                else matchesWholeWord (trim response) (trim exactMatch))
             ∈ run sched models
         end)
  /\ run sched [] = [AllTestsComplete].
Proof.
  pose proof (settleInOrder_Permutation (length models) sched (imap settle models)
                (length_imap _ _)) as Hperm.
  split; [|split; [|split; [|split]]].
  - eexists. split; [reflexivity | exact Hperm].
  - unfold runNeedleTest. rewrite !List.filter_app.
    rewrite (filter_none isComplete (AiThinking <$> _)).
    2:{ apply Forall_fmap, Forall_forall. reflexivity. }
    rewrite (filter_none isComplete (settleInOrder _ _ _)); [reflexivity|].
    rewrite Hperm. apply Forall_imap_settle, settleTask_not_complete.
  - unfold runNeedleTest. rewrite !(assoc_L (++)). apply last_snoc.
  - intros i modelConfig Hi messages.
    assert (Hin : settle i modelConfig ∈ run sched models).
    { unfold runNeedleTest. rewrite !elem_of_app. right. left.
      rewrite Hperm. apply list_elem_of_lookup. exists i.
      rewrite list_lookup_imap, Hi. reflexivity. }
    unfold settleTask in Hin. fold messages in Hin.
    destruct (generateResponseWithConfig i (modelId modelConfig) messages userId
                (needleGenConfig modelConfig)) as [response|error]; [|exact Hin].
    rewrite checkExactMatch_Ret in Hin. exact Hin.
  - reflexivity.
Qed.

End NeedleTestProperties.

(** ** Conversation chain *)

Section ChainProperties.

Variable decryptApiKey : string -> string.

Local Abbreviation hasKey := (hasApiKey decryptApiKey).
Local Abbreviation select := (selectModel decryptApiKey).
Local Abbreviation continue := (continueConversationChain decryptApiKey).

Lemma lookup_round_robin (l : list string) (t a : nat) :
  a < length l -> l !! ((t + a) `mod` length l) = rotate t l !! a.
Proof.
  intros Ha. rewrite lookup_rotate_r by exact Ha. f_equal.
  unfold rotate_nat_add.
  rewrite <- Nat2Z.inj_add, <- Nat2Z.inj_mod, Nat2Z.id. reflexivity.
Qed.

(** The loop, from any number of attempts on, finds the first model with
    a key among the candidates not yet examined. *)
Lemma scanParticipants_find (env : TurnEnv) (c : Conversation) (remaining : nat) :
  forall attempts : nat,
    remaining + attempts = length (participants c) ->
    scanParticipants decryptApiKey env c remaining attempts
    = List.find (hasKey env c) (drop attempts (rotate (currentTurn c) (participants c))).
Proof.
  induction remaining as [|remaining IH]; intros attempts Hlen.
  - cbn [scanParticipants]. rewrite drop_ge; [reflexivity|].
    rewrite length_rotate. lia.
  - cbn [scanParticipants].
    rewrite lookup_round_robin by lia.
    assert (Ha : attempts < length (rotate (currentTurn c) (participants c)))
      by (rewrite length_rotate; lia).
    destruct (lookup_lt_is_Some_2 _ _ Ha) as [testModelId Hm]. rewrite Hm.
    rewrite (drop_S _ _ _ Hm). cbn [List.find].
    destruct (hasKey env c testModelId); [reflexivity|].
    apply IH. lia.
Qed.

Lemma selectModel_find (env : TurnEnv) (c : Conversation) :
  select env c
  = List.find (hasKey env c) (rotate (currentTurn c) (participants c)).
Proof. apply (scanParticipants_find env c _ 0). lia. Qed.

Ltac case_if :=
  match goal with
  | |- context [if ?b then _ else _] => destruct b eqn:?
  end.

Lemma select_has_key (env : TurnEnv) (c : Conversation) (m : string) :
  select env c = Some m -> hasKey env c m = true /\ m ∈ participants c.
Proof.
  rewrite selectModel_find. intros H. apply List.find_some in H as [Hin Hkey].
  split; [exact Hkey|].
  apply list_elem_of_In in Hin. rewrite elem_of_rotate in Hin. exact Hin.
Qed.

(** The sender id of the user is not in the model table, so it is never
    the model of a turn. *)
Lemma select_not_user (env : TurnEnv) (c : Conversation) (m : string) :
  select env c = Some m -> String.eqb m "user" = false.
Proof.
  intros H. apply select_has_key in H as [Hkey _].
  destruct (String.eqb m "user") eqn:E; [|reflexivity].
  apply String.eqb_eq in E. subst m. discriminate Hkey.
Qed.

(** A turn leaves the participants, the owner, the id and the goal
    alone. *)
Lemma continue_frame (env : TurnEnv) (c : Conversation) :
  let '(c', events, timer) := continue env c in
  participants c' = participants c /\ userId c' = userId c /\ id c' = id c
  /\ initialGoal c' = initialGoal c.
Proof.
  unfold continueConversationChain.
  destruct (isActive c); cbn [negb]; [|repeat split].
  destruct (select env c) as [currentModelId|] eqn:Hsel; [|repeat split].
  pose proof (select_not_user _ _ _ Hsel) as Hu.
  destruct (generateResponse env currentModelId _ _) as [responseText|message].
  - destruct (isBlank responseText).
    + unfold recordEmpty, addMessage. rewrite Hu. cbn [fst andb].
      case_if; repeat split.
    + unfold addMessage. rewrite Hu. repeat split.
  - destruct (String.eqb message ANTHROPIC_EMPTY); [|repeat split].
    unfold recordEmpty, addMessage. rewrite Hu. cbn [fst andb].
    case_if; repeat split.
Qed.

Lemma addMessage_untouched (modelId content : string) (c : Conversation) :
  let c' := fst (addMessage modelId content c) in
  currentTurn c' = currentTurn c /\ isActive c' = isActive c
  /\ emptyResponseCount c' = emptyResponseCount c
  /\ length (messages c') = S (length (messages c)).
Proof.
  unfold addMessage. case_if; cbn; rewrite length_app; cbn;
    repeat split; lia.
Qed.


Lemma recordEmpty_count (modelId : string) (c : Conversation) :
  emptyResponseCount (recordEmpty modelId c) = S (emptyResponseCount c).
Proof.
  unfold recordEmpty. cbn. f_equal. apply (addMessage_untouched modelId PLACEHOLDER c).
Qed.

Lemma recordEmpty_length (modelId : string) (c : Conversation) :
  length (messages (recordEmpty modelId c)) = S (length (messages c)).
Proof. apply (addMessage_untouched modelId PLACEHOLDER c). Qed.


Lemma recordEmpty_id (modelId : string) (c : Conversation) :
  id (recordEmpty modelId c) = id c.
Proof. unfold recordEmpty, addMessage. case_if; reflexivity. Qed.

(** An inactive conversation takes no turn, and a callback that finds it
    inactive lapses. *)
Lemma continue_inactive (env : TurnEnv) (c : Conversation) :
  isActive c = false -> continue env c = (c, [], NoTimer).
Proof. intros H. unfold continueConversationChain. rewrite H. reflexivity. Qed.

Lemma runChain_inactive (envs : list TurnEnv) (timer : Timer) (c : Conversation) :
  isActive c = false -> runChain decryptApiKey envs timer c = (c, [], NoTimer).
Proof.
  intros H. destruct envs, timer; cbn [runChain fire]; rewrite ?H; reflexivity.
Qed.

(** A turn either leaves a callback and no stop notification, or leaves
    none, the conversation inactive and at most one stop notification. *)
Lemma continue_ended (env : TurnEnv) (c : Conversation) :
  let '(c', events, timer) := continue env c in
  (timer <> NoTimer /\ List.filter isEnded events = [])
  \/ (timer = NoTimer /\ isActive c' = false /\ length (List.filter isEnded events) <= 1).
Proof.
  unfold continueConversationChain.
  destruct (isActive c) eqn:Hact; cbn [negb]; [|right; cbn; auto].
  destruct (select env c) as [currentModelId|]; [|right; cbn; auto].
  destruct (generateResponse env currentModelId _ _) as [responseText|message].
  - destruct (isBlank responseText).
    + case_if; [right; cbn; auto | left; split; [discriminate | reflexivity]].
    + destruct (addMessage _ _ _) as [c1 m1].
      left; split; [discriminate | reflexivity].
  - destruct (String.eqb message ANTHROPIC_EMPTY).
    + case_if; [right; cbn; auto | left; split; [discriminate | reflexivity]].
    + left; split; [discriminate | reflexivity].
Qed.

(** In a chain, from any state and any pending callback, the stop
    notification is sent at most once. *)
Lemma runChain_ended_once (envs : list TurnEnv) :
  forall (timer : Timer) (c : Conversation),
    let '(c', events, timer') := runChain decryptApiKey envs timer c in
    length (List.filter isEnded events) <= 1.
Proof.
  induction envs as [|env envs IH]; intros timer c; cbn [runChain].
  - destruct (fire timer c) eqn:F; cbn; try lia.
    destruct timer; cbn in F; try discriminate F.
    + destruct (isActive c); discriminate F.
    + revert F. repeat (case_if; try discriminate).
      intros F; injection F as <- <-. cbn. lia.
  - destruct (fire timer c) eqn:F; cbn [length List.filter]; try lia.
    + pose proof (continue_ended env c) as Hc.
      destruct (continue env c) as [[c1 events1] timer1].
      destruct Hc as [[_ Hnone] | (-> & Hin & Hle)].
      * specialize (IH timer1 c1).
        destruct (runChain decryptApiKey envs timer1 c1) as [[c2 events2] timer2].
        rewrite List.filter_app, Hnone. exact IH.
      * rewrite (runChain_inactive envs NoTimer c1 Hin), app_nil_r. exact Hle.
    + destruct timer; cbn in F; try discriminate F.
      * destruct (isActive c); discriminate F.
      * revert F. repeat (case_if; try discriminate).
        intros F; injection F as <- <-. cbn. lia.
Qed.

(** C3 (as amended).  When a turn is counted as empty (a blank answer, or
    the empty-content failure of the Anthropic adapter) and brings the
    counter to five, the placeholder is stored, the conversation becomes
    inactive, the turn sends exactly one stop notification and leaves no
    callback: no later callback or call takes another turn.  The reason
    is "Too many empty responses" after a blank answer and "Too many
    empty/failed responses" after the failure. *)
Theorem empty_ceiling_ends_chain (env : TurnEnv) (c : Conversation)
    (currentModelId : string) :
  isActive c = true ->
  select env c = Some currentModelId ->
  let outcome :=
    generateResponse env currentModelId (getConversationHistory 20 c) (userId c) in
  countsAsEmpty outcome = true ->
  EMPTY_LIMIT <= S (emptyResponseCount c) ->
  let ended := setIsActive false (recordEmpty currentModelId c) in
  continue env c
  = (ended,
     [AiThinking currentModelId; ConversationEnded (id c) (ceilingReason outcome)],
     NoTimer)
  /\ isActive ended = false
  /\ emptyResponseCount ended = S (emptyResponseCount c)
  /\ (forall envs timer, runChain decryptApiKey envs timer ended = (ended, [], NoTimer))
  /\ (forall env', continue env' ended = (ended, [], NoTimer)).
Proof.
  intros Hact Hsel outcome Hcount Hlimit ended.
  assert (Hle : (EMPTY_LIMIT <=? emptyResponseCount (recordEmpty currentModelId c))%nat
                = true).
  { rewrite recordEmpty_count. apply Nat.leb_le. exact Hlimit. }
  split; [|split; [reflexivity|split; [|split]]].
  - unfold continueConversationChain. rewrite Hact, Hsel. cbn [negb].
    fold outcome. destruct outcome as [responseText|message];
      cbn [countsAsEmpty ceilingReason] in Hcount |- *;
      rewrite Hcount, Hle, recordEmpty_id; reflexivity.
  - unfold ended. cbn [emptyResponseCount setIsActive]. apply recordEmpty_count.
  - intros envs timer. apply runChain_inactive. reflexivity.
  - intros env'. apply continue_inactive. reflexivity.
Qed.

(** After a placeholder or a failed turn the callback re-checks the
    active flag only: the length of the transcript plays no part. *)
Lemma fire_RecheckActive (c : Conversation) :
  isActive c = true -> fire RecheckActive c = NextTurn.
Proof. intros H. cbn. rewrite H. reflexivity. Qed.

(** So after a turn counted as empty below the ceiling of five, the next
    turn is due whatever the length of the transcript has become. *)
Lemma empty_turn_passes_message_limit (env : TurnEnv) (c : Conversation)
    (currentModelId : string) :
  isActive c = true ->
  select env c = Some currentModelId ->
  countsAsEmpty
    (generateResponse env currentModelId (getConversationHistory 20 c) (userId c)) = true ->
  S (emptyResponseCount c) < EMPTY_LIMIT ->
  let '(c', events, timer) := continue env c in
  length (messages c') = S (length (messages c)) /\ fire timer c' = NextTurn.
Proof.
  intros Hact Hsel Hcount Hlt.
  assert (Hle : (EMPTY_LIMIT <=? emptyResponseCount (recordEmpty currentModelId c))%nat
                = false).
  { rewrite recordEmpty_count. apply Nat.leb_gt. exact Hlt. }
  assert (Hact' : isActive (recordEmpty currentModelId c) = true).
  { unfold recordEmpty. cbn [isActive setEmptyResponseCount].
    rewrite (proj1 (proj2 (addMessage_untouched currentModelId PLACEHOLDER c))).
    exact Hact. }
  unfold continueConversationChain. rewrite Hact, Hsel. cbn [negb].
  destruct (generateResponse env currentModelId _ _) as [responseText|message];
    cbn [countsAsEmpty] in Hcount; rewrite Hcount, Hle;
    (split; [apply recordEmpty_length | apply fire_RecheckActive; exact Hact']).
Qed.

(** A turn only appends to the transcript. *)
Lemma continue_messages (env : TurnEnv) (c : Conversation) :
  let '(c', events, timer) := continue env c in
  exists added, messages c' = messages c ++ added.
Proof.
  unfold continueConversationChain.
  destruct (isActive c); cbn [negb]; [|exists []; rewrite app_nil_r; reflexivity].
  destruct (select env c) as [currentModelId|];
    [|exists []; rewrite app_nil_r; reflexivity].
  destruct (generateResponse env currentModelId _ _) as [responseText|message].
  - destruct (isBlank responseText).
    + unfold recordEmpty, addMessage.
      repeat case_if; eexists; cbn; reflexivity.
    + unfold addMessage. case_if; eexists; cbn; reflexivity.
  - destruct (String.eqb message ANTHROPIC_EMPTY).
    + unfold recordEmpty, addMessage.
      repeat case_if; eexists; cbn; reflexivity.
    + exists []. cbn. rewrite app_nil_r. reflexivity.
Qed.

Lemma runChain_goal_and_messages (envs : list TurnEnv) :
  forall (timer : Timer) (c : Conversation),
    let '(c', events, timer') := runChain decryptApiKey envs timer c in
    initialGoal c' = initialGoal c /\ exists added, messages c' = messages c ++ added.
Proof.
  induction envs as [|env envs IH]; intros timer c; cbn [runChain].
  - destruct (fire timer c) eqn:F;
      try (split; [reflexivity | exists []; rewrite app_nil_r; reflexivity]).
    destruct timer; cbn in F; try discriminate F.
    + destruct (isActive c); discriminate F.
    + revert F. repeat (case_if; try discriminate).
      intros F; injection F as <- <-.
      split; [reflexivity | exists []; rewrite app_nil_r; reflexivity].
  - destruct (fire timer c) eqn:F.
    + pose proof (continue_frame env c) as Hf.
      pose proof (continue_messages env c) as Hm.
      destruct (continue env c) as [[c1 events1] timer1].
      specialize (IH timer1 c1).
      destruct (runChain decryptApiKey envs timer1 c1) as [[c2 events2] timer2].
      destruct Hf as (_ & _ & _ & Hg). destruct Hm as [a1 Hm].
      destruct IH as [Hg2 [a2 Hm2]].
      split; [congruence|]. exists (a1 ++ a2).
      rewrite Hm2, Hm, (assoc_L (++)). reflexivity.
    + destruct timer; cbn in F; try discriminate F.
      * destruct (isActive c); discriminate F.
      * revert F. repeat (case_if; try discriminate).
        intros F; injection F as <- <-.
        split; [reflexivity | exists []; rewrite app_nil_r; reflexivity].
    + split; [reflexivity | exists []; rewrite app_nil_r; reflexivity].
Qed.

(** C6. A conversation started on any prompt, however many turns it
    takes: the transcript begins with the user message of that prompt,
    and [initialGoal] is still unset.  The start pushes the message
    itself instead of going through [addMessage], and the turns add
    messages of models only. *)
Theorem startConversationChain_leaves_goal_unset
    (env : TurnEnv) (envs : list TurnEnv) (initialPrompt conversationId owner : string)
    (models : list string) :
  let '(c, events, timer) :=
    runConversation decryptApiKey env envs initialPrompt
      (newConversation conversationId owner models) in
  initialGoal c = None
  /\ exists later,
      messages c
      = mkMessage "user" (if falsy initialPrompt then "Hello" else initialPrompt) RoleUser
        :: later.
Proof.
  unfold runConversation, startConversationChain.
  set (c0 := setMessages _ (setIsActive true _)).
  pose proof (continue_frame env c0) as Hf.
  pose proof (continue_messages env c0) as Hm.
  destruct (continue env c0) as [[c1 events1] timer1].
  pose proof (runChain_goal_and_messages envs timer1 c1) as Hr.
  destruct (runChain decryptApiKey envs timer1 c1) as [[c2 events2] timer2].
  destruct Hf as (_ & _ & _ & Hg). destruct Hm as [a1 Hm].
  destruct Hr as [Hg2 [a2 Hm2]].
  split; [rewrite Hg2, Hg; reflexivity|].
  exists (a1 ++ a2). rewrite Hm2, Hm. reflexivity.
Qed.

End ChainProperties.

(** *** Instances *)

Lemma empty_ceiling_ends_chain_witness :
  continueConversationChain (fun k => k) blankEnv fourEmpty
  = (setIsActive false (recordEmpty "gpt-4" fourEmpty),
     [AiThinking "gpt-4"; ConversationEnded "c1" "Too many empty responses"],
     NoTimer).
Proof.
  apply (empty_ceiling_ends_chain (fun k => k) blankEnv fourEmpty "gpt-4").
  - reflexivity.
  - vm_compute. reflexivity.
  - vm_compute. reflexivity.
  - unfold EMPTY_LIMIT. simpl. lia.
Defined.

(** C3, as first stated, fails: five blank answers in a row end the
    conversation with a stop notification whose reason is "Too many empty
    responses", which is not the reason "too many empty/failed responses"
    in any letter case.  No sixth turn is taken although more were
    available. *)
Lemma five_blank_answers_reason :
  let '(c, events, timer) :=
    runConversation (fun k => k) blankEnv (replicate 7 blankEnv) "Hi"
      (newConversation "c1" "u1" ["gpt-4"]) in
  emptyResponseCount c = 5
  /\ events
     = NewMessage (mkMessage "user" "Hi" RoleUser)
       :: replicate 5 (AiThinking "gpt-4")
       ++ [ConversationEnded "c1" "Too many empty responses"]
  /\ toLowerCase "Too many empty responses"
     <> toLowerCase "too many empty/failed responses".
Proof. vm_compute. split; [reflexivity | split; [reflexivity | discriminate]]. Qed.

(** C4. A conversation of 29 messages gets a blank answer: the
    placeholder is the 30th message, the callback of that turn tests the
    active flag only, and the next turn is taken with 30 messages in the
    transcript, adding a 31st; "Message limit reached" is sent only after
    that turn. *)
Theorem message_ceiling_missed_after_placeholder :
  let '(c1, events1, timer1) :=
    continueConversationChain (fun k => k) blankEnv nearCeiling in
  let '(c2, events2, timer2) := runChain (fun k => k) [talkEnv] timer1 c1 in
  length (messages nearCeiling) = 29
  /\ events1 = [AiThinking "gpt-4"]
  /\ length (messages c1) = MESSAGE_LIMIT
  /\ isActive c1 = true
  /\ timer1 = RecheckActive
  /\ fire timer1 c1 = NextTurn
  /\ events2 = [AiThinking "gpt-4"; NewMessage (mkMessage "gpt-4" "Go on." RoleAi);
                ConversationEnded "c1" "Message limit reached"]
  /\ length (messages c2) = 31.
Proof. vm_compute. repeat split. Qed.

(** No participant has a key: the first turn ends the conversation and
    leaves the turn index at zero. *)
Example no_key_ends_chain :
  let '(c, events, timer) :=
    runConversation (fun k => k) anthropicOnly [anthropicOnly] "Hi"
      (newConversation "c1" "u1" ["gpt-4"; "gemini-1.5-pro"]) in
  events = [ NewMessage (mkMessage "user" "Hi" RoleUser);
             ConversationEnded "c1" "No models with API keys available" ]
  /\ currentTurn c = 0 /\ isActive c = false /\ timer = NoTimer.
Proof. vm_compute. repeat split. Qed.

(** Only the third participant has a key: every turn is its turn, and the
    turn index counts the turns. *)
Example round_robin_skips_to_third :
  let '(c, events, timer) :=
    runConversation (fun k => k) anthropicOnly (replicate 3 anthropicOnly) "Hi"
      (newConversation "c1" "u1" ["gpt-4"; "gemini-1.5-pro"; "claude-3-opus"]) in
  List.filter isThinking events = replicate 4 (AiThinking "claude-3-opus")
  /\ currentTurn c = 4.
Proof. vm_compute. split; reflexivity. Qed.

(** Three models, the second call failing and settling first: its error
    event, the two results, one completion event. *)
Example needle_test_one_failure :
  runNeedleTest secondCallFails "u1" "The vault code is ABC123." "What is the code?"
    "abc123" [1; 1; 0] threeModels
  = [ AiThinking "gpt-4"; AiThinking "gemini-1.5-pro"; AiThinking "claude-3-opus";
      NeedleTestError "gemini-1.5-pro" "503 Service Unavailable";
      NeedleTestResult "claude-3-opus" "The code is ABC123." true;
      NeedleTestResult "gpt-4" "The code is ABC123." true;
      AllTestsComplete ].
Proof. vm_compute. reflexivity. Qed.

(** * Further properties of the server *)

(** ** Keys and clients *)

(** X1. For provider names that are the table's own (not inherited from
    [Object.prototype]): after [setApiKey] for a provider and a caller,
    [getApiKey] for that pair gives the process-wide key when there is
    one, and otherwise the decryption of what was stored (nothing when the
    stored text is empty); the key of every other provider or caller is
    what it was. *)
Theorem setApiKey_getApiKey
    (encryptApiKey decryptApiKey : string -> string) (ENV : gmap string string)
    (provider apiKey userId : string) (st : KeyState) :
  ownName provider = true ->
  let st' := setApiKey encryptApiKey provider apiKey userId st in
  getApiKey ENV (storedKeys st') decryptApiKey provider userId
  = (if truthyKey (ENV !! provider) then ENV !! provider
     else if falsy (encryptApiKey apiKey) then None
          else Some (decryptApiKey (encryptApiKey apiKey)))
  /\ (forall provider' userId' : string,
         ownName provider' = true ->
         (provider', userId') <> (provider, userId) ->
         getApiKey ENV (storedKeys st') decryptApiKey provider' userId'
         = getApiKey ENV (storedKeys st) decryptApiKey provider' userId').
Proof.
  intros _ st'. unfold st', setApiKey, getApiKey. cbn [storedKeys]. split.
  - destruct (truthyKey (ENV !! provider)); [reflexivity|].
    rewrite lookup_insert_eq, lookup_insert_eq. cbn [truthyKey fmap option_fmap option_map].
    destruct (falsy (encryptApiKey apiKey)); reflexivity.
  - intros provider' userId' _ Hne.
    destruct (truthyKey (ENV !! provider')); [reflexivity|].
    destruct (decide (userId' = userId)) as [->|Hu].
    + assert (Hp : provider <> provider') by (intros ->; apply Hne; reflexivity).
      rewrite lookup_insert_eq, lookup_insert_ne by exact Hp.
      destruct (storedKeys st !! userId) as [userKeys|]; [reflexivity|].
      cbn [default]. rewrite lookup_empty. reflexivity.
    + rewrite lookup_insert_ne by congruence. reflexivity.
Qed.

Lemma setApiKey_getApiKey_witness :
  getApiKey ∅ (storedKeys (setApiKey (fun k => k) "openai" "sk-1" "u1" noKeyState))
            (fun k => k) "openai" "u1"
  = Some "sk-1".
Proof.
  exact (proj1 (setApiKey_getApiKey (fun k => k) (fun k => k) ∅ "openai" "sk-1" "u1"
                  noKeyState eq_refl)).
Defined.

Lemma entryOf_In (table : list (string * ModelEntry)) (modelId : string) (e : ModelEntry) :
  entryOf table modelId = Some e -> In (modelId, e) table.
Proof.
  induction table as [|[k v] table IH]; [discriminate|].
  cbn [entryOf]. destruct (String.eqb k modelId) eqn:E.
  - apply String.eqb_eq in E. intros H; injection H as <-. left. congruence.
  - intros H. right. exact (IH H).
Qed.

Lemma ownProperty_In (table : list (string * string)) (modelId p : string) :
  ownProperty table modelId = Some p -> In (modelId, p) table.
Proof.
  induction table as [|[k v] table IH]; [discriminate|].
  cbn [ownProperty]. destruct (String.eqb k modelId) eqn:E.
  - apply String.eqb_eq in E. intros H; injection H as <-. left. congruence.
  - intros H. right. exact (IH H).
Qed.

(** Only the names of [Object.prototype] find an inherited value. *)
Lemma inheritedKey_own (name : string) :
  ownName name = true -> inheritedKey name = None.
Proof.
  unfold ownName, inheritedKey. intros H. apply negb_true_iff in H. rewrite H.
  destruct (String.eqb name "__proto__") eqn:E1.
  { apply String.eqb_eq in E1. subst name. discriminate H. }
  destruct (String.eqb name "constructor") eqn:E2; [|reflexivity].
  apply String.eqb_eq in E2. subst name. discriminate H.
Qed.

Lemma providerOf_own (table : list (string * string)) (name : string) :
  ownName name = true -> providerOf table name = ownProperty table name.
Proof.
  intros H. unfold providerOf. rewrite (inheritedKey_own _ H).
  destruct (ownProperty table name); reflexivity.
Qed.

Lemma adapter_key_own (modelId : string) (e : ModelEntry) :
  entryOf adapterModelMapping modelId = Some e -> ownName modelId = true.
Proof.
  intros H. apply entryOf_In in H.
  assert (Hall : forallb (fun row => ownName (fst row)) adapterModelMapping = true)
    by (vm_compute; reflexivity).
  rewrite forallb_forall in Hall. exact (Hall _ H).
Qed.

Lemma adapter_rows_ok (modelId : string) (e : ModelEntry) :
  entryOf adapterModelMapping modelId = Some e -> rowOk (modelId, e) = true.
Proof.
  intros H. apply entryOf_In in H.
  assert (Hall : forallb rowOk adapterModelMapping = true) by (vm_compute; reflexivity).
  rewrite forallb_forall in Hall. exact (Hall _ H).
Qed.

Lemma memberOf_three (p : string) :
  memberOf p ["openai"; "google"; "anthropic"] = true ->
  p = "openai" \/ p = "google" \/ p = "anthropic".
Proof.
  unfold memberOf. cbn [existsb]. rewrite !orb_true_iff, !String.eqb_eq.
  intros [H|[H|[H|H]]]; [| | |discriminate H]; symmetry in H; auto.
Qed.

Lemma adapter_row (modelId : string) (e : ModelEntry) :
  entryOf adapterModelMapping modelId = Some e ->
  apiKeyField e = entryProvider e
  /\ (entryProvider e = "openai" \/ entryProvider e = "google"
      \/ entryProvider e = "anthropic")
  /\ includes (unsupportedMessage modelId) UNSUPPORTED = false
  /\ includes ("No API key found for " +:+ entryProvider e) UNSUPPORTED = false
  /\ (entryProvider e = "openai" ->
      String.eqb (default "chat" (apiType e)) "responses" = true ->
      supportsTemperature (nativeModel e) = false
      /\ hasReasoning (nativeModel e) = memberOf modelId ["o3"; "o1"]).
Proof.
  intros H. apply adapter_rows_ok in H. unfold rowOk in H.
  apply andb_prop in H as [H H5]. apply andb_prop in H as [H H4].
  apply andb_prop in H as [H H3]. apply andb_prop in H as [H1 H2].
  apply String.eqb_eq in H1. apply memberOf_three in H2.
  apply negb_true_iff in H3, H4.
  repeat (split; [assumption|]).
  intros Hp Hr. rewrite Hp, Hr in H5. cbn [String.eqb Ascii.eqb Bool.eqb] in H5.
  apply andb_prop in H5 as [Ha Hb]. apply negb_true_iff in Ha.
  apply Bool.eqb_prop in Hb. split; assumption.
Qed.

Lemma generateGeminiResponse_calls (g : string -> Thrown string) (messages : list Message) :
  length (fst (generateGeminiResponse g messages)) <= 1.
Proof.
  unfold generateGeminiResponse. destruct (geminiPrompt messages); cbn; lia.
Qed.

Lemma modelConfigOf_table (modelId : string) (e : ModelEntry) :
  entryOf adapterModelMapping modelId = Some e -> modelConfigOf modelId = Some e.
Proof. intros He. unfold modelConfigOf. rewrite He. reflexivity. Qed.

Section AdapterProperties.

Variable sdk : Sdk.
Variable ENV : gmap string string.
Variable decryptApiKey : string -> string.

Local Abbreviation adapter := (generateResponseWithConfig sdk ENV decryptApiKey).
Local Abbreviation resolve st := (getApiKey ENV (storedKeys st) decryptApiKey).

(** The adapter on a model of its table whose key resolves: the client of
    the provider is rebuilt with that key before the provider function
    runs. *)
Lemma adapter_known (st : KeyState) (modelId : string) (messages : list Message)
    (userId : string) (config : Config) (e : ModelEntry) (key : string) :
  entryOf adapterModelMapping modelId = Some e ->
  resolve st (apiKeyField e) userId = Some key ->
  falsy key = false ->
  exists calls result,
    adapter st modelId messages userId config
    = (initializeModel (entryProvider e) key (clients st), calls,
       match result with
       | Throw message =>
           if negb (falsy message) && includes message UNSUPPORTED
           then Throw (unsupportedMessage modelId) else Throw message
       | Ret value => Ret value
       end)
    /\ ((entryProvider e = "openai"
         /\ (calls, result)
            = generateOpenAIResponse sdk (mkModels (Some key) None None) messages
                (nativeModel e) (apiType e) (finalConfigOf config))
        \/ (entryProvider e = "google"
            /\ (calls, result)
               = generateGeminiOnClient sdk (mkModels None (Some key) None) messages
                   (nativeModel e) (finalConfigOf config))
        \/ (entryProvider e = "anthropic"
            /\ (calls, result)
               = generateClaudeResponse sdk (mkModels None None (Some key)) messages
                   (nativeModel e) (finalConfigOf config))).
Proof.
  intros He Hkey Hfalsy.
  destruct (adapter_row _ _ He) as (_ & Hprov & _).
  unfold generateResponseWithConfig. rewrite (modelConfigOf_table _ _ He), Hkey, Hfalsy.
  destruct Hprov as [Hp|[Hp|Hp]]; rewrite Hp;
    cbn [String.eqb Ascii.eqb Bool.eqb initializeModel].
  - destruct (generateOpenAIResponse _ _ _ _ _ _) as [calls result] eqn:E.
    exists calls, result. split; [reflexivity|]. left. split; [reflexivity|].
    rewrite <- E. unfold generateOpenAIResponse. reflexivity.
  - destruct (generateGeminiOnClient _ _ _ _ _) as [calls result] eqn:E.
    exists calls, result. split; [reflexivity|]. right; left. split; [reflexivity|].
    rewrite <- E. unfold generateGeminiOnClient. reflexivity.
  - destruct (generateClaudeResponse _ _ _ _ _) as [calls result] eqn:E.
    exists calls, result. split; [reflexivity|]. right; right. split; [reflexivity|].
    rewrite <- E. unfold generateClaudeResponse. reflexivity.
Qed.

(** The adapter on an id outside its table: it fails before any call,
    with a message that the clients play no part in. *)
Lemma adapter_outside_table (st : KeyState) (modelId : string) (messages : list Message)
    (userId : string) (config : Config) :
  entryOf adapterModelMapping modelId = None ->
  exists message,
    forall others : Models,
      adapter (mkKeyState (storedKeys st) others) modelId messages userId config
      = (others, [], Throw message).
Proof.
  intros He. unfold generateResponseWithConfig, modelConfigOf. rewrite He.
  destruct (memberOf modelId OBJECT_PROTOTYPE); [|eexists; intros others; reflexivity].
  cbn [storedKeys clients apiKeyField entryProvider inheritedEntry].
  destruct (getApiKey ENV (storedKeys st) decryptApiKey "undefined" userId) as [key|];
    [|eexists; intros others; reflexivity].
  destruct (falsy key); [eexists; intros others; reflexivity|].
  exists "Unknown provider: undefined". intros others. reflexivity.
Qed.

Lemma openai_calls (key : string) (messages : list Message) (model : string)
    (apiType : option string) (config : GenConfig) :
  let calls :=
    fst (generateOpenAIResponse sdk (mkModels (Some key) None None) messages model
           apiType config) in
  length calls <= 1
  /\ Forall (fun call => callKey call = key /\ callProvider call = "openai") calls.
Proof.
  unfold generateOpenAIResponse. cbn [openai].
  destruct (String.eqb (default "chat" apiType) "responses"); cbn;
    (split; [lia | repeat constructor]).
Qed.

Lemma gemini_calls (key : string) (messages : list Message) (model : string)
    (config : GenConfig) :
  let calls :=
    fst (generateGeminiOnClient sdk (mkModels None (Some key) None) messages model
           config) in
  length calls <= 1
  /\ Forall (fun call => callKey call = key /\ callProvider call = "google") calls.
Proof.
  unfold generateGeminiOnClient. cbn [gemini].
  pose proof (generateGeminiResponse_calls (geminiGenerateContent sdk key model) messages)
    as Hlen.
  destruct (generateGeminiResponse _ messages) as [prompts result]. cbn [fst] in *.
  rewrite length_fmap. split; [exact Hlen|].
  apply Forall_fmap, Forall_forall. intros prompt _. split; reflexivity.
Qed.

Lemma claude_calls (key : string) (messages : list Message) (model : string)
    (config : GenConfig) :
  let calls :=
    fst (generateClaudeResponse sdk (mkModels None None (Some key)) messages model
           config) in
  length calls <= 1
  /\ Forall (fun call => callKey call = key /\ callProvider call = "anthropic") calls.
Proof.
  unfold generateClaudeResponse. cbn. split; [lia | repeat constructor].
Qed.

(** X2. Every provider call of the adapter goes to the provider of the
    model's table entry through a client built with the key that
    [getApiKey] resolves for the caller; there is at most one call; and
    neither the calls nor the outcome depend on the clients that earlier
    [setApiKey] or adapter calls, of any caller, left behind. *)
Theorem adapter_calls_use_resolved_key (st : KeyState) (modelId : string)
    (messages : list Message) (userId : string) (config : Config) :
  let '(models, calls, result) := adapter st modelId messages userId config in
  length calls <= 1
  /\ Forall
       (fun call =>
          exists e,
            entryOf adapterModelMapping modelId = Some e
            /\ resolve st (apiKeyField e) userId = Some (callKey call)
            /\ callKey call <> ""
            /\ callProvider call = entryProvider e)
       calls
  /\ forall others : Models,
      let '(models', calls', result') :=
        adapter (mkKeyState (storedKeys st) others) modelId messages userId config in
      calls' = calls /\ result' = result.
Proof.
  destruct (entryOf adapterModelMapping modelId) as [e|] eqn:He.
  2:{ destruct (adapter_outside_table st modelId messages userId config He)
        as (message & Hout).
      pose proof (Hout (clients st)) as Hst. destruct st as [stored cl].
      cbn [storedKeys clients] in *. rewrite Hst.
      split; [cbn; lia | split; [constructor|]].
      intros others. rewrite (Hout others). split; reflexivity. }
  destruct (resolve st (apiKeyField e) userId) as [key|] eqn:Hkey.
  2:{ unfold generateResponseWithConfig. cbn [storedKeys]. rewrite (modelConfigOf_table _ _ He), Hkey.
      split; [cbn; lia | split; [constructor | intros others; split; reflexivity]]. }
  destruct (falsy key) eqn:Hfalsy.
  { unfold generateResponseWithConfig. cbn [storedKeys]. rewrite (modelConfigOf_table _ _ He), Hkey, Hfalsy.
    split; [cbn; lia | split; [constructor | intros others; split; reflexivity]]. }
  destruct (adapter_known st modelId messages userId config e key He Hkey Hfalsy)
    as (calls & result & -> & Hcase).
  assert (Hne : key <> "") by (intros ->; discriminate Hfalsy).
  assert (Hcalls :
            length calls <= 1
            /\ Forall (fun call => callKey call = key
                                   /\ callProvider call = entryProvider e) calls).
  { destruct Hcase as [[Hp E]|[[Hp E]|[Hp E]]]; rewrite Hp.
    - pose proof (openai_calls key messages (nativeModel e) (apiType e)
                    (finalConfigOf config)) as H.
      rewrite <- E in H. exact H.
    - pose proof (gemini_calls key messages (nativeModel e) (finalConfigOf config)) as H.
      rewrite <- E in H. exact H.
    - pose proof (claude_calls key messages (nativeModel e) (finalConfigOf config)) as H.
      rewrite <- E in H. exact H. }
  destruct Hcalls as [Hlen Hall].
  split; [exact Hlen|]. split.
  - eapply Forall_impl; [exact Hall|]. intros call [Hk Hp]. exists e.
    rewrite Hk. auto.
  - intros others.
    destruct (adapter_known (mkKeyState (storedKeys st) others) modelId messages userId
                config e key He Hkey Hfalsy) as (calls' & result' & -> & Hcase').
    assert (E : (calls', result') = (calls, result)).
    { destruct Hcase as [[Hp E]|[[Hp E]|[Hp E]]];
        destruct Hcase' as [[Hp' E']|[[Hp' E']|[Hp' E']]];
        try (rewrite Hp in Hp'; discriminate Hp'); congruence. }
    injection E as -> ->. split; reflexivity.
Qed.

Lemma includes_nonempty (message : string) :
  includes message UNSUPPORTED = true -> falsy message = false.
Proof. destruct message; [discriminate | reflexivity]. Qed.

(** What a provider function makes of a failure of the provider. *)
Lemma provider_failure_propagates (models : Models) (messages : list Message)
    (e : ModelEntry) (config : GenConfig) (call : ProviderCall) (message : string) :
  sdkFailure sdk call = Some message ->
  (call ∈ fst (generateOpenAIResponse sdk models messages (nativeModel e) (apiType e) config)
   -> snd (generateOpenAIResponse sdk models messages (nativeModel e) (apiType e) config)
      = Throw message)
  /\ (call ∈ fst (generateGeminiOnClient sdk models messages (nativeModel e) config)
      -> snd (generateGeminiOnClient sdk models messages (nativeModel e) config)
         = Throw message)
  /\ (call ∈ fst (generateClaudeResponse sdk models messages (nativeModel e) config)
      -> snd (generateClaudeResponse sdk models messages (nativeModel e) config)
         = Throw message).
Proof.
  intros Hfail. split; [|split].
  - unfold generateOpenAIResponse. destruct (openai models) as [key|]; [|cbn; set_solver].
    destruct (String.eqb (default "chat" (apiType e)) "responses"); cbn [fst snd];
      intros Hin; apply list_elem_of_singleton in Hin; subst call;
      cbn [sdkFailure] in Hfail.
    + destruct (responsesCreate sdk key _); [discriminate Hfail | congruence].
    + destruct (chatCreate sdk key _); [discriminate Hfail | congruence].
  - unfold generateGeminiOnClient. destruct (gemini models) as [key|]; [|cbn; set_solver].
    unfold generateGeminiResponse. destruct (geminiPrompt messages) as [prompt|error];
      cbn [fst snd fmap list_fmap]; [|set_solver].
    intros Hin; apply list_elem_of_singleton in Hin; subst call.
    cbn [sdkFailure] in Hfail.
    destruct (geminiGenerateContent sdk key _ prompt); [discriminate Hfail | congruence].
  - unfold generateClaudeResponse. destruct (claude models) as [key|]; [|cbn; set_solver].
    cbn [fst snd]. intros Hin; apply list_elem_of_singleton in Hin; subst call.
    cbn [sdkFailure] in Hfail.
    destruct (claudeCreate sdk key _); [discriminate Hfail | congruence].
Qed.

(** X3. When the provider rejects the call of the adapter with a message
    that contains "Unsupported parameter", the adapter fails with its own
    message naming the model; and for a model of the table no failure of
    the adapter, of any origin, contains that text. *)
Theorem adapter_unsupported_parameter (st : KeyState) (modelId : string)
    (messages : list Message) (userId : string) (config : Config) :
  let '(models, calls, result) := adapter st modelId messages userId config in
  (forall call message,
      call ∈ calls -> sdkFailure sdk call = Some message ->
      includes message UNSUPPORTED = true ->
      result = Throw (unsupportedMessage modelId))
  /\ (forall message,
         entryOf adapterModelMapping modelId <> None ->
         result = Throw message -> includes message UNSUPPORTED = false).
Proof.
  destruct (entryOf adapterModelMapping modelId) as [e|] eqn:He.
  2:{ destruct (adapter_outside_table st modelId messages userId config He)
        as (message & Hout).
      pose proof (Hout (clients st)) as Hst. destruct st as [stored cl].
      cbn [storedKeys clients] in Hst. rewrite Hst.
      split; [intros call message' Hin; set_solver | intros message' H; contradiction]. }
  destruct (adapter_row _ _ He) as (_ & _ & Hown & Hnokey & _).
  destruct (resolve st (apiKeyField e) userId) as [key|] eqn:Hkey.
  2:{ unfold generateResponseWithConfig. rewrite (modelConfigOf_table _ _ He), Hkey.
      split; [intros call message Hin; set_solver|].
      intros message _ H; injection H as <-. exact Hnokey. }
  destruct (falsy key) eqn:Hfalsy.
  { unfold generateResponseWithConfig. rewrite (modelConfigOf_table _ _ He), Hkey, Hfalsy.
    split; [intros call message Hin; set_solver|].
    intros message _ H; injection H as <-. exact Hnokey. }
  destruct (adapter_known st modelId messages userId config e key He Hkey Hfalsy)
    as (calls & result & -> & Hcase).
  split.
  - intros call message Hin Hfail Hinc.
    assert (Hres : result = Throw message).
    { destruct (provider_failure_propagates (mkModels (Some key) None None) messages e
                  (finalConfigOf config) call message Hfail) as (Ho & _).
      destruct (provider_failure_propagates (mkModels None (Some key) None) messages e
                  (finalConfigOf config) call message Hfail) as (_ & Hg & _).
      destruct (provider_failure_propagates (mkModels None None (Some key)) messages e
                  (finalConfigOf config) call message Hfail) as (_ & _ & Hc).
      destruct Hcase as [[_ E]|[[_ E]|[_ E]]]; rewrite <- E in *; cbn [fst snd] in *; auto. }
    rewrite Hres, Hinc, (includes_nonempty _ Hinc). reflexivity.
  - intros message _. destruct result as [value|inner]; [discriminate|].
    destruct (negb (falsy inner) && includes inner UNSUPPORTED) eqn:Htest;
      intros H; injection H as <-; [exact Hown|].
    destruct (includes inner UNSUPPORTED) eqn:Hinc; [|reflexivity].
    rewrite (includes_nonempty _ Hinc) in Htest. discriminate Htest.
Qed.

(** X4. A call to the responses API made by the adapter carries no
    temperature, whatever the configuration, asks for reasoning exactly
    for the models o3 and o1, and passes the history in order with the
    role [ai] sent as [assistant]. *)
Theorem adapter_responses_request (st : KeyState) (modelId : string)
    (messages : list Message) (userId : string) (config : Config) :
  let '(models, calls, result) := adapter st modelId messages userId config in
  forall key request,
    ResponsesCall key request ∈ calls ->
    rTemperature request = None
    /\ rReasoning request = memberOf modelId ["o3"; "o1"]
    /\ rInput request = toClaude <$> messages.
Proof.
  destruct (entryOf adapterModelMapping modelId) as [e|] eqn:He.
  2:{ destruct (adapter_outside_table st modelId messages userId config He)
        as (message & Hout).
      pose proof (Hout (clients st)) as Hst. destruct st as [stored cl].
      cbn [storedKeys clients] in Hst. rewrite Hst.
      intros key request Hin. set_solver. }
  destruct (adapter_row _ _ He) as (_ & _ & _ & _ & Hresp).
  destruct (resolve st (apiKeyField e) userId) as [k|] eqn:Hkey.
  2:{ unfold generateResponseWithConfig. rewrite (modelConfigOf_table _ _ He), Hkey. intros key request Hin. set_solver. }
  destruct (falsy k) eqn:Hfalsy.
  { unfold generateResponseWithConfig. rewrite (modelConfigOf_table _ _ He), Hkey, Hfalsy.
    intros key request Hin. set_solver. }
  destruct (adapter_known st modelId messages userId config e k He Hkey Hfalsy)
    as (calls & result & -> & Hcase).
  intros key request Hin.
  destruct Hcase as [[Hp E]|[[Hp E]|[Hp E]]].
  - unfold generateOpenAIResponse in E. cbn [openai] in E.
    destruct (String.eqb (default "chat" (apiType e)) "responses") eqn:Hr;
      injection E as -> _; apply list_elem_of_singleton in Hin;
      [|discriminate Hin].
    injection Hin as _ ->. destruct (Hresp Hp eq_refl) as [Ht Hreason].
    unfold responsesRequestBody. cbn [rTemperature rReasoning rInput].
    rewrite Ht. auto.
  - pose proof (gemini_calls k messages (nativeModel e) (finalConfigOf config)) as [_ H].
    rewrite <- E in H. cbn [fst] in H. rewrite Forall_forall in H.
    destruct (H _ Hin) as [_ Hc]. discriminate Hc.
  - pose proof (claude_calls k messages (nativeModel e) (finalConfigOf config)) as [_ H].
    rewrite <- E in H. cbn [fst] in H. rewrite Forall_forall in H.
    destruct (H _ Hin) as [_ Hc]. discriminate Hc.
Qed.

Lemma orN_parameters (config : Config) (d : N) :
  d <> 0%N ->
  orN (genMaxTokens (finalConfigOf config)) d <> 0%N
  /\ (maxTokensOpt config = None -> orN (genMaxTokens (finalConfigOf config)) d = 1000%N).
Proof.
  intros Hd. unfold orN, finalConfigOf. cbn [genMaxTokens]. split.
  - destruct (default 1000%N (maxTokensOpt config) =? 0)%N eqn:E; [exact Hd|].
    apply N.eqb_neq in E. exact E.
  - intros ->. reflexivity.
Qed.

Lemma orQ_parameters (config : Config) :
  Qeq_bool (orQ (genTemperature (finalConfigOf config)) (7 # 10)) 0 = false
  /\ (forall t, temperatureOpt config = Some t -> Qeq_bool t 0 = true ->
                orQ (genTemperature (finalConfigOf config)) (7 # 10) = (7 # 10)%Q).
Proof.
  unfold orQ, finalConfigOf. cbn [genTemperature]. split.
  - destruct (Qeq_bool (default (7 # 10)%Q (temperatureOpt config)) 0) eqn:E;
      [reflexivity | exact E].
  - intros t -> Ht. cbn [from_option Datatypes.id]. rewrite Ht. reflexivity.
Qed.

(** X5. No call of the adapter carries a token limit of 0 or, to the chat
    API and to Claude, a temperature of 0: a configured 0 is replaced (the
    temperature by 0.7).  When the configuration names no token limit the
    call carries 1000, for every provider: the limits 2048 and 1024 of the
    responses and Claude functions apply to a configured 0 only. *)
Theorem adapter_generation_parameters (st : KeyState) (modelId : string)
    (messages : list Message) (userId : string) (config : Config) :
  let '(models, calls, result) := adapter st modelId messages userId config in
  Forall (parametersOk config) calls.
Proof.
  destruct (entryOf adapterModelMapping modelId) as [e|] eqn:He.
  2:{ destruct (adapter_outside_table st modelId messages userId config He)
        as (message & Hout).
      pose proof (Hout (clients st)) as Hst. destruct st as [stored cl].
      cbn [storedKeys clients] in Hst. rewrite Hst. constructor. }
  destruct (resolve st (apiKeyField e) userId) as [k|] eqn:Hkey.
  2:{ unfold generateResponseWithConfig. rewrite (modelConfigOf_table _ _ He), Hkey. constructor. }
  destruct (falsy k) eqn:Hfalsy.
  { unfold generateResponseWithConfig. rewrite (modelConfigOf_table _ _ He), Hkey, Hfalsy. constructor. }
  destruct (adapter_known st modelId messages userId config e k He Hkey Hfalsy)
    as (calls & result & -> & Hcase).
  pose proof (orQ_parameters config) as [Hq0 Hq].
  destruct Hcase as [[Hp E]|[[Hp E]|[Hp E]]].
  - unfold generateOpenAIResponse in E. cbn [openai] in E.
    destruct (String.eqb (default "chat" (apiType e)) "responses");
      injection E as -> _; apply Forall_singleton;
      cbn [parametersOk responsesRequestBody chatRequestBody rMaxOutputTokens
           cMaxTokens cTemperature].
    + apply orN_parameters. discriminate.
    + destruct (orN_parameters config 1000) as [H0 H1]; [discriminate|].
      split; [exact H0 | split; [exact H1 | split; [exact Hq0 | exact Hq]]].
  - pose proof (gemini_calls k messages (nativeModel e) (finalConfigOf config)) as [_ H].
    rewrite <- E in H. cbn [fst] in H.
    eapply Forall_impl; [exact H|]. intros call [_ Hc].
    destruct call; try discriminate Hc. exact I.
  - unfold generateClaudeResponse in E. cbn [claude] in E. injection E as -> _.
    apply Forall_singleton.
    cbn [parametersOk claudeRequestBody aMaxTokens aTemperature].
    destruct (orN_parameters config 1024) as [H0 H1]; [discriminate|].
    split; [exact H0 | split; [exact H1 | split; [exact Hq0 | exact Hq]]].
Qed.

(** X6. For a model of Google the configuration plays no part: the
    adapter makes the same calls and ends the same way under any two
    configurations. *)
Theorem adapter_gemini_ignores_config (st : KeyState) (modelId : string)
    (messages : list Message) (userId : string) (config config' : Config)
    (e : ModelEntry) :
  entryOf adapterModelMapping modelId = Some e ->
  entryProvider e = "google" ->
  adapter st modelId messages userId config = adapter st modelId messages userId config'.
Proof.
  intros He Hp. unfold generateResponseWithConfig. rewrite (modelConfigOf_table _ _ He), Hp.
  cbn [String.eqb Ascii.eqb Bool.eqb].
  destruct (resolve st (apiKeyField e) userId) as [k|]; [|reflexivity].
  destruct (falsy k); reflexivity.
Qed.

End AdapterProperties.

Lemma adapter_gemini_ignores_config_witness :
  generateResponseWithConfig helloSdk allKeys (fun k => k) noKeyState
    "gemini-1.5-pro" oneQuestion "u1" (mkConfig (Some (1 # 5)%Q) (Some 64%N))
  = generateResponseWithConfig helloSdk allKeys (fun k => k) noKeyState
      "gemini-1.5-pro" oneQuestion "u1" (mkConfig None None).
Proof.
  apply (adapter_gemini_ignores_config helloSdk allKeys (fun k => k) noKeyState
           "gemini-1.5-pro" oneQuestion "u1" _ _ (googleEntry "gemini-1.5-pro"));
    reflexivity.
Defined.

(** ** The turn of a conversation, in parts and with the adapter *)

Section TurnProperties.

Variable decryptApiKey : string -> string.

Local Abbreviation select := (selectModel decryptApiKey).
Local Abbreviation continue := (continueConversationChain decryptApiKey).

(** A turn is the wait for the provider followed by [finishTurn]. *)
Lemma continue_finishTurn (env : TurnEnv) (c : Conversation) :
  continue env c
  = if negb (isActive c) then (c, [], NoTimer)
    else
      match select env c with
      | None =>
          (setIsActive false c,
           [ConversationEnded (id c) "No models with API keys available"], NoTimer)
      | Some currentModelId =>
          let '(c', events, timer) :=
            finishTurn currentModelId
              (generateResponse env currentModelId (getConversationHistory 20 c) (userId c))
              c in
          (c', AiThinking currentModelId :: events, timer)
      end.
Proof.
  unfold continueConversationChain, finishTurn.
  destruct (negb (isActive c)); [reflexivity|].
  destruct (select env c) as [m|]; [|reflexivity].
  destruct (generateResponse env m _ _) as [responseText|message].
  - destruct (isBlank responseText).
    + destruct (EMPTY_LIMIT <=? _)%nat; reflexivity.
    + destruct (addMessage m responseText _); reflexivity.
  - destruct (String.eqb message ANTHROPIC_EMPTY); [|reflexivity].
    destruct (EMPTY_LIMIT <=? _)%nat; reflexivity.
Qed.

Lemma chain_row (m p : string) :
  ownProperty modelMapping m = Some p ->
  match entryOf adapterModelMapping m with
  | Some e => apiKeyField e = p /\ entryProvider e = p
  | None => m = "gemini-1.0-pro" \/ m = "gemini-2.5-flash-preview-05-20"
  end.
Proof.
  intros H. apply ownProperty_In in H.
  assert (Hall : forallb chainRowOk modelMapping = true) by (vm_compute; reflexivity).
  rewrite forallb_forall in Hall. specialize (Hall _ H). unfold chainRowOk in Hall.
  destruct (entryOf adapterModelMapping m) as [e|].
  - apply andb_prop in Hall as [H1 H2]. apply String.eqb_eq in H1, H2. auto.
  - unfold memberOf in Hall. cbn [existsb] in Hall.
    rewrite !orb_true_iff, !String.eqb_eq in Hall.
    destruct Hall as [Hm|[Hm|Hm]]; [left | right | discriminate Hm]; congruence.
Qed.

Lemma chain_key_own (m p : string) :
  ownProperty modelMapping m = Some p -> ownName m = true.
Proof.
  intros H. apply ownProperty_In in H.
  assert (Hall : forallb (fun row => ownName (fst row)) modelMapping = true)
    by (vm_compute; reflexivity).
  rewrite forallb_forall in Hall. exact (Hall _ H).
Qed.

Lemma select_key (env : TurnEnv) (c : Conversation) (m : string) :
  select env c = Some m ->
  exists p key,
    providerOf modelMapping m = Some p
    /\ getApiKey (envApiKeys env) (userKeys env) decryptApiKey p (userId c) = Some key
    /\ falsy key = false.
Proof.
  rewrite selectModel_find. intros H. apply List.find_some in H as [_ Hkey].
  unfold hasApiKey in Hkey.
  destruct (providerOf modelMapping m) as [p|]; [|discriminate Hkey].
  destruct (getApiKey _ _ _ p (userId c)) as [key|] eqn:E; [|discriminate Hkey].
  exists p, key. cbn [truthyKey] in Hkey. apply negb_true_iff in Hkey. auto.
Qed.

Section WithAdapter.

Variable sdk : Sdk.
Variable ENV : gmap string string.
Variable st : KeyState.

Local Abbreviation env := (adapterTurnEnv sdk decryptApiKey ENV st).

(** The answer of the adapter-backed turn for a model of both tables. *)
Lemma adapterTurnEnv_known (c : Conversation) (m : string) (history : list Message)
    (e : ModelEntry) :
  select env c = Some m ->
  entryOf adapterModelMapping m = Some e ->
  exists key,
    getApiKey ENV (storedKeys st) decryptApiKey (apiKeyField e) (userId c) = Some key
    /\ falsy key = false
    /\ exists calls result,
        generateResponse env m history (userId c)
        = toResponseText (rewriteUnsupported m result)
        /\ ((entryProvider e = "openai"
             /\ (calls, result)
                = generateOpenAIResponse sdk (mkModels (Some key) None None) history
                    (nativeModel e) (apiType e) (finalConfigOf (mkConfig None None)))
            \/ (entryProvider e = "google"
                /\ (calls, result)
                   = generateGeminiOnClient sdk (mkModels None (Some key) None) history
                       (nativeModel e) (finalConfigOf (mkConfig None None)))
            \/ (entryProvider e = "anthropic"
                /\ (calls, result)
                   = generateClaudeResponse sdk (mkModels None None (Some key)) history
                       (nativeModel e) (finalConfigOf (mkConfig None None)))).
Proof.
  intros Hsel He.
  destruct (select_key _ _ _ Hsel) as (p & key & Hp & Hkey & Hfalsy).
  rewrite (providerOf_own _ _ (adapter_key_own _ _ He)) in Hp.
  pose proof (chain_row _ _ Hp) as Hrow. rewrite He in Hrow. destruct Hrow as [Hf _].
  cbn [envApiKeys userKeys adapterTurnEnv] in Hkey. rewrite <- Hf in Hkey.
  exists key. split; [exact Hkey | split; [exact Hfalsy|]].
  destruct (adapter_known sdk ENV decryptApiKey st m history (userId c)
              (mkConfig None None) e key He Hkey Hfalsy)
    as (calls & result & Heq & Hcase).
  exists calls, result. split; [|exact Hcase].
  cbn [generateResponse adapterTurnEnv]. unfold generateResponseDefault.
  rewrite Heq. reflexivity.
Qed.

(** X7. In a turn backed by the adapter, the model the scan selects is
    one of three kinds.  A model of the adapter: the adapter resolves for
    it a key that is not empty, so the turn does not fail for a missing
    key.  One of the two ids the chain knows and the adapter does not
    ("gemini-1.0-pro", "gemini-2.5-flash-preview-05-20"): the turn reports
    "Unknown model".  A name inherited from [Object.prototype], selected
    because a key is stored under the text its value prints as: the turn
    reports "No API key found for undefined", or "Unknown provider:
    undefined" when a key is stored under "undefined".  In the last two
    the turn index advances and a callback is left. *)
Theorem chain_turn_key_resolved (c : Conversation) (m : string) :
  isActive c = true ->
  select env c = Some m ->
  match entryOf adapterModelMapping m with
  | Some e =>
      exists key,
        getApiKey ENV (storedKeys st) decryptApiKey (apiKeyField e) (userId c) = Some key
        /\ key <> ""
  | None =>
      let message :=
        if ownName m then "Unknown model: " +:+ m
        else if truthyKey (getApiKey ENV (storedKeys st) decryptApiKey "undefined"
                                     (userId c))
             then "Unknown provider: undefined"
             else "No API key found for undefined" in
      (if ownName m
       then m = "gemini-1.0-pro" \/ m = "gemini-2.5-flash-preview-05-20"
       else exists printed key,
              inheritedKey m = Some printed
              /\ getApiKey ENV (storedKeys st) decryptApiKey printed (userId c) = Some key
              /\ key <> "")
      /\ continue env c
         = (setCurrentTurn (S (currentTurn c)) c,
            [AiThinking m; ErrorEvent ("Error with " +:+ m +:+ ": " +:+ message) m],
            RecheckActive)
  end.
Proof.
  intros Hact Hsel.
  destruct (entryOf adapterModelMapping m) as [e|] eqn:He.
  - destruct (adapterTurnEnv_known c m [] e Hsel He) as (key & Hkey & Hfalsy & _).
    exists key. split; [exact Hkey|]. intros ->. discriminate Hfalsy.
  - destruct (select_key _ _ _ Hsel) as (p & key & Hp & Hkey & Hfalsy).
    cbv zeta. destruct (ownName m) eqn:Hown.
    + rewrite (providerOf_own _ _ Hown) in Hp.
      pose proof (chain_row _ _ Hp) as Hrow. rewrite He in Hrow.
      split; [exact Hrow|].
      rewrite continue_finishTurn, Hact, Hsel. cbn [negb].
      cbn [generateResponse adapterTurnEnv].
      unfold generateResponseDefault, generateResponseWithConfig, modelConfigOf. rewrite He.
      unfold ownName in Hown. apply negb_true_iff in Hown. rewrite Hown.
      cbn [snd toResponseText finishTurn]. reflexivity.
    + unfold providerOf in Hp.
      destruct (ownProperty modelMapping m) as [p'|] eqn:Hown'.
      { rewrite (chain_key_own _ _ Hown') in Hown. discriminate Hown. }
      split.
      { exists p, key. split; [exact Hp|]. split; [exact Hkey|].
        intros ->. discriminate Hfalsy. }
      rewrite continue_finishTurn, Hact, Hsel. cbn [negb].
      cbn [generateResponse adapterTurnEnv].
      unfold generateResponseDefault, generateResponseWithConfig, modelConfigOf. rewrite He.
      unfold ownName in Hown. apply negb_false_iff in Hown. rewrite Hown.
      cbn [apiKeyField entryProvider inheritedEntry].
      destruct (getApiKey ENV (storedKeys st) decryptApiKey "undefined" (userId c))
        as [k|]; [|reflexivity].
      cbn [truthyKey]. destruct (falsy k); reflexivity.
Qed.

(** X8. When the Gemini provider answers the call of a turn with empty or
    white-space text, the turn does not store the placeholder: it reports
    "Empty response from Gemini" as an error of that model, leaves
    transcript and counter as they were, advances the turn index and
    leaves a callback. *)
Theorem gemini_empty_answer_is_an_error (c : Conversation) (m : string)
    (e : ModelEntry) (key prompt text : string) :
  isActive c = true ->
  select env c = Some m ->
  entryOf adapterModelMapping m = Some e ->
  entryProvider e = "google" ->
  getApiKey ENV (storedKeys st) decryptApiKey (apiKeyField e) (userId c) = Some key ->
  geminiPrompt (getConversationHistory 20 c) = Ret prompt ->
  geminiGenerateContent sdk key (nativeModel e) prompt = Ret text ->
  isBlank text = true ->
  continue env c
  = (setCurrentTurn (S (currentTurn c)) c,
     [AiThinking m;
      ErrorEvent ("Error with " +:+ m +:+ ": " +:+ "Empty response from Gemini") m],
     RecheckActive).
Proof.
  intros Hact Hsel He Hp Hkey Hprompt Hanswer Hblank.
  destruct (adapterTurnEnv_known c m (getConversationHistory 20 c) e Hsel He)
    as (key' & Hkey' & _ & calls & result & Hgen & Hcase).
  rewrite Hkey in Hkey'. injection Hkey' as <-.
  destruct Hcase as [[Hp' _]|[[_ E]|[Hp' _]]]; try (rewrite Hp in Hp'; discriminate Hp').
  unfold generateGeminiOnClient, generateGeminiResponse in E. cbn [gemini] in E.
  rewrite Hprompt, Hanswer in E. unfold isBlank in Hblank. rewrite Hblank in E.
  injection E as _ ->.
  rewrite continue_finishTurn, Hact, Hsel, Hgen. reflexivity.
Qed.

(** X9. When the Claude provider answers the call of a turn with a
    response that has no usable text (no content, no block of type text,
    or a first text block without text), the adapter fails with the one
    message the chain counts as empty: the turn stores the placeholder
    under the model's name and increments the counter. *)
Theorem claude_empty_answer_is_counted (c : Conversation) (m : string)
    (e : ModelEntry) (key message : string) (response : ClaudeResponse) :
  isActive c = true ->
  select env c = Some m ->
  entryOf adapterModelMapping m = Some e ->
  entryProvider e = "anthropic" ->
  getApiKey ENV (storedKeys st) decryptApiKey (apiKeyField e) (userId c) = Some key ->
  claudeCreate sdk key
    (claudeRequestBody (getConversationHistory 20 c) (nativeModel e)
       (finalConfigOf (mkConfig None None))) = Ret response ->
  extractClaudeText response = Throw message ->
  generateResponse env m (getConversationHistory 20 c) (userId c) = Throw ANTHROPIC_EMPTY
  /\ let '(c', events, timer) := continue env c in
     messages c' = messages c ++ [mkMessage m PLACEHOLDER RoleAi]
     /\ emptyResponseCount c' = S (emptyResponseCount c).
Proof.
  intros Hact Hsel He Hp Hkey Hanswer Hextract.
  assert (Hmsg : message = ANTHROPIC_EMPTY).
  { unfold extractClaudeText in Hextract.
    repeat match type of Hextract with
           | match ?x with _ => _ end = _ => destruct x
           | (if ?b then _ else _) = _ => destruct b
           end; congruence. }
  subst message.
  destruct (adapterTurnEnv_known c m (getConversationHistory 20 c) e Hsel He)
    as (key' & Hkey' & _ & calls & result & Hgen & Hcase).
  rewrite Hkey in Hkey'. injection Hkey' as <-.
  destruct Hcase as [[Hp' _]|[[Hp' _]|[_ E]]]; try (rewrite Hp in Hp'; discriminate Hp').
  unfold generateClaudeResponse in E. cbn [claude] in E.
  rewrite Hanswer, Hextract in E. injection E as _ ->.
  assert (Hgen' : generateResponse env m (getConversationHistory 20 c) (userId c)
                  = Throw ANTHROPIC_EMPTY) by (rewrite Hgen; reflexivity).
  split; [exact Hgen'|].
  pose proof (select_not_user decryptApiKey _ _ _ Hsel) as Hu.
  rewrite continue_finishTurn, Hact, Hsel, Hgen'. cbn [negb finishTurn].
  change (String.eqb ANTHROPIC_EMPTY ANTHROPIC_EMPTY) with true. cbv iota.
  assert (Hm : messages (recordEmpty m c) = messages c ++ [mkMessage m PLACEHOLDER RoleAi]).
  { unfold recordEmpty, addMessage. rewrite Hu. reflexivity. }
  destruct (EMPTY_LIMIT <=? _)%nat; cbn [messages setIsActive setCurrentTurn
                                          emptyResponseCount];
    (split; [exact Hm | apply recordEmpty_count]).
Qed.

End WithAdapter.

End TurnProperties.

Lemma chain_turn_key_resolved_witness :
  (exists printed key,
      inheritedKey "__proto__" = Some printed
      /\ getApiKey ∅ (storedKeys printedKeyState) (fun k => k) printed "u1" = Some key
      /\ key <> "")
  /\ continueConversationChain (fun k => k)
       (adapterTurnEnv helloSdk (fun k => k) ∅ printedKeyState)
       (activeWith ["__proto__"])
     = (setCurrentTurn 1 (activeWith ["__proto__"]),
        [AiThinking "__proto__";
         ErrorEvent "Error with __proto__: No API key found for undefined" "__proto__"],
        RecheckActive).
Proof.
  assert (Hsel : selectModel (fun k => k)
                   (adapterTurnEnv helloSdk (fun k => k) ∅ printedKeyState)
                   (activeWith ["__proto__"]) = Some "__proto__")
    by (vm_compute; reflexivity).
  exact (chain_turn_key_resolved (fun k => k) helloSdk ∅ printedKeyState
           (activeWith ["__proto__"]) "__proto__" eq_refl Hsel).
Defined.

Lemma gemini_empty_answer_is_an_error_witness :
  continueConversationChain (fun k => k)
    (adapterTurnEnv silentSdk (fun k => k) googleKey noKeyState)
    (activeWith ["gemini-1.5-pro"])
  = (setCurrentTurn 1 (activeWith ["gemini-1.5-pro"]),
     [AiThinking "gemini-1.5-pro";
      ErrorEvent "Error with gemini-1.5-pro: Empty response from Gemini" "gemini-1.5-pro"],
     RecheckActive).
Proof.
  eapply (gemini_empty_answer_is_an_error (fun k => k) silentSdk googleKey noKeyState
            (activeWith ["gemini-1.5-pro"]) "gemini-1.5-pro"
            (googleEntry "gemini-1.5-pro") "sk-google" _ "  ");
    vm_compute; reflexivity.
Defined.

Lemma claude_empty_answer_is_counted_witness :
  generateResponse (adapterTurnEnv silentSdk (fun k => k) anthropicKey noKeyState)
    "claude-3-opus" (getConversationHistory 20 (activeWith ["claude-3-opus"])) "u1"
  = Throw ANTHROPIC_EMPTY.
Proof.
  eapply (claude_empty_answer_is_counted (fun k => k) silentSdk anthropicKey noKeyState
            (activeWith ["claude-3-opus"]) "claude-3-opus"
            (anthropicEntry "claude-3-opus-20240229") "sk-anthropic");
    vm_compute; reflexivity.
Defined.

(** ** Runs of a conversation *)

Section RunProperties.

Variable decryptApiKey : string -> string.

Local Abbreviation hasKey := (hasApiKey decryptApiKey).
Local Abbreviation select := (selectModel decryptApiKey).
Local Abbreviation continue := (continueConversationChain decryptApiKey).
Local Abbreviation run := (runChain decryptApiKey).

(** The test of the scan is the credential of the specification. *)
Lemma hasApiKey_credential (env : TurnEnv) (c : Conversation) (m : string) :
  hasKey env c m = true <-> hasResolvableCredential decryptApiKey env (userId c) m.
Proof.
  unfold hasApiKey, hasResolvableCredential. split.
  - destruct (providerOf modelMapping m) as [p|] eqn:Hp; [|discriminate].
    destruct (getApiKey _ _ _ p (userId c)) as [key|] eqn:E; [|discriminate].
    cbn [truthyKey]. intros H. exists p, key.
    split; [|split; [exact E | intros ->; discriminate H]].
    unfold providerOf in Hp.
    destruct (ownProperty modelMapping m) as [p'|] eqn:Hown; [|right; exact Hp].
    injection Hp as <-. left. apply ownProperty_In. exact Hown.
  - intros (p & key & Hrow & Hkey & Hne).
    assert (Hp : providerOf modelMapping m = Some p).
    { unfold providerOf. destruct Hrow as [Hin|Hinh].
      - assert (Hall : forallb
                         (fun row =>
                            match ownProperty modelMapping (fst row) with
                            | Some provider => String.eqb provider (snd row)
                            | None => false
                            end) modelMapping = true) by (vm_compute; reflexivity).
        rewrite forallb_forall in Hall. specialize (Hall _ Hin). cbn [fst snd] in Hall.
        destruct (ownProperty modelMapping m) as [p'|]; [|discriminate Hall].
        apply String.eqb_eq in Hall. congruence.
      - destruct (ownProperty modelMapping m) as [p'|] eqn:Hown; [|exact Hinh].
        rewrite (inheritedKey_own _ (chain_key_own _ _ Hown)) in Hinh.
        discriminate Hinh. }
    rewrite Hp, Hkey. cbn [truthyKey]. destruct key; [contradiction | reflexivity].
Qed.


Lemma select_some (env : TurnEnv) (c : Conversation) (m : string) :
  m ∈ participants c -> hasKey env c m = true -> exists m', select env c = Some m'.
Proof.
  intros Hin Hkey. rewrite selectModel_find.
  destruct (List.find _ _) as [m'|] eqn:E; [eauto|].
  pose proof (List.find_none _ _ E m) as Hnone.
  rewrite Hkey in Hnone. discriminate Hnone.
  apply list_elem_of_In, elem_of_rotate. exact Hin.
Qed.

(** What the second half of a turn does to transcript and counter, by the
    callback it leaves. *)
Lemma finishTurn_effect (m : string) (outcome : Thrown string) (c : Conversation) :
  String.eqb m "user" = false ->
  let '(c', events, timer) := finishTurn m outcome c in
  exists added,
    messages c' = messages c ++ added
    /\ forallb modelMessageOk added = true
    /\ participants c' = participants c /\ userId c' = userId c
    /\ match timer with
       | RecheckActiveAndLimit =>
           length added = 1 /\ emptyResponseCount c' = 0
       | RecheckActive =>
           (added = [] /\ emptyResponseCount c' = emptyResponseCount c)
           \/ (length added = 1 /\ emptyResponseCount c' = S (emptyResponseCount c)
               /\ emptyResponseCount c' < 5)
       | NoTimer =>
           length added = 1 /\ emptyResponseCount c' = S (emptyResponseCount c)
           /\ isActive c' = false
       end.
Proof.
  intros Hu.
  assert (Hrec : messages (recordEmpty m c) = messages c ++ [mkMessage m PLACEHOLDER RoleAi]).
  { unfold recordEmpty, addMessage. rewrite Hu. reflexivity. }
  assert (Hph : forallb modelMessageOk [mkMessage m PLACEHOLDER RoleAi] = true).
  { cbn [forallb]. unfold modelMessageOk, isUser. cbn [provider role content].
    rewrite Hu, String.eqb_refl. reflexivity. }
  assert (Hfr : participants (recordEmpty m c) = participants c
                /\ userId (recordEmpty m c) = userId c).
  { unfold recordEmpty, addMessage. rewrite Hu. split; reflexivity. }
  assert (Hempty :
            let '(c', events, timer) :=
              if (EMPTY_LIMIT <=? emptyResponseCount (recordEmpty m c))%nat
              then (setIsActive false (recordEmpty m c),
                    @nil Event, NoTimer)
              else (setCurrentTurn (S (currentTurn (recordEmpty m c))) (recordEmpty m c),
                    @nil Event, RecheckActive) in
            messages c' = messages c ++ [mkMessage m PLACEHOLDER RoleAi]
            /\ participants c' = participants c /\ userId c' = userId c
            /\ emptyResponseCount c' = S (emptyResponseCount c)
            /\ match timer with
               | NoTimer => isActive c' = false
               | _ => emptyResponseCount c' < 5
               end).
  { destruct (EMPTY_LIMIT <=? _)%nat eqn:E;
      cbn [messages participants userId emptyResponseCount isActive
           setIsActive setCurrentTurn];
      rewrite ?recordEmpty_count in *;
      (split; [exact Hrec | split; [apply Hfr | split; [apply Hfr | split;
                                                         [reflexivity|]]]]).
    - reflexivity.
    - apply Nat.leb_gt in E. exact E. }
  unfold finishTurn. destruct outcome as [responseText|message].
  - destruct (isBlank responseText) eqn:Hblank.
    + destruct (EMPTY_LIMIT <=? _)%nat;
        destruct Hempty as (Hm & Hp & Hus & Hc & Ht);
        exists [mkMessage m PLACEHOLDER RoleAi];
        (split; [exact Hm | split; [exact Hph | split; [exact Hp | split; [exact Hus|]]]]).
      * auto.
      * right. auto.
    + unfold addMessage. rewrite Hu. cbn [andb].
      exists [mkMessage m responseText RoleAi].
      split; [reflexivity|]. split.
      { cbn [forallb]. unfold modelMessageOk, isUser. cbn [provider role content].
        rewrite Hu, Hblank, orb_true_r. reflexivity. }
      repeat split.
  - destruct (String.eqb message ANTHROPIC_EMPTY).
    + destruct (EMPTY_LIMIT <=? _)%nat;
        destruct Hempty as (Hm & Hp & Hus & Hc & Ht);
        exists [mkMessage m PLACEHOLDER RoleAi];
        (split; [exact Hm | split; [exact Hph | split; [exact Hp | split; [exact Hus|]]]]).
      * auto.
      * right. auto.
    + exists []. cbn [messages setCurrentTurn]. rewrite app_nil_r.
      repeat split. left. split; reflexivity.
Qed.

(** The same for a whole turn; a turn that does not reach the provider
    adds nothing. *)
Lemma continue_effect (env : TurnEnv) (c : Conversation) :
  let '(c', events, timer) := continue env c in
  exists added,
    messages c' = messages c ++ added
    /\ forallb modelMessageOk added = true
    /\ participants c' = participants c /\ userId c' = userId c
    /\ match timer with
       | RecheckActiveAndLimit =>
           length added = 1 /\ emptyResponseCount c' = 0
       | RecheckActive =>
           (added = [] /\ emptyResponseCount c' = emptyResponseCount c)
           \/ (length added = 1 /\ emptyResponseCount c' = S (emptyResponseCount c)
               /\ emptyResponseCount c' < 5)
       | NoTimer =>
           (added = [] /\ emptyResponseCount c' = emptyResponseCount c)
           \/ (length added = 1 /\ emptyResponseCount c' = S (emptyResponseCount c))
       end.
Proof.
  rewrite continue_finishTurn.
  destruct (negb (isActive c)).
  { exists []. rewrite app_nil_r. repeat split. left. split; reflexivity. }
  destruct (select env c) as [m|] eqn:Hsel.
  2:{ exists []. cbn [messages setIsActive]. rewrite app_nil_r. repeat split.
      left. split; reflexivity. }
  pose proof (finishTurn_effect m
                (generateResponse env m (getConversationHistory 20 c) (userId c)) c
                (select_not_user decryptApiKey _ _ _ Hsel)) as H.
  destruct (finishTurn m _ c) as [[c' events] timer].
  destruct H as (added & Hm & Hok & Hp & Hu & Ht).
  exists added. repeat (split; [assumption|]).
  destruct timer; [|exact Ht|exact Ht].
  right. destruct Ht as (H1 & H2 & _). auto.
Qed.

Lemma fire_cases (timer : Timer) (c : Conversation) :
  match fire timer c with
  | NextTurn =>
      isActive c = true
      /\ (timer = RecheckActive
          \/ (timer = RecheckActiveAndLimit /\ length (messages c) < MESSAGE_LIMIT))
  | Ends c' events =>
      timer = RecheckActiveAndLimit /\ c' = setIsActive false c
      /\ events = [ConversationEnded (id c) "Message limit reached"]
      /\ MESSAGE_LIMIT <= length (messages c)
  | Lapses => True
  end.
Proof.
  destruct timer; cbn [fire]; [exact I| |].
  - destruct (isActive c); [auto | exact I].
  - destruct (isActive c); cbn [andb]; [|exact I].
    destruct (length (messages c) <? MESSAGE_LIMIT)%nat eqn:E.
    + apply Nat.ltb_lt in E. auto.
    + apply Nat.ltb_ge in E. auto.
Qed.

(** An invariant of the turns, of the end at the message limit and of a
    lapsing callback is an invariant of the chain. *)
Lemma runChain_invariant (Inv : Timer -> Conversation -> Prop) :
  (forall env timer c,
      fire timer c = NextTurn -> Inv timer c ->
      let '(c', events, timer') := continue env c in Inv timer' c') ->
  (forall timer c, Inv timer c -> Inv NoTimer (setIsActive false c)) ->
  (forall timer c, Inv timer c -> Inv NoTimer c) ->
  forall (envs : list TurnEnv) (timer : Timer) (c : Conversation),
    Inv timer c ->
    let '(c', events, timer') := run envs timer c in Inv timer' c'.
Proof.
  intros Hturn Hend Hlapse envs.
  induction envs as [|env envs IH]; intros timer c Hinv; cbn [runChain].
  - pose proof (fire_cases timer c) as Hf.
    destruct (fire timer c) as [|c' events|]; [exact Hinv| |eauto].
    destruct Hf as (_ & -> & _). eauto.
  - pose proof (fire_cases timer c) as Hf.
    destruct (fire timer c) as [|c' events|] eqn:F; [| |eauto].
    + specialize (Hturn env timer c F Hinv).
      destruct (continue env c) as [[c1 events1] timer1].
      specialize (IH timer1 c1 Hturn).
      destruct (run envs timer1 c1) as [[c2 events2] timer2]. exact IH.
    + destruct Hf as (_ & -> & _). eauto.
Qed.

(** The same from the start of a conversation. *)
Lemma runConversation_invariant (Inv : Timer -> Conversation -> Prop) :
  (forall env timer c,
      fire timer c = NextTurn -> Inv timer c ->
      let '(c', events, timer') := continue env c in Inv timer' c') ->
  (forall timer c, Inv timer c -> Inv NoTimer (setIsActive false c)) ->
  (forall timer c, Inv timer c -> Inv NoTimer c) ->
  forall (env : TurnEnv) (envs : list TurnEnv) (initialPrompt : string) (c : Conversation),
    (let c0 :=
       setMessages
         (messages c
          ++ [mkMessage "user" (if falsy initialPrompt then "Hello" else initialPrompt)
                        RoleUser])
         (setIsActive true c) in
     fire RecheckActive c0 = NextTurn /\ Inv RecheckActive c0) ->
    let '(c', events, timer') := runConversation decryptApiKey env envs initialPrompt c in
    Inv timer' c'.
Proof.
  intros Hturn Hend Hlapse env envs initialPrompt c [Hfire Hinv].
  unfold runConversation, startConversationChain.
  pose proof (Hturn env RecheckActive _ Hfire Hinv) as H1.
  destruct (continue env _) as [[c1 events1] timer1].
  pose proof (runChain_invariant Inv Hturn Hend Hlapse envs timer1 c1 H1) as H2.
  destruct (run envs timer1 c1) as [[c2 events2] timer2]. exact H2.
Qed.

Lemma transcriptOk_app (msgs added : list Message) :
  transcriptOk msgs = true -> forallb modelMessageOk added = true ->
  transcriptOk (msgs ++ added) = true.
Proof.
  destruct msgs as [|first rest]; [discriminate|].
  cbn [transcriptOk app]. intros H Ha.
  apply andb_prop in H as [H Hrest]. rewrite H, forallb_app, Hrest, Ha. reflexivity.
Qed.

Lemma runConversation_transcriptOk (env : TurnEnv) (envs : list TurnEnv)
    (initialPrompt : string) (c0 : Conversation) :
  messages c0 = [] ->
  transcriptOk
    (messages (fst (fst (runConversation decryptApiKey env envs initialPrompt c0)))) = true.
Proof.
  intros Hm.
  pose proof (runConversation_invariant (fun _ c => transcriptOk (messages c) = true)) as H.
  specialize (H (fun env' timer c _ Hok =>
                   ltac:(pose proof (continue_effect env' c) as He;
                         destruct (continue env' c) as [[c' events] timer'];
                         destruct He as (added & -> & Hadded & _);
                         apply transcriptOk_app; assumption))
                (fun _ c Hok => Hok) (fun _ c Hok => Hok) env envs initialPrompt c0).
  cbv zeta in H.
  destruct (runConversation _ _ _ _ _) as [[c events] timer]. apply H.
  split; [reflexivity|].
  cbn [messages setMessages]. rewrite Hm. cbn. destruct initialPrompt; reflexivity.
Qed.

(** X10. In a conversation started on any prompt, after any number of
    turns with any providers, the transcript opens with the message of the
    user, whose content is not empty, and every later message was sent by
    a model, has the role [ai] and holds either the placeholder or a text
    that is not blank: no message with empty content is ever stored. *)
Theorem conversation_transcript_ok (env : TurnEnv) (envs : list TurnEnv)
    (initialPrompt conversationId owner : string) (models : list string) :
  let '(c, events, timer) :=
    runConversation decryptApiKey env envs initialPrompt
      (newConversation conversationId owner models) in
  transcriptOk (messages c) = true.
Proof.
  pose proof (runConversation_transcriptOk env envs initialPrompt
                (newConversation conversationId owner models) eq_refl) as H.
  destruct (runConversation _ _ _ _ _) as [[c events] timer]. exact H.
Qed.

(** X11. In a conversation started on any prompt the transcript never
    holds more than 34 messages and the counter of empty answers never
    exceeds 5, whatever the providers answer; the limit of 30 is tested
    after a stored answer only, and up to four placeholders may precede
    it.  A transcript of 34 messages does occur. *)
Theorem conversation_transcript_bound :
  (forall (env : TurnEnv) (envs : list TurnEnv)
          (initialPrompt conversationId owner : string) (models : list string),
      let '(c, events, timer) :=
        runConversation decryptApiKey env envs initialPrompt
          (newConversation conversationId owner models) in
      length (messages c) <= 34 /\ emptyResponseCount c <= 5)
  /\ (let '(c, events, timer) :=
        runConversation decryptApiKey talkEnv
          (replicate 27 talkEnv ++ replicate 4 blankEnv ++ replicate 3 talkEnv) "Hi"
          (newConversation "c1" "u1" ["gpt-4"]) in
      length (messages c) = 34
      /\ last events = Some (ConversationEnded "c1" "Message limit reached")).
Proof.
  split; [|vm_compute; split; reflexivity].
  intros env envs initialPrompt conversationId owner models.
  assert (Hfinal : forall timer c, chainBound timer c -> chainBound NoTimer c).
  { intros [| |] c; cbn [chainBound]; lia. }
  assert (Hturn : forall env' timer c,
             fire timer c = NextTurn -> chainBound timer c ->
             let '(c', events, timer') := continue env' c in chainBound timer' c').
  { intros env' timer c F Hinv.
    pose proof (fire_cases timer c) as Hf. rewrite F in Hf. destruct Hf as [_ Hf].
    assert (Hpre : length (messages c) <= 29 + emptyResponseCount c
                   /\ emptyResponseCount c <= 4).
    { destruct Hf as [->|[-> Hlt]]; cbn [chainBound] in Hinv; [exact Hinv|].
      unfold MESSAGE_LIMIT in Hlt. lia. }
    pose proof (continue_effect env' c) as He.
    destruct (continue env' c) as [[c' events] timer'].
    destruct He as (added & Hm & _ & _ & _ & Ht).
    assert (Hlen : length (messages c') = length (messages c) + length added)
      by (rewrite Hm, length_app; reflexivity).
    destruct timer'; cbn [chainBound].
    - destruct Ht as [[-> Hc]|[Hl Hc]]; cbn [length] in Hlen; lia.
    - destruct Ht as [[-> Hc]|(Hl & Hc & Hlt)]; cbn [length] in Hlen; lia.
    - destruct Ht as [Hl Hc]. lia. }
  pose proof (runConversation_invariant chainBound Hturn
                (fun timer c Hinv => Hfinal timer c Hinv) Hfinal env envs initialPrompt
                (newConversation conversationId owner models)) as H.
  cbv zeta in H.
  assert (Hstart : forall c0 : Conversation,
             isActive c0 = true -> length (messages c0) = 1 -> emptyResponseCount c0 = 0 ->
             fire RecheckActive c0 = NextTurn /\ chainBound RecheckActive c0).
  { intros c0 Ha Hl Hc. cbn [fire chainBound]. rewrite Ha, Hl, Hc. split; [reflexivity|lia]. }
  match type of H with
  | ?A -> _ => assert (Ha : A) by (apply Hstart; reflexivity)
  end.
  specialize (H Ha).
  destruct (runConversation _ _ _ _ _) as [[c events] timer].
  apply Hfinal in H. exact H.
Qed.

Lemma findInitialPrompt_no_user (msgs : list Message) :
  Forall (fun msg => isUser msg = false) msgs ->
  findInitialPrompt msgs = "General discussion".
Proof.
  intros H. unfold findInitialPrompt.
  destruct (List.find isUser msgs) as [msg|] eqn:E; [|reflexivity].
  apply List.find_some in E as [Hin Hu].
  rewrite Forall_forall in H. apply list_elem_of_In in Hin.
  rewrite (H _ Hin) in Hu. discriminate Hu.
Qed.

(** X12. The history handed to the provider in a turn is the last 20
    messages of the transcript (all of it when shorter).  Once a started
    conversation holds more than 20 messages, that history no longer
    contains the message of the user, and the goal that the Claude and
    Gemini functions read from it is the default "General discussion". *)
Theorem conversation_history_window (env : TurnEnv) (envs : list TurnEnv)
    (initialPrompt conversationId owner : string) (models : list string) :
  let '(c, events, timer) :=
    runConversation decryptApiKey env envs initialPrompt
      (newConversation conversationId owner models) in
  let history := getConversationHistory 20 c in
  length history = Nat.min 20 (length (messages c))
  /\ (exists older, messages c = older ++ history)
  /\ (20 < length (messages c) ->
      findInitialPrompt history = "General discussion"
      /\ findInitialPrompt (List.filter geminiValid history) = "General discussion").
Proof.
  pose proof (runConversation_transcriptOk env envs initialPrompt
                (newConversation conversationId owner models) eq_refl) as Hok.
  destruct (runConversation _ _ _ _ _) as [[c events] timer]. cbn [fst] in Hok.
  intros history. unfold history, getConversationHistory. cbn [Nat.eqb].
  split; [rewrite length_drop; lia|].
  split; [eexists; symmetry; apply take_drop|].
  intros Hlen.
  destruct (messages c) as [|first rest] eqn:Hm; [discriminate Hok|].
  cbn [transcriptOk] in Hok. apply andb_prop in Hok as [_ Hrest].
  assert (Hnouser : Forall (fun msg => isUser msg = false)
                      (drop (length (first :: rest) - 20) (first :: rest))).
  { cbn [length] in *.
    replace (S (length rest) - 20) with (S (length rest - 20)) by lia.
    cbn [drop]. apply Forall_drop.
    apply Forall_forall. intros msg Hin.
    rewrite forallb_forall in Hrest. apply list_elem_of_In in Hin.
    specialize (Hrest _ Hin). unfold modelMessageOk in Hrest.
    apply andb_prop in Hrest as [Hrest _]. apply andb_prop in Hrest as [Hrest _].
    apply negb_true_iff in Hrest. exact Hrest. }
  split; apply findInitialPrompt_no_user; [exact Hnouser|].
  apply Forall_forall. intros msg Hin.
  apply list_elem_of_In, List.filter_In in Hin as [Hin _].
  rewrite Forall_forall in Hnouser. apply Hnouser, list_elem_of_In, Hin.
Qed.

(** X13. A failure of the provider other than the empty answer of Claude
    never ends a conversation: as long as one participant has a
    resolvable credential, every callback takes another turn; each turn
    announces a participant and reports, as an error of that participant,
    the message its provider call failed with; the turn index advances,
    and transcript and counter stay as they were.  Nothing else is
    sent, so no stop notification. *)
Theorem failing_turns_never_end (envs : list TurnEnv) :
  forall (c : Conversation) (keyed : string),
    isActive c = true ->
    keyed ∈ participants c ->
    Forall (fun env =>
              hasResolvableCredential decryptApiKey env (userId c) keyed
              /\ alwaysFails env) envs ->
    let '(c', events, timer) := run envs RecheckActive c in
    timer = RecheckActive /\ isActive c' = true
    /\ currentTurn c' = currentTurn c + length envs
    /\ messages c' = messages c
    /\ emptyResponseCount c' = emptyResponseCount c
    /\ exists turns : list (string * string),
        events
        = flat_map
            (fun turn =>
               [AiThinking (fst turn);
                ErrorEvent ("Error with " +:+ fst turn +:+ ": " +:+ snd turn) (fst turn)])
            turns
        /\ Forall2
             (fun env turn =>
                fst turn ∈ participants c
                /\ hasResolvableCredential decryptApiKey env (userId c) (fst turn)
                /\ generateResponse env (fst turn) (getConversationHistory 20 c) (userId c)
                   = Throw (snd turn))
             envs turns.
Proof.
  induction envs as [|env envs IH]; intros c keyed Hact Hin Hall.
  - cbn [runChain fire]. rewrite Hact. cbn [length]. rewrite Nat.add_0_r.
    split; [reflexivity | split; [exact Hact|]].
    split; [reflexivity | split; [reflexivity | split; [reflexivity|]]].
    exists []. split; [reflexivity | constructor].
  - apply Forall_cons in Hall as [[Hkey Hfail] Hall].
    cbn [runChain fire]. rewrite Hact.
    apply hasApiKey_credential in Hkey.
    destruct (select_some env c keyed Hin Hkey) as [m Hsel].
    destruct (select_has_key decryptApiKey env c m Hsel) as [Hmkey Hmin].
    apply hasApiKey_credential in Hmkey.
    destruct (Hfail m (getConversationHistory 20 c) (userId c)) as (message & Hgen & Hne).
    rewrite continue_finishTurn, Hact, Hsel, Hgen. cbn [negb finishTurn].
    apply String.eqb_neq in Hne. rewrite Hne.
    specialize (IH (setCurrentTurn (S (currentTurn c)) c) keyed Hact Hin Hall).
    destruct (run envs RecheckActive _) as [[c2 events2] timer2].
    destruct IH as (Ht & Ha & Hturn & Hm & Hc & turns & Hev & Hturns).
    cbn [currentTurn messages emptyResponseCount setCurrentTurn] in Hturn, Hm, Hc.
    split; [exact Ht | split; [exact Ha|]].
    split; [cbn [length]; lia | split; [exact Hm | split; [exact Hc|]]].
    exists ((m, message) :: turns). split.
    + cbn [flat_map fst snd app]. rewrite Hev. reflexivity.
    + constructor; [|exact Hturns]. cbn [fst snd]. auto.
Qed.

(** ** The scan of a turn and the turn index *)






(** A participant named like a property every object inherits is
    selected when a key is stored under the text the inherited value
    prints as, here [Object.prototype] under "[object Object]". *)
Lemma selectModel_inherited_name :
  selectModel (fun k => k)
    (mkTurnEnv ∅ (storedKeys printedKeyState) (fun _ _ _ => Ret "Go on."))
    (activeWith ["gpt-4"; "__proto__"])
  = Some "__proto__".
Proof. vm_compute. reflexivity. Qed.


End RunProperties.

Lemma failing_turns_never_end_witness :
  let '(c', events, timer) :=
    runChain (fun k => k) (replicate 3 failingEnv) RecheckActive (activeWith ["gpt-4"]) in
  timer = RecheckActive /\ isActive c' = true
  /\ currentTurn c' = 0 + 3
  /\ messages c' = [mkMessage "user" "Hi" RoleUser]
  /\ emptyResponseCount c' = 0
  /\ exists turns : list (string * string),
      events
      = flat_map
          (fun turn =>
             [AiThinking (fst turn);
              ErrorEvent ("Error with " +:+ fst turn +:+ ": " +:+ snd turn) (fst turn)])
          turns
      /\ Forall2
           (fun env turn =>
              fst turn ∈ ["gpt-4"]
              /\ hasResolvableCredential (fun k => k) env "u1" (fst turn)
              /\ generateResponse env (fst turn)
                   (getConversationHistory 20 (activeWith ["gpt-4"])) "u1"
                 = Throw (snd turn))
           (replicate 3 failingEnv) turns.
Proof.
  apply (failing_turns_never_end (fun k => k) (replicate 3 failingEnv)
           (activeWith ["gpt-4"]) "gpt-4").
  - reflexivity.
  - cbn. apply list_elem_of_here.
  - repeat constructor;
      try (exists "openai", "sk-test";
           split; [left; left; reflexivity | split; [reflexivity | discriminate]]);
      intros modelId history userId;
      exists "401 Unauthorized"; (split; [reflexivity | discriminate]).
Defined.

(** ** Handlers and the conversation store *)

Section HandlerProperties.

Variable decryptApiKey : string -> string.

Lemma find_agree {A} (f g : A -> bool) (l : list A) :
  (forall x, In x l -> f x = g x) -> List.find f l = List.find g l.
Proof.
  induction l as [|x l IH]; intros H; [reflexivity|].
  cbn [List.find]. rewrite (H x (or_introl eq_refl)).
  destruct (g x); [reflexivity|]. apply IH. intros y Hy. apply H. right. exact Hy.
Qed.

Lemma missingKeys_nil (env : TurnEnv) (sessionId : string) (ids : list string) :
  missingKeys decryptApiKey env sessionId ids = [] ->
  forall (c : Conversation) (m : string),
    userId c = sessionId -> m ∈ ids ->
    hasApiKey decryptApiKey env c m = knownModel m.
Proof.
  intros Hnil c m Hu Hin. unfold missingKeys in Hnil.
  assert (Hm : match providerOf startModelConfig m with
               | Some provider =>
                   if truthyKey (getApiKey (envApiKeys env) (userKeys env) decryptApiKey
                                           provider sessionId)
                   then [] else [provider]
               | None => []
               end = []).
  { induction ids as [|x ids IH]; [inversion Hin|].
    cbn [flat_map] in Hnil. apply app_eq_nil in Hnil as [Hx Hrest].
    apply elem_of_cons in Hin as [->|Hin]; [exact Hx | exact (IH Hrest Hin)]. }
  unfold hasApiKey, knownModel. rewrite Hu.
  change modelMapping with startModelConfig.
  destruct (providerOf startModelConfig m) as [p|]; [|reflexivity].
  destruct (truthyKey _); [reflexivity | discriminate Hm].
Qed.

(** X14. The [startConversation] handler, on participants whose ids
    are not names inherited from [Object.prototype]: when a participant
    that its table knows lacks a key, nothing is created and a single
    error is sent; otherwise the conversation is created and started, the
    first turn goes to the first participant the table knows, and when it
    knows none the conversation ends at once with "No models with API
    keys available".  A participant outside the table passes the check
    and is skipped. *)
Theorem startConversation_validation (env : TurnEnv) (sessionId conversationId : string)
    (ids : list string) (initialPrompt : string)
    (conversations : gmap string Conversation) :
  forallb ownName ids = true ->
  let opening :=
    mkMessage "user" (if falsy initialPrompt then "Hello" else initialPrompt) RoleUser in
  let '(conversations', events, timer) :=
    startConversation decryptApiKey env sessionId conversationId ids
                      initialPrompt conversations in
  match missingKeys decryptApiKey env sessionId ids with
  | _ :: _ =>
      conversations' = conversations /\ timer = NoTimer
      /\ exists message, events = [PlainError message]
  | [] =>
      exists more,
        events = ConversationStarted conversationId
                 :: FromChain (NewMessage opening) :: more
        /\ match List.find knownModel ids with
           | Some m => head more = Some (FromChain (AiThinking m))
           | None =>
               more = [FromChain (ConversationEnded conversationId
                                    "No models with API keys available")]
               /\ timer = NoTimer
           end
  end.
Proof.
  intros _ opening. unfold startConversation.
  destruct (missingKeys decryptApiKey env sessionId ids) as [|p missing] eqn:Hmiss.
  2:{ cbn [length Nat.ltb Nat.leb]. split; [reflexivity|]. split; [reflexivity|]. eauto. }
  cbn [length Nat.ltb Nat.leb].
  unfold ConversationManager.createConversation, ConversationManager.getConversation.
  rewrite lookup_insert_eq. unfold startConversationChain.
  set (c0 := setMessages _ (setIsActive true (setIsActive true _))).
  assert (Hsel : selectModel decryptApiKey env c0 = List.find knownModel ids).
  { rewrite selectModel_find. cbn [currentTurn participants c0 setMessages setIsActive
                                   newConversation].
    assert (Hrot : rotate 0 ids = ids).
    { unfold rotate. destruct ids as [|x l]; [reflexivity|].
      rewrite Nat.Div0.mod_0_l. cbn [drop take]. apply app_nil_r. }
    rewrite Hrot. apply find_agree. intros m Hin.
    apply (missingKeys_nil env sessionId ids Hmiss c0 m);
      [reflexivity | apply list_elem_of_In; exact Hin]. }
  rewrite continue_finishTurn. cbn [isActive c0 setMessages setIsActive negb].
  fold c0. rewrite Hsel.
  destruct (List.find knownModel ids) as [m|].
  - destruct (finishTurn m _ c0) as [[c1 events1] timer1].
    cbn [fmap list_fmap]. eexists. split; [reflexivity|]. reflexivity.
  - cbn [fmap list_fmap id c0 setMessages setIsActive newConversation].
    eexists. split; [reflexivity|]. split; reflexivity.
Qed.

(** X15. The [stopConversation] handler: for an unknown id nothing
    changes and nothing is sent; for a known one the conversation becomes
    inactive and "User requested stop" is sent, also when it was inactive
    already, and the other conversations are untouched.  After it every
    pending callback lapses without an event; but the answer of a call in
    flight is still stored and announced before the chain lapses. *)
Theorem stopConversation_effect (conversationId : string)
    (conversations : gmap string Conversation) :
  match conversations !! conversationId with
  | None => stopConversationHandler conversationId conversations = (conversations, [])
  | Some c =>
      let stopped := setIsActive false c in
      stopConversationHandler conversationId conversations
      = (<[conversationId := stopped]> conversations,
         [FromChain (ConversationEnded conversationId "User requested stop")])
      /\ (forall envs timer,
             runChain decryptApiKey envs timer stopped = (stopped, [], NoTimer))
      /\ (forall m text,
             String.eqb m "user" = false -> isBlank text = false ->
             let '(c', events, timer) := finishTurn m (Ret text) stopped in
             events = [NewMessage (mkMessage m text RoleAi)]
             /\ messages c' = messages c ++ [mkMessage m text RoleAi]
             /\ fire timer c' = Lapses)
  end
  /\ (forall other,
         other <> conversationId ->
         fst (stopConversationHandler conversationId conversations) !! other
         = conversations !! other).
Proof.
  unfold stopConversationHandler, ConversationManager.stopConversation.
  destruct (conversations !! conversationId) as [c|] eqn:Hc.
  - split; [|intros other Hne; cbn [fst]; apply lookup_insert_ne; congruence].
    split; [reflexivity|]. split.
    + intros envs timer. apply runChain_inactive. reflexivity.
    + intros m text Hu Hblank. unfold finishTurn, addMessage.
      rewrite Hblank, Hu. cbn [andb]. repeat split.
  - split; [reflexivity | intros other _; reflexivity].
Qed.

End HandlerProperties.

Lemma startConversation_validation_witness :
  exists more,
    snd (fst (startConversation (fun k => k) talkEnv "s1" "c1"
                ["mistral-7b"; "gpt-4"] "Hi" ∅))
    = ConversationStarted "c1"
      :: FromChain (NewMessage (mkMessage "user" "Hi" RoleUser)) :: more
    /\ head more = Some (FromChain (AiThinking "gpt-4")).
Proof.
  pose proof (startConversation_validation (fun k => k) talkEnv "s1" "c1"
                ["mistral-7b"; "gpt-4"] "Hi" ∅ eq_refl) as H.
  cbv zeta in H.
  destruct (startConversation _ _ _ _ _ _ _) as [[conversations events] timer].
  change (missingKeys (fun k => k) talkEnv "s1" ["mistral-7b"; "gpt-4"])
    with (@nil string) in H.
  destruct H as (more & -> & H). exists more. split; [reflexivity | exact H].
Defined.

(** ** Sequences of [addMessage] *)

Lemma addMessages_messages (ops : list (string * string)) :
  forall c, messages (addMessages ops c) = messages c ++ (messageOf <$> ops).
Proof.
  induction ops as [|op ops IH]; intros c; [symmetry; apply app_nil_r|].
  unfold addMessages in *. cbn [fold_left fmap list_fmap]. rewrite IH.
  unfold addMessage. destruct (String.eqb (fst op) "user" && goalUnset c);
    cbn [fst messages setMessages setInitialGoal]; rewrite <- (assoc_L (++)); reflexivity.
Qed.

Lemma addMessages_goal_kept (ops : list (string * string)) :
  forall c g,
    initialGoal c = Some g -> falsy g = false -> initialGoal (addMessages ops c) = Some g.
Proof.
  induction ops as [|op ops IH]; intros c g Hg Hne; [exact Hg|].
  unfold addMessages in *. cbn [fold_left]. apply IH; [|exact Hne].
  unfold addMessage, goalUnset. rewrite Hg, Hne, andb_false_r. exact Hg.
Qed.

Lemma addMessages_goal_set (ops : list (string * string)) :
  forall c,
    goalUnset c = true ->
    initialGoal (addMessages ops c)
    = match List.find setsGoal ops with
      | Some op => Some (snd op)
      | None => if existsb fromUser ops then Some "" else initialGoal c
      end.
Proof.
  induction ops as [|op ops IH]; intros c Hunset; [reflexivity|].
  change (addMessages (op :: ops) c)
    with (addMessages ops (fst (addMessage (fst op) (snd op) c))).
  cbn [List.find existsb]. unfold setsGoal at 1, fromUser at 1.
  unfold addMessage. rewrite Hunset.
  destruct (String.eqb (fst op) "user"); cbn [andb orb fst].
  - destruct (falsy (snd op)) eqn:Hc; cbn [negb].
    + rewrite IH by (unfold goalUnset; cbn; exact Hc).
      destruct (List.find setsGoal ops); [reflexivity|].
      cbn [initialGoal setMessages setInitialGoal].
      destruct (snd op); [|discriminate Hc].
      destruct (existsb fromUser ops); reflexivity.
    + apply addMessages_goal_kept; [reflexivity | exact Hc].
  - rewrite IH by exact Hunset. reflexivity.
Qed.

(** X16. Any sequence of [addMessage] calls appends its messages in
    order, with the role [user] for the sender "user" and [ai] for every
    other.  A goal that holds a non-empty text is never changed; an unset
    goal becomes the content of the first user message whose content is
    not empty (a user message with empty content sets the empty goal,
    which the next user message may replace). *)
Theorem addMessage_sequence (ops : list (string * string)) (c : Conversation) :
  messages (addMessages ops c) = messages c ++ (messageOf <$> ops)
  /\ (forall g, initialGoal c = Some g -> falsy g = false ->
                initialGoal (addMessages ops c) = Some g)
  /\ (goalUnset c = true ->
      initialGoal (addMessages ops c)
      = match List.find setsGoal ops with
        | Some op => Some (snd op)
        | None => if existsb fromUser ops then Some "" else initialGoal c
        end).
Proof.
  split; [apply addMessages_messages|].
  split; [apply addMessages_goal_kept | apply addMessages_goal_set].
Qed.

(** ** The match evaluator on its own target *)

Lemma matchHere_literal (s : string) :
  forall (prev : option ascii) (tailP : list Term),
    matchHere true ((PatternCharacter <$> list_ascii_of_string s) ++ tailP) prev s
    = matchHere true tailP (lastChar prev s) "".
Proof.
  induction s as [|c s IH]; intros prev tailP; [reflexivity|].
  cbn [list_ascii_of_string fmap list_fmap app matchHere lastChar].
  rewrite N.eqb_refl. cbn [andb]. apply IH.
Qed.

Lemma matchHere_too_short (s : string) :
  forall (rest : string) (prev : option ascii) (tailP : list Term),
    String.length rest < String.length s ->
    matchHere true ((PatternCharacter <$> list_ascii_of_string s) ++ tailP) prev rest
    = false.
Proof.
  induction s as [|c s IH]; intros rest prev tailP Hlen; [cbn in Hlen; lia|].
  cbn [list_ascii_of_string fmap list_fmap app matchHere].
  destruct rest as [|d rest]; [reflexivity|].
  cbn [String.length] in Hlen. rewrite IH by lia. apply andb_false_r.
Qed.

Lemma searchFrom_too_short (s rest : string) :
  forall prev : option ascii,
    String.length rest < String.length s ->
    searchFrom true
      (WordBoundary :: (PatternCharacter <$> list_ascii_of_string s) ++ [WordBoundary])
      prev rest = false.
Proof.
  induction rest as [|d rest IH]; intros prev Hlen; cbn [searchFrom matchHere].
  - rewrite matchHere_too_short by exact Hlen. rewrite andb_false_r. reflexivity.
  - rewrite matchHere_too_short by exact Hlen. rewrite andb_false_r. cbn [orb].
    apply IH. cbn [String.length] in Hlen. lia.
Qed.

(** X17. A response that consists of the target is found exactly when
    the trimmed target begins and ends with a word character (a letter of
    A-Z or a-z, a digit or the underscore): a target such as "C++" is not
    found in the response "C++".  A response shorter than the target,
    both trimmed, is never a match. *)
Theorem checkExactMatch_on_target :
  (forall target : string,
      checkExactMatch target target
      = Ret match trim target with
            | EmptyString => false
            | String first _ =>
                isWordChar (Some first) && isWordChar (lastChar None (trim target))
            end)
  /\ (forall response target : string,
         String.length (trim response) < String.length (trim target) ->
         checkExactMatch response target = Ret false).
Proof.
  split.
  - intros target. rewrite checkExactMatch_Ret.
    destruct (trim target) as [|first s] eqn:E; [reflexivity|].
    cbn [falsy orb]. unfold matchesWholeWord.
    rewrite newRegExp_wordBoundarySource. unfold test. cbn [pattern ignoreCase].
    cbn [searchFrom].
    rewrite searchFrom_too_short by (cbn [String.length]; lia).
    rewrite orb_false_r. cbn [matchHere headChar isWordChar xorb].
    rewrite matchHere_literal. cbn [matchHere headChar isWordChar].
    rewrite xorb_false_r, andb_true_r. reflexivity.
  - intros response target Hlen. rewrite checkExactMatch_Ret.
    destruct (falsy (trim response) || falsy (trim target)); [reflexivity|].
    unfold matchesWholeWord. rewrite newRegExp_wordBoundarySource.
    unfold test. cbn [pattern ignoreCase].
    rewrite searchFrom_too_short by exact Hlen. reflexivity.
Qed.

(** ** The requests of a needle test *)

Lemma trimStart_keeps (c : ascii) (b : string) :
  isWhiteSpace c = false ->
  forall a, exists a', trimStart (a +:+ String c b) = a' +:+ String c b.
Proof.
  intros Hc a. induction a as [|x a IH].
  - exists "". change ("" +:+ String c b) with (String c b). cbn [trimStart].
    rewrite Hc. reflexivity.
  - change (String x a +:+ String c b) with (String x (a +:+ String c b)).
    cbn [trimStart]. destruct (isWhiteSpace x); [exact IH|].
    exists (String x a). reflexivity.
Qed.

Lemma trimEnd_keeps (c : ascii) (b : string) :
  isWhiteSpace c = false ->
  forall a, trimEnd (a +:+ String c b) <> "".
Proof.
  intros Hc a. induction a as [|x a IH].
  - change ("" +:+ String c b) with (String c b). cbn [trimEnd]. rewrite Hc.
    destruct (trimEnd b); discriminate.
  - change (String x a +:+ String c b) with (String x (a +:+ String c b)).
    cbn [trimEnd]. destruct (trimEnd (a +:+ String c b)); [contradiction|discriminate].
Qed.

Lemma needlePrompt_not_blank (needle haystack : string) :
  falsy (needlePrompt needle haystack) = false
  /\ (0 <? String.length (trim (needlePrompt needle haystack)))%nat = true.
Proof.
  assert (E : needlePrompt needle haystack
              = (needle +:+ LF +:+ LF) +:+ String "C" ("ontext document:" +:+ LF +:+ haystack)).
  { unfold needlePrompt. rewrite !append_assoc. reflexivity. }
  assert (Hc : isWhiteSpace "C" = false) by reflexivity.
  split.
  - rewrite E. destruct (needle +:+ LF +:+ LF); reflexivity.
  - unfold trim. rewrite E.
    destruct (trimStart_keeps "C" ("ontext document:" +:+ LF +:+ haystack) Hc
                (needle +:+ LF +:+ LF)) as [a' ->].
    pose proof (trimEnd_keeps "C" ("ontext document:" +:+ LF +:+ haystack) Hc a') as Hne.
    destruct (trimEnd _); [contradiction|reflexivity].
Qed.

Lemma needleGenConfig_tokens (modelConfig : ModelConfig) (d : N) :
  orN (genMaxTokens (needleGenConfig modelConfig)) d
  = genMaxTokens (needleGenConfig modelConfig).
Proof.
  unfold needleGenConfig, orN. cbn [genMaxTokens].
  destruct (maxTokens modelConfig) as [[|n]|]; reflexivity.
Qed.

Lemma needleGenConfig_temperature (modelConfig : ModelConfig) (q : Q) :
  orQ (genTemperature (needleGenConfig modelConfig)) q
  = genTemperature (needleGenConfig modelConfig).
Proof.
  unfold needleGenConfig, orQ. cbn [genTemperature].
  destruct (temperature modelConfig) as [t|]; [|reflexivity].
  destruct (Qeq_bool t 0) eqn:E; [reflexivity | rewrite E; reflexivity].
Qed.

Lemma shapeClaudeMessages_single_user (text : string) :
  falsy text = false ->
  shapeClaudeMessages [mkMessage "user" text RoleUser] = [mkClaude ApiUser text].
Proof.
  intros Hne.
  assert (Hu : isUser (mkMessage "user" text RoleUser) = true) by reflexivity.
  unfold shapeClaudeMessages, findInitialPrompt.
  cbn [List.find length Nat.ltb Nat.leb List.filter]. rewrite Hu.
  unfold claudeKeep. cbn [content]. rewrite Hne. cbn [negb andb].
  destruct (includes text PLACEHOLDER); cbn [negb fold_left length Nat.eqb last apiRole
    apiRole_eqb toApiRole role content]; rewrite ?Hne; reflexivity.
Qed.

Section NeedleRequests.

Variable sdk : Sdk.
Variable ENV : gmap string string.
Variable decryptApiKey : string -> string.

(** X18. The provider call of a needle test: the OpenAI APIs receive the
    prompt as the one user message (the chat API behind its system
    message); Claude receives it as the one user message, also when the
    document quotes the placeholder text, and a second time inside the
    system message that frames a conversation between AIs; Gemini receives
    it twice in one text, in that framing and as the line of the human.
    Token limit and temperature are those of the test (1000 and 0.7 when
    absent or 0): the limits 2048 and 1024 of the provider functions are
    never sent. *)
Theorem needle_test_requests (st : KeyState) (userId needle haystack : string)
    (modelConfig : ModelConfig) :
  let prompt := needle +:+ LF +:+ LF +:+ "Context document:" +:+ LF +:+ haystack in
  let tokens :=
    match maxTokens modelConfig with Some 0%N | None => 1000%N | Some n => n end in
  let heat :=
    match temperature modelConfig with
    | Some t => if Qeq_bool t 0 then (7 # 10)%Q else t
    | None => (7 # 10)%Q
    end in
  let '(models, calls, result) :=
    generateResponseWithConfig sdk ENV decryptApiKey st (modelId modelConfig)
      [mkMessage "user" prompt RoleUser] userId
      (mkConfig (Some heat) (Some tokens)) in
  Forall (needleRequestOk prompt tokens heat) calls.
Proof.
  intros prompt tokens heat.
  change prompt with (needlePrompt needle haystack).
  change tokens with (genMaxTokens (needleGenConfig modelConfig)).
  change heat with (genTemperature (needleGenConfig modelConfig)).
  change [mkMessage "user" (needlePrompt needle haystack) RoleUser]
    with (needleMessages needle haystack).
  change (mkConfig _ _) with (needleConfig modelConfig).
  destruct (needlePrompt_not_blank needle haystack) as [Hne Htrim].
  destruct (entryOf adapterModelMapping (modelId modelConfig)) as [e|] eqn:He.
  2:{ destruct (adapter_outside_table sdk ENV decryptApiKey st (modelId modelConfig)
                  (needleMessages needle haystack) userId (needleConfig modelConfig) He)
        as (message & Hout).
      pose proof (Hout (clients st)) as Hst. destruct st as [stored cl].
      cbn [storedKeys clients] in Hst. rewrite Hst. constructor. }
  destruct (getApiKey ENV (storedKeys st) decryptApiKey (apiKeyField e) userId)
    as [k|] eqn:Hkey.
  2:{ unfold generateResponseWithConfig.
      rewrite (modelConfigOf_table _ _ He), Hkey. constructor. }
  destruct (falsy k) eqn:Hfalsy.
  { unfold generateResponseWithConfig.
    rewrite (modelConfigOf_table _ _ He), Hkey, Hfalsy. constructor. }
  destruct (adapter_known sdk ENV decryptApiKey st (modelId modelConfig)
              (needleMessages needle haystack) userId (needleConfig modelConfig)
              e k He Hkey Hfalsy) as (calls & result & -> & Hcase).
  assert (Hfinal : finalConfigOf (needleConfig modelConfig) = needleGenConfig modelConfig)
    by reflexivity.
  rewrite Hfinal in Hcase.
  destruct Hcase as [[Hp E]|[[Hp E]|[Hp E]]].
  - unfold generateOpenAIResponse in E. cbn [openai] in E.
    destruct (String.eqb (default "chat" (apiType e)) "responses");
      injection E as -> _; apply Forall_singleton;
      cbn [needleRequestOk responsesRequestBody chatRequestBody rInput rMaxOutputTokens
           cMessages cMaxTokens cTemperature].
    + split; [reflexivity | apply needleGenConfig_tokens].
    + split; [reflexivity|].
      split; [apply needleGenConfig_tokens | apply needleGenConfig_temperature].
  - unfold generateGeminiOnClient, generateGeminiResponse, geminiPrompt in E.
    cbn [gemini needleMessages List.filter] in E. unfold geminiValid in E.
    cbn [content] in E. rewrite Hne, Htrim in E.
    cbn [negb andb length Nat.eqb fold_left] in E.
    unfold findInitialPrompt in E. cbn [List.find] in E.
    change (isUser (mkMessage "user" (needlePrompt needle haystack) RoleUser))
      with true in E.
    cbn [content] in E. rewrite Hne in E. cbn [fmap list_fmap] in E. injection E as -> _.
    apply Forall_singleton. cbn [needleRequestOk].
    unfold geminiFraming, geminiLine, geminiSpeaker.
    change (isUser (mkMessage "user" (needlePrompt needle haystack) RoleUser)) with true.
    cbn [content]. rewrite !append_assoc. reflexivity.
  - unfold generateClaudeResponse in E. cbn [claude] in E. injection E as -> _.
    apply Forall_singleton.
    cbn [needleRequestOk claudeRequestBody aSystem aMessages aMaxTokens aTemperature].
    unfold needleMessages. rewrite (shapeClaudeMessages_single_user _ Hne).
    unfold findInitialPrompt. cbn [List.find].
    change (isUser (mkMessage "user" (needlePrompt needle haystack) RoleUser)) with true.
    cbn [content]. rewrite Hne.
    split; [reflexivity|]. split; [reflexivity|].
    split; [apply needleGenConfig_tokens | apply needleGenConfig_temperature].
Qed.

End NeedleRequests.
